(** * Option pricing analyzer: ingestion, per-option results and portfolio summary

    A shallow embedding of [scripts/option_pricing_analyzer.py]
    (class [OptionPricingAnalyzer]) and the properties of its CSV parsers,
    spot estimator, per-option result construction and portfolio summary.

    Conventions of the embedding.
    - A Python [float] is a binary64 value, Rocq's primitive [float]; Python
      numbers are [num], an [int] or a [float], with Python's coercion of
      [int] to [float] in mixed arithmetic.
    - A Python [str] is a [string]; the string helpers follow Python on ASCII
      text.
    - An exception is a value of [exn]; code that can raise returns a
      [result]; the loop of the option-chain parser, which appends to a list
      inside a [try], runs in a state-and-exception monad whose state survives
      a caught exception, as the list does in Python.
    - A dict with a fixed set of keys is a record; a key that may be missing
      is an [option] field, and so is a value that may be [None].  A row of
      [csv.DictReader] is a finite map from column names to cells.
    - What the interpreter or an external process supplies (the conversion
      [float(str)], the regular-expression match on the file name, today's
      date, the clock, the pricing executable) is a variable of a section. *)

From Stdlib Require Import ZArith List String Ascii Bool Lia.
From Stdlib Require Import Floats.
From stdpp Require Import base option list gmap strings.

Set Warnings "-inexact-float".

Open Scope string_scope.
Open Scope list_scope.
Open Scope Z_scope.

(** ** Exceptions and results *)

Inductive exn : Set :=
| ValueError
| IndexError
| KeyError
| TypeError
| AttributeError
| ZeroDivisionError
| StopIteration
| OSError.

Inductive result (A : Type) : Type :=
| Ok (a : A)
| Raise (e : exn).

Arguments Ok {A} a.
Arguments Raise {A} e.

#[global] Instance result_ret : MRet result := fun A a => Ok a.

#[global] Instance result_bind : MBind result := fun A B f m =>
  match m with
  | Ok a => f a
  | Raise e => Raise e
  end.

(** [raises m] holds when the computation ends in an exception. *)
Definition raises {A} (m : result A) : bool :=
  match m with
  | Ok _ => false
  | Raise _ => true
  end.

(** [for x in xs: f(x)] collecting the values, stopping at the first
    exception. *)
Fixpoint result_map {A B} (f : A -> result B) (xs : list A) : result (list B) :=
  match xs with
  | [] => Ok []
  | x :: rest =>
      y ← f x;
      ys ← result_map f rest;
      mret (y :: ys)
  end.

(** ** Python numbers *)

(** [float(z)] for an [int]: the nearest binary64 value (exact up to 2^53;
    the ints of this program are 0, 1, 100 and list lengths). *)
Definition Z_to_float (z : Z) : float :=
  SF2Prim (binary_normalize prec emax z 0 false).

Inductive num : Set :=
| Int (z : Z)
| Float (f : float).

Definition to_float (n : num) : float :=
  match n with
  | Int z => Z_to_float z
  | Float f => f
  end.

Definition py_add (a b : num) : num :=
  match a, b with
  | Int x, Int y => Int (x + y)
  | _, _ => Float (to_float a + to_float b)
  end.

Definition py_sub (a b : num) : num :=
  match a, b with
  | Int x, Int y => Int (x - y)
  | _, _ => Float (to_float a - to_float b)
  end.

Definition py_mul (a b : num) : num :=
  match a, b with
  | Int x, Int y => Int (x * y)
  | _, _ => Float (to_float a * to_float b)
  end.

(** [n == 0], which is also [not n]: true of [0], [0.0] and [-0.0], false of
    a NaN. *)
Definition is_zero (n : num) : bool :=
  match n with
  | Int z => z =? 0
  | Float f => PrimFloat.eqb f 0
  end.

(** [a / b]: true division, always a [float]; a zero divisor raises. *)
Definition py_truediv (a b : num) : result num :=
  if is_zero b then Raise ZeroDivisionError
  else Ok (Float (to_float a / to_float b)).

Definition py_abs (n : num) : num :=
  match n with
  | Int z => Int (Z.abs z)
  | Float f => Float (PrimFloat.abs f)
  end.

Definition py_lt (a b : num) : bool :=
  match a, b with
  | Int x, Int y => x <? y
  | _, _ => PrimFloat.ltb (to_float a) (to_float b)
  end.

Definition py_gt (a b : num) : bool := py_lt b a.

(** [x or d] on an optional number: [d] when [x] is [None] or zero. *)
Definition py_or (x : option num) (d : num) : num :=
  match x with
  | Some n => if is_zero n then d else n
  | None => d
  end.

(** [sum(xs)]: the items added from left to right onto the [int] 0.
    (CPython from 3.12 on carries a compensation term along a sum of floats;
    the two readings agree wherever the running sums are exact, as they are in
    every sample input below, and no property here depends on the order or
    rounding of the additions.) *)
Definition py_sum (xs : list num) : num := fold_left py_add xs (Int 0).

(** [len(xs)] as a Python [int]. *)
Definition len {A} (xs : list A) : Z := Z.of_nat (length xs).

(** ** Python strings (ASCII) *)

Definition is_space (c : ascii) : bool :=
  let n := nat_of_ascii c in
  Nat.eqb n 32 || (Nat.leb 9 n && Nat.leb n 13) || (Nat.leb 28 n && Nat.leb n 31).

Fixpoint lstrip (s : string) : string :=
  match s with
  | EmptyString => EmptyString
  | String c rest => if is_space c then lstrip rest else s
  end.

Fixpoint rstrip (s : string) : string :=
  match s with
  | EmptyString => EmptyString
  | String c rest =>
      match rstrip rest with
      | EmptyString => if is_space c then EmptyString else String c EmptyString
      | kept => String c kept
      end
  end.

(** [s.strip()] *)
Definition strip (s : string) : string := rstrip (lstrip s).

(** [s.replace(c, '')] for a one-character [c]. *)
Fixpoint remove_char (c : ascii) (s : string) : string :=
  match s with
  | EmptyString => EmptyString
  | String d rest =>
      if Ascii.eqb c d then remove_char c rest else String d (remove_char c rest)
  end.

Definition lower_char (c : ascii) : ascii :=
  let n := nat_of_ascii c in
  if Nat.leb 65 n && Nat.leb n 90 then ascii_of_nat (n + 32) else c.

(** [s.lower()] *)
Fixpoint lower (s : string) : string :=
  match s with
  | EmptyString => EmptyString
  | String c rest => String (lower_char c) (lower rest)
  end.

(** [sub in s] *)
Fixpoint contains (sub s : string) : bool :=
  String.prefix sub s ||
  match s with
  | EmptyString => false
  | String _ rest => contains sub rest
  end.

(** [not s] on a string. *)
Definition is_empty (s : string) : bool :=
  match s with
  | EmptyString => true
  | String _ _ => false
  end.

(** [row[i]] on a list: [IndexError] past the end. *)
Definition getitem {A} (row : list A) (i : nat) : result A :=
  match nth_error row i with
  | Some x => Ok x
  | None => Raise IndexError
  end.

(** ** Calendar dates, as [datetime.date] numbers them *)

Definition is_leap (year : Z) : bool :=
  (year mod 4 =? 0) && (negb (year mod 100 =? 0) || (year mod 400 =? 0)).

Definition days_in_month (year month : Z) : Z :=
  if month =? 2 then (if is_leap year then 29 else 28)
  else if (month =? 4) || (month =? 6) || (month =? 9) || (month =? 11) then 30
  else 31.

Definition days_before_year (year : Z) : Z :=
  let y := year - 1 in y * 365 + y / 4 - y / 100 + y / 400.

Fixpoint days_before_month_from (year : Z) (months : nat) : Z :=
  match months with
  | O => 0
  | S k => days_before_month_from year k + days_in_month year (Z.of_nat (S k))
  end.

Definition days_before_month (year month : Z) : Z :=
  days_before_month_from year (Z.to_nat (month - 1)).

(** [date(year, month, day).toordinal()]; [None] is the [ValueError] of a
    date that does not exist. *)
Definition date (year month day : Z) : option Z :=
  if (1 <=? year) && (year <=? 9999) && (1 <=? month) && (month <=? 12)
     && (1 <=? day) && (day <=? days_in_month year month)
  then Some (days_before_year year + days_before_month year month + day)
  else None.

Definition digit_value (c : ascii) : option Z :=
  let n := nat_of_ascii c in
  if Nat.leb 48 n && Nat.leb n 57 then Some (Z.of_nat n - 48) else None.

Fixpoint int_from (acc : Z) (s : string) : option Z :=
  match s with
  | EmptyString => Some acc
  | String c rest =>
      match digit_value c with
      | Some d => int_from (10 * acc + d) rest
      | None => None
      end
  end.

(** [int(s)] on the digit strings the date pattern captures; [None] is
    [ValueError]. *)
Definition int (s : string) : option Z :=
  if is_empty s then None else int_from 0 s.

(** ** The dicts of the program *)

(** An option as the parsers build it.  Keys [position] and [spot_price] are
    missing from the dicts of the option-chain parser ([None] here);
    [market_price] is always a key, and its value is [None] in the dicts of
    the portfolio parser.  [symbol] is a cell of the row, which
    [csv.DictReader] may have filled with [None]. *)
Module Opt.
Record t : Set := mk {
  symbol : option string;
  strike : num;
  option_type : string;
  market_price : option num;
  implied_volatility : num;
  expiry_days : num;
  position : option num;
  spot_price : option num
}.
End Opt.

(** What [calculate_option_price] returns. *)
Module Calc.
Record t : Set := mk {
  theoretical_price : num;
  delta : num;
  gamma : num;
  vega : num;
  theta : num;
  calculation_success : bool
}.
End Calc.

(** A per-option result of [analyze_csv].  Keys [price_difference] and
    [price_difference_pct] exist only when the [if] of lines 294-296 ran
    ([None] here is a missing key). *)
Module Res.
Record t : Set := mk {
  symbol : option string;
  option_type : string;
  strike : num;
  spot_price : num;
  expiry_days : num;
  implied_volatility : num;
  market_price : option num;
  position : num;
  theoretical_price : num;
  delta : num;
  gamma : num;
  vega : num;
  theta : num;
  calculation_success : bool;
  price_difference : option num;
  price_difference_pct : option num
}.
End Res.

(** ** The monad of the parsing loops: the list [options] under construction
    is the state, and it keeps what was appended before an exception. *)

Definition parser (A : Type) : Type := list Opt.t -> result A * list Opt.t.

#[global] Instance parser_ret : MRet parser := fun A a options => (Ok a, options).

#[global] Instance parser_bind : MBind parser := fun A B f m options =>
  match m options with
  | (Ok a, options') => f a options'
  | (Raise e, options') => (Raise e, options')
  end.

#[global] Instance parser_fmap : FMap parser := fun A B f m options =>
  match m options with
  | (Ok a, options') => (Ok (f a), options')
  | (Raise e, options') => (Raise e, options')
  end.

Definition lift {A} (r : result A) : parser A := fun options => (r, options).

(** [options.append(o)] *)
Definition append (o : Opt.t) : parser unit := fun options => (Ok tt, options ++ [o]).

(** [try: m  except caught: handler] inside a loop. *)
Definition parser_try (m : parser unit) (caught : exn -> bool) (handler : parser unit)
  : parser unit :=
  fun options =>
    match m options with
    | (Raise e, options') => if caught e then handler options' else (Raise e, options')
    | done => done
    end.

(** [options = []; <loop>; return options] *)
Definition run_parser (loop : parser unit) : result (list Opt.t) :=
  match loop [] with
  | (Ok _, options) => Ok options
  | (Raise e, _) => Raise e
  end.

(** ** [estimate_spot_price] (lines 173-187) *)

Definition is_call (o : Opt.t) : bool := String.eqb (Opt.option_type o) "call".
Definition is_put (o : Opt.t) : bool := String.eqb (Opt.option_type o) "put".

(** [not xs] on a list. *)
Definition is_nil {A} (xs : list A) : bool :=
  match xs with
  | [] => true
  | _ :: _ => false
  end.

Definition estimate_spot_price (options : list Opt.t) : result num :=
  if is_nil options then Ok (Float 23000)
  else
    let call_strikes := List.filter is_call options in
    let put_strikes := List.filter is_put options in
    if is_nil call_strikes || is_nil put_strikes then Ok (Float 23000)
    else
      let all_strikes := List.map Opt.strike options in
      if is_nil all_strikes then Ok (Float 23000)
      else py_truediv (py_sum all_strikes) (Int (len all_strikes)).

(** ** The per-option result of [analyze_csv] (lines 281-298) *)

(** The dict literal of lines 281-291. *)
Definition base_result (option : Opt.t) (spot_price : num) (calculation : Calc.t) : Res.t :=
  {| Res.symbol := Opt.symbol option;
     Res.option_type := Opt.option_type option;
     Res.strike := Opt.strike option;
     Res.spot_price := spot_price;
     Res.expiry_days := Opt.expiry_days option;
     Res.implied_volatility := Opt.implied_volatility option;
     Res.market_price := Opt.market_price option;
     Res.position := default (Int 1) (Opt.position option);
     Res.theoretical_price := Calc.theoretical_price calculation;
     Res.delta := Calc.delta calculation;
     Res.gamma := Calc.gamma calculation;
     Res.vega := Calc.vega calculation;
     Res.theta := Calc.theta calculation;
     Res.calculation_success := Calc.calculation_success calculation;
     Res.price_difference := None;
     Res.price_difference_pct := None |}.

Definition set_differences (result : Res.t) (difference pct : num) : Res.t :=
  {| Res.symbol := Res.symbol result;
     Res.option_type := Res.option_type result;
     Res.strike := Res.strike result;
     Res.spot_price := Res.spot_price result;
     Res.expiry_days := Res.expiry_days result;
     Res.implied_volatility := Res.implied_volatility result;
     Res.market_price := Res.market_price result;
     Res.position := Res.position result;
     Res.theoretical_price := Res.theoretical_price result;
     Res.delta := Res.delta result;
     Res.gamma := Res.gamma result;
     Res.vega := Res.vega result;
     Res.theta := Res.theta result;
     Res.calculation_success := Res.calculation_success result;
     Res.price_difference := Some difference;
     Res.price_difference_pct := Some pct |}.

(** Lines 281-297: the dict, then the market against theoretical difference. *)
Definition make_result (option : Opt.t) (spot_price : num) (calculation : Calc.t)
  : result Res.t :=
  let result := base_result option spot_price calculation in
  match Res.market_price result with
  | Some market_price =>
      let price_difference := py_sub market_price (Res.theoretical_price result) in
      pct ← (if py_gt (Res.theoretical_price result) (Int 0)
             then q ← py_truediv price_difference (Res.theoretical_price result);
                  mret (py_mul q (Int 100))
             else mret (Int 0));
      mret (set_differences result price_difference pct)
  | None => mret result
  end.

(** ** [_generate_summary] (lines 316-356) *)

Record portfolio_metrics : Set := {
  total_value : num;
  net_delta : num;
  net_gamma : num;
  net_vega : num;
  net_theta : num;
  delta_adjusted_value : num
}.

Record market_analysis : Set := {
  options_with_market_prices : Z;
  avg_price_difference_pct : num;
  overpriced_count : Z;
  underpriced_count : Z
}.

(** The market analysis of a run in which no successful result carries a
    market price. *)
Definition no_market_analysis : market_analysis :=
  {| options_with_market_prices := 0;
     avg_price_difference_pct := Int 0;
     overpriced_count := 0;
     underpriced_count := 0 |}.

Record risk_metrics : Set := {
  portfolio_delta_risk : num;
  portfolio_gamma_risk : num;
  portfolio_vega_risk : num;
  portfolio_theta_decay : num
}.

(** The summary dict: either [{'error': msg}] or the three groups. *)
Inductive summary : Set :=
| SummaryError (error : string)
| Summary (pm : portfolio_metrics) (ma : market_analysis) (rm : risk_metrics).

(** [r[key]] on a key of a result that may be missing. *)
Definition key {A} (field : option A) : result A :=
  match field with
  | Some v => Ok v
  | None => Raise KeyError
  end.

Definition has_market_price (r : Res.t) : bool :=
  match Res.market_price r with
  | Some _ => true
  | None => false
  end.

(** [sum(r[greek] * r['position'] for r in rs)] *)
Definition weighted (greek : Res.t -> num) (rs : list Res.t) : num :=
  py_sum (List.map (fun r => py_mul (greek r) (Res.position r)) rs).

(** [len([r for r in rs if test(r['price_difference'], 0)])] *)
Definition count_differences (test : num -> num -> bool) (rs : list Res.t) : result Z :=
  differences ← result_map (fun r => key (Res.price_difference r)) rs;
  mret (len (List.filter (fun d => test d (Int 0)) differences)).

Definition _generate_summary (results : list Res.t) (spot_price : num) : result summary :=
  let successful_calcs := List.filter Res.calculation_success results in
  if is_nil successful_calcs then Ok (SummaryError "No successful calculations")
  else
    let total_delta := weighted Res.delta successful_calcs in
    let total_gamma := weighted Res.gamma successful_calcs in
    let total_vega := weighted Res.vega successful_calcs in
    let total_theta := weighted Res.theta successful_calcs in
    let portfolio_value := weighted Res.theoretical_price successful_calcs in
    let mispriced_options := List.filter has_market_price successful_calcs in
    avg_price_diff ←
      (if is_nil mispriced_options then mret (Int 0)
       else
         pcts ← result_map (fun r => key (Res.price_difference_pct r)) mispriced_options;
         py_truediv (py_sum (List.map py_abs pcts)) (Int (len mispriced_options)));
    overpriced ← count_differences py_gt mispriced_options;
    underpriced ← count_differences py_lt mispriced_options;
    mret (Summary
      {| total_value := portfolio_value;
         net_delta := total_delta;
         net_gamma := total_gamma;
         net_vega := total_vega;
         net_theta := total_theta;
         delta_adjusted_value :=
           py_add portfolio_value (py_mul (py_mul total_delta spot_price) (Float 0.01)) |}
      {| options_with_market_prices := len mispriced_options;
         avg_price_difference_pct := avg_price_diff;
         overpriced_count := overpriced;
         underpriced_count := underpriced |}
      {| portfolio_delta_risk := py_mul (py_mul (py_abs total_delta) spot_price) (Float 0.01);
         portfolio_gamma_risk :=
           py_mul (py_mul (py_mul (py_abs total_gamma) spot_price) spot_price) (Float 0.0001);
         portfolio_vega_risk := py_mul (py_abs total_vega) (Float 0.01);
         portfolio_theta_decay := total_theta |}).

(** ** The report of [analyze_csv] *)

Module Meta.
Record t : Set := mk {
  filename : string;
  format_type : string;
  total_options : Z;
  spot_price : num;
  risk_free_rate : num;
  analysis_time : string
}.
End Meta.

Inductive report : Set :=
| ReportError (error : string)
| Report (metadata : Meta.t) (options : list Res.t) (summary : summary).

(** A CSV file as the program reads it: its first line ([f.readline()]), its
    rows as [csv.reader] yields them (header included) and as
    [csv.DictReader] yields them (a cell is [None] where the row is shorter
    than the header). *)
Record csv_file : Type := {
  filepath : string;
  name : string;
  first_line : string;
  reader_rows : list (list string);
  dict_rows : list (gmap string (option string))
}.

Definition month_map : gmap string Z :=
  list_to_map
    [("Jan", 1); ("Feb", 2); ("Mar", 3); ("Apr", 4); ("May", 5); ("Jun", 6);
     ("Jul", 7); ("Aug", 8); ("Sep", 9); ("Oct", 10); ("Nov", 11); ("Dec", 12)].

(** [row[key]] on a row of [csv.DictReader]. *)
Definition cell (row : gmap string (option string)) (column : string)
  : result (option string) :=
  match row !! column with
  | Some v => Ok v
  | None => Raise KeyError
  end.

(** [v.lower()] on a cell: [None] has no such method. *)
Definition lower_cell (v : option string) : result string :=
  match v with
  | Some s => Ok (lower s)
  | None => Raise AttributeError
  end.

Definition caught_by_chain (e : exn) : bool :=
  match e with
  | ValueError | IndexError => true
  | _ => false
  end.

Definition caught_by_portfolio (e : exn) : bool :=
  match e with
  | ValueError | KeyError => true
  | _ => false
  end.


(** * The rest of the analyzer: the pricing client
    and the report formats *)

From Stdlib Require Import DecimalString.

(** [str(z)] for an [int]. *)
Definition str_int (z : Z) : string := NilZero.string_of_int (Z.to_int z).

(** ** Pattern search

    The five patterns of lines 212-216 have one shape: a literal label,
    [\s*], and a group [[...]+] over a set of characters that holds no blank.
    [search] is [re.search(pattern, output)] for that shape, and its value
    the text of group 1. *)

Definition is_digit (c : ascii) : bool :=
  match digit_value c with
  | Some _ => true
  | None => false
  end.

(** [[\d.]] *)
Definition digit_or_dot (c : ascii) : bool := is_digit c || Ascii.eqb c ".".

(** [[-\d.]] *)
Definition sign_digit_or_dot (c : ascii) : bool := Ascii.eqb c "-" || digit_or_dot c.

Fixpoint take_while (keep : ascii -> bool) (s : string) : string :=
  match s with
  | EmptyString => EmptyString
  | String c rest => if keep c then String c (take_while keep rest) else EmptyString
  end.

Fixpoint drop_while (skip : ascii -> bool) (s : string) : string :=
  match s with
  | EmptyString => EmptyString
  | String c rest => if skip c then drop_while skip rest else s
  end.

(** The text after [label] when [s] starts with it. *)
Fixpoint after_label (label s : string) : option string :=
  match label, s with
  | EmptyString, _ => Some s
  | String a label', String b s' => if Ascii.eqb a b then after_label label' s' else None
  | String _ _, EmptyString => None
  end.

(** The pattern matched at the start of [s]: the label, all the blanks that
    follow, and the longest run of group characters, which must not be
    empty. *)
Definition match_here (label : string) (group : ascii -> bool) (s : string)
  : option string :=
  match after_label label s with
  | Some rest =>
      let text := take_while group (drop_while is_space rest) in
      if is_empty text then None else Some text
  | None => None
  end.

(** The leftmost match. *)
Fixpoint search (label : string) (group : ascii -> bool) (s : string) : option string :=
  match match_here label group s with
  | Some text => Some text
  | None =>
      match s with
      | EmptyString => None
      | String _ rest => search label group rest
      end
  end.

(** ** The pricing client (lines 189-243) *)

(** What [subprocess.run(cmd, capture_output=True, text=True, timeout=30)]
    does: the process completes, or the call raises. *)
Inductive run_outcome : Set :=
| Completed (returncode : Z) (stdout stderr : string)
| TimeoutExpired
| SubprocessError
| Raised (e : exn).

(** Lines 234-243. *)
Definition _default_option_result : Calc.t :=
  {| Calc.theoretical_price := Float 0;
     Calc.delta := Float 0;
     Calc.gamma := Float 0;
     Calc.vega := Float 0;
     Calc.theta := Float 0;
     Calc.calculation_success := false |}.

Module Client.
Section Runtime.

(** [float(s)] of the interpreter; [None] is its [ValueError]. *)
Variable py_float : string -> option float.

(** [str(x)] on a [float]. *)
Variable str_float : float -> string.

(** [subprocess.run] on a command line. *)
Variable subprocess_run : list string -> run_outcome.

(** [self.bsm_executable] *)
Variable bsm_executable : string.

(** [str(x)] on a number. *)
Definition str (x : num) : string :=
  match x with
  | Int z => str_int z
  | Float f => str_float f
  end.

(** [float(m.group(1)) if m else 0.0] *)
Definition number (m : option string) : result num :=
  match m with
  | Some text =>
      match py_float text with
      | Some f => Ok (Float f)
      | None => Raise ValueError
      end
  | None => Ok (Float 0)
  end.

(** The command line of lines 196-205. *)
Definition command (option : Opt.t) (spot_price risk_free_rate : num) : list string :=
  let time_to_expiry := Float (to_float (Opt.expiry_days option) / 365) in
  [bsm_executable; "price";
   "--spot"; str spot_price;
   "--strike"; str (Opt.strike option);
   "--rate"; str risk_free_rate;
   "--time"; str time_to_expiry;
   "--vol"; str (Opt.implied_volatility option);
   "--type"; Opt.option_type option].

(** The dict of lines 218-225, read off the output of the executable. *)
Definition read_output (output : string) : result Calc.t :=
  let price_match := search "Price:" digit_or_dot output in
  let delta_match := search "Delta:" sign_digit_or_dot output in
  let gamma_match := search "Gamma:" digit_or_dot output in
  let vega_match := search "Vega:" digit_or_dot output in
  let theta_match := search "Theta:" sign_digit_or_dot output in
  theoretical_price ← number price_match;
  delta ← number delta_match;
  gamma ← number gamma_match;
  vega ← number vega_match;
  theta ← number theta_match;
  mret {| Calc.theoretical_price := theoretical_price;
          Calc.delta := delta;
          Calc.gamma := gamma;
          Calc.vega := vega;
          Calc.theta := theta;
          Calc.calculation_success := true |}.

(** How a field of the output is read: not shown, it is 0.0; shown, it is
    what [float] makes of its text. *)
Definition field_read (label : string) (group : ascii -> bool) (output : string)
    (value : num) : Prop :=
  match search label group output with
  | Some text => exists f, py_float text = Some f /\ value = Float f
  | None => value = Float 0
  end.

(** [except (subprocess.TimeoutExpired, subprocess.SubprocessError,
    ValueError)] on an exception of [exn]. *)
Definition caught_by_client (e : exn) : bool :=
  match e with
  | ValueError => true
  | _ => false
  end.

(** Lines 189-232. *)
Definition calculate_option_price (option : Opt.t) (spot_price risk_free_rate : num)
  : result Calc.t :=
  match subprocess_run (command option spot_price risk_free_rate) with
  | Completed returncode stdout stderr =>
      if returncode =? 0
      then match read_output stdout with
           | Ok calculation => Ok calculation
           | Raise e => if caught_by_client e then Ok _default_option_result else Raise e
           end
      else Ok _default_option_result
  | TimeoutExpired | SubprocessError => Ok _default_option_result
  | Raised e => if caught_by_client e then Ok _default_option_result else Raise e
  end.

End Runtime.
End Client.

(** What the client makes of an outcome.  The process could be started: the
    call did not raise an exception the client leaves uncaught. *)
Definition started (outcome : run_outcome) : bool :=
  match outcome with
  | Raised e => Client.caught_by_client e
  | _ => true
  end.

(** The process gave no usable answer: anything but exit status 0. *)
Definition failed (outcome : run_outcome) : bool :=
  match outcome with
  | Completed returncode _ _ => negb (returncode =? 0)
  | Raised e => Client.caught_by_client e
  | _ => true
  end.

(** Every character of [s] satisfies [p]. *)
Fixpoint all_chars (p : ascii -> bool) (s : string) : bool :=
  match s with
  | EmptyString => true
  | String c rest => p c && all_chars p rest
  end.

(** [s] does not start with a character satisfying [p]. *)
Definition stops (p : ascii -> bool) (s : string) : bool :=
  match s with
  | EmptyString => true
  | String c _ => negb (p c)
  end.

(** ** The report formats (lines 358-456) *)

(** [c * n] for a one-character string [c]. *)
Fixpoint repeat_char (c : ascii) (n : nat) : string :=
  match n with
  | O => EmptyString
  | S k => String c (repeat_char c k)
  end.

(** [format(s, '<width')] on a string: blanks added on the right up to
    [width], nothing cut. *)
Definition ljust (width : nat) (s : string) : string :=
  (s ++ repeat_char " " (width - String.length s))%string.

(** The line feed. *)
Definition newline : string := String "010" EmptyString.

(** [s.split(c)] for a one-character [c]. *)
Fixpoint split_on (c : ascii) (s : string) : list string :=
  match s with
  | EmptyString => [EmptyString]
  | String d rest =>
      if Ascii.eqb c d then EmptyString :: split_on c rest
      else match split_on c rest with
           | first :: others => String d first :: others
           | [] => [String d EmptyString]
           end
  end.

(** [c not in s] *)
Definition free_of (c : ascii) (s : string) : bool :=
  all_chars (fun d => negb (Ascii.eqb c d)) s.

Module Format.
Section Runtime.

(** [str(x)] on a [float]. *)
Variable str_float : float -> string.

(** [format(x, spec)] on a number. *)
Variable format : num -> string -> string.

(** [json.dumps(results, indent=2)] *)
Variable json_dumps : report -> string.

(** [str(x)] on a number, and on a value that may be [None]. *)
Definition str (x : num) : string :=
  match x with
  | Int z => str_int z
  | Float f => str_float f
  end.

Definition str_or_none (x : option num) : string :=
  match x with
  | Some n => str n
  | None => "None"
  end.

(** [opt.get(key, '')] in an f-string: the key may be missing. *)
Definition str_or_empty (x : option num) : string :=
  match x with
  | Some n => str n
  | None => ""
  end.

(** The fourteen values of a CSV row, as the f-string of lines 450-453
    prints them. *)
Definition csv_fields (opt : Res.t) : list string :=
  [match Res.symbol opt with Some symbol => symbol | None => "None" end;
   Res.option_type opt;
   str (Res.strike opt);
   str (Res.expiry_days opt);
   str (Res.implied_volatility opt);
   str_or_none (Res.market_price opt);
   str (Res.theoretical_price opt);
   str_or_empty (Res.price_difference opt);
   str_or_empty (Res.price_difference_pct opt);
   str (Res.delta opt);
   str (Res.gamma opt);
   str (Res.vega opt);
   str (Res.theta opt);
   str (Res.position opt)].

(** The row of lines 450-453. *)
Definition csv_row (opt : Res.t) : string :=
  ((match Res.symbol opt with Some symbol => symbol | None => "None" end)
   ++ "," ++ Res.option_type opt
   ++ "," ++ str (Res.strike opt)
   ++ "," ++ str (Res.expiry_days opt)
   ++ "," ++ str (Res.implied_volatility opt)
   ++ "," ++ str_or_none (Res.market_price opt)
   ++ "," ++ str (Res.theoretical_price opt)
   ++ "," ++ str_or_empty (Res.price_difference opt)
   ++ "," ++ str_or_empty (Res.price_difference_pct opt)
   ++ "," ++ str (Res.delta opt)
   ++ "," ++ str (Res.gamma opt)
   ++ "," ++ str (Res.vega opt)
   ++ "," ++ str (Res.theta opt)
   ++ "," ++ str (Res.position opt))%string.

Definition csv_header : string :=
  "symbol,option_type,strike,expiry_days,implied_volatility,market_price,theoretical_price,price_difference,price_difference_pct,delta,gamma,vega,theta,position".

(** The list [lines] of [_format_as_csv], for a report that is not an
    error. *)
Definition csv_lines (options : list Res.t) : list string :=
  csv_header :: List.map csv_row options.

(** Lines 438-456. *)
Definition _format_as_csv (results : report) : string :=
  match results with
  | ReportError error => ("Error," ++ error)%string
  | Report _ options _ => String.concat newline (csv_lines options)
  end.

(** An f-string field [{s:<width}] on a value that may be [None], which has
    no such format. *)
Definition ljust_cell (width : nat) (s : option string) : result string :=
  match s with
  | Some text => Ok (ljust width text)
  | None => Raise TypeError
  end.

(** The line of one option (lines 401-406). *)
Definition option_line (opt : Res.t) : result string :=
  let market_price :=
    match Res.market_price opt with
    | Some m => format m ".2f"
    | None => "N/A"
    end in
  let diff_pct :=
    match Res.price_difference_pct opt with
    | Some d => (format d ".1f" ++ "%")%string
    | None => "N/A"
    end in
  symbol ← ljust_cell 8 (Res.symbol opt);
  mret (symbol ++ " " ++ ljust 4 (Res.option_type opt)
        ++ " " ++ format (Res.strike opt) "<8.0f"
        ++ " " ++ format (Res.expiry_days opt) "<4.0f"
        ++ " " ++ format (Res.implied_volatility opt) "<6.1%"
        ++ " " ++ ljust 8 market_price
        ++ " " ++ format (Res.theoretical_price opt) "<8.2f"
        ++ " " ++ ljust 6 diff_pct
        ++ " " ++ format (Res.delta opt) "<7.3f"
        ++ " " ++ format (Res.gamma opt) "<7.4f"
        ++ " " ++ format (Res.vega opt) "<6.2f"
        ++ " " ++ format (Res.theta opt) "<7.2f")%string.

Definition table_header : string :=
  (ljust 8 "Symbol" ++ " " ++ ljust 4 "Type" ++ " " ++ ljust 8 "Strike"
   ++ " " ++ ljust 4 "Days" ++ " " ++ ljust 6 "IV" ++ " " ++ ljust 8 "Market"
   ++ " " ++ ljust 8 "Theor." ++ " " ++ ljust 6 "Diff%" ++ " " ++ ljust 7 "Delta"
   ++ " " ++ ljust 7 "Gamma" ++ " " ++ ljust 6 "Vega" ++ " " ++ ljust 7 "Theta")%string.

(** Lines 380-398: title, metadata and the head of the option table. *)
Definition head_lines (meta : Meta.t) : list string :=
  [repeat_char "=" 80;
   "BLACK-SCHOLES-MERTON OPTION PRICING ANALYSIS";
   repeat_char "=" 80;
   ("File: " ++ Meta.filename meta)%string;
   ("Format: " ++ Meta.format_type meta)%string;
   ("Options Analyzed: " ++ str_int (Meta.total_options meta))%string;
   ("Spot Price: " ++ format (Meta.spot_price meta) ".2f")%string;
   ("Risk-free Rate: " ++ format (Meta.risk_free_rate meta) ".2%")%string;
   "";
   "OPTION DETAILS:";
   repeat_char "-" 120;
   table_header;
   repeat_char "-" 120].

(** Lines 409-410. *)
Definition more_lines (options : list Res.t) : list string :=
  if 20 <? len options
  then [("... and " ++ str_int (len options - 20) ++ " more options")%string]
  else [].

(** Lines 413-433. *)
Definition summary_lines (s : summary) : list string :=
  match s with
  | SummaryError _ => []
  | Summary portfolio market _ =>
      ["";
       "PORTFOLIO SUMMARY:";
       repeat_char "-" 40;
       ("Total Portfolio Value: " ++ format (total_value portfolio) ",.2f")%string;
       ("Net Delta: " ++ format (net_delta portfolio) ".2f")%string;
       ("Net Gamma: " ++ format (net_gamma portfolio) ".4f")%string;
       ("Net Vega: " ++ format (net_vega portfolio) ".2f")%string;
       ("Net Theta: " ++ format (net_theta portfolio) ".2f")%string;
       "";
       "MARKET ANALYSIS:";
       repeat_char "-" 20;
       ("Options with Market Prices: "
        ++ str_int (options_with_market_prices market))%string;
       ("Avg Price Difference: "
        ++ format (avg_price_difference_pct market) ".1f" ++ "%")%string;
       ("Overpriced: " ++ str_int (overpriced_count market)
        ++ ", Underpriced: " ++ str_int (underpriced_count market))%string]
  end.

(** The list [lines] of [_format_as_table], for a report that is not an
    error. *)
Definition table_lines (meta : Meta.t) (options : list Res.t) (s : summary)
  : result (list string) :=
  rows ← result_map option_line (firstn 20 options);
  mret (head_lines meta ++ rows ++ more_lines options ++ summary_lines s
        ++ [repeat_char "=" 80]).

(** Lines 374-436. *)
Definition _format_as_table (results : report) : result string :=
  match results with
  | ReportError error => Ok ("Error: " ++ error)%string
  | Report meta options s =>
      lines ← table_lines meta options s;
      mret (String.concat newline lines)
  end.

(** The choice of format of [output_results] (lines 360-365). *)
Definition render (results : report) (format_type : string) : result string :=
  if String.eqb format_type "json" then Ok (json_dumps results)
  else if String.eqb format_type "csv" then Ok (_format_as_csv results)
  else _format_as_table results.

End Runtime.
End Format.

(** The number of occurrences of [c] in [s]. *)
Fixpoint count_char (c : ascii) (s : string) : nat :=
  match s with
  | EmptyString => O
  | String d rest => (if Ascii.eqb c d then 1 else 0) + count_char c rest
  end.

(** ** Reading a file

    What opening a file and iterating [csv.reader] over it can raise, outside
    every [try] of the parsers: [open] or a later read an [OSError] (no such
    file, no permission, a failing device), the decoder a
    [UnicodeDecodeError] on bytes that are not UTF-8, [csv.reader] a
    [csv.Error] on a field over its limit. *)
Inductive read_error : Set :=
| ReadOSError
| UnicodeDecodeError
| CsvError.

(** The rows [csv.reader] yields one after the other, up to the end of the
    file or up to an exception of the reading.  A file that cannot be opened
    fails before any row. *)
Inductive reading : Set :=
| EndOfFile
| Yield (row : list string) (rest : reading)
| Fail (e : read_error).

Fixpoint yielded (file : reading) : list (list string) :=
  match file with
  | Yield row rest => row :: yielded rest
  | _ => []
  end.

Fixpoint failure (file : reading) : option read_error :=
  match file with
  | EndOfFile => None
  | Yield _ rest => failure rest
  | Fail e => Some e
  end.

(** What a parser does on a file: it returns, it raises an exception of
    [exn], or an exception of the reading goes through it. *)
Inductive outcome (A : Type) : Type :=
| Returned (a : A)
| RaisedExn (e : exn)
| ReadFailed (e : read_error).

Arguments Returned {A} a.
Arguments RaisedExn {A} e.
Arguments ReadFailed {A} e.

(** * The JSON form of a report

    [output_results] prints a report in JSON with
    [json.dumps(results, indent=2)] (line 361).  This part gives the report
    as the Python value it is, the text [json.dumps] makes of such a value,
    and [json.loads], which reads a text back. *)

(** ** The values of a report: [None], [bool], [int], [float], [str], lists
    and dicts with string keys, the items of a dict in insertion order. *)
#[local] Set Warnings "-register-all".

Inductive value : Set :=
| VNone
| VBool (b : bool)
| VInt (z : Z)
| VFloat (f : float)
| VStr (s : string)
| VList (items : list value)
| VDict (items : list (string * value)).

Definition num_value (n : num) : value :=
  match n with
  | Int z => VInt z
  | Float f => VFloat f
  end.

Definition optional {A} (to_value : A -> value) (x : option A) : value :=
  match x with
  | Some a => to_value a
  | None => VNone
  end.

(** A key that exists only when it was set. *)
Definition when_set (name : string) (x : option num) : list (string * value) :=
  match x with
  | Some n => [(name, num_value n)]
  | None => []
  end.

(** The dict of a result (lines 281-296): the eight keys of the literal, the
    six of the calculation, and the two differences when they were set. *)
Definition result_value (r : Res.t) : value :=
  VDict ([("symbol", optional VStr (Res.symbol r));
          ("option_type", VStr (Res.option_type r));
          ("strike", num_value (Res.strike r));
          ("spot_price", num_value (Res.spot_price r));
          ("expiry_days", num_value (Res.expiry_days r));
          ("implied_volatility", num_value (Res.implied_volatility r));
          ("market_price", optional num_value (Res.market_price r));
          ("position", num_value (Res.position r));
          ("theoretical_price", num_value (Res.theoretical_price r));
          ("delta", num_value (Res.delta r));
          ("gamma", num_value (Res.gamma r));
          ("vega", num_value (Res.vega r));
          ("theta", num_value (Res.theta r));
          ("calculation_success", VBool (Res.calculation_success r))]
         ++ when_set "price_difference" (Res.price_difference r)
         ++ when_set "price_difference_pct" (Res.price_difference_pct r)).

(** The dict of a summary (lines 320-321 and 335-356). *)
Definition summary_value (s : summary) : value :=
  match s with
  | SummaryError error => VDict [("error", VStr error)]
  | Summary pm ma rm =>
      VDict
        [("portfolio_metrics",
          VDict [("total_value", num_value (total_value pm));
                 ("net_delta", num_value (net_delta pm));
                 ("net_gamma", num_value (net_gamma pm));
                 ("net_vega", num_value (net_vega pm));
                 ("net_theta", num_value (net_theta pm));
                 ("delta_adjusted_value", num_value (delta_adjusted_value pm))]);
         ("market_analysis",
          VDict [("options_with_market_prices", VInt (options_with_market_prices ma));
                 ("avg_price_difference_pct", num_value (avg_price_difference_pct ma));
                 ("overpriced_count", VInt (overpriced_count ma));
                 ("underpriced_count", VInt (underpriced_count ma))]);
         ("risk_metrics",
          VDict [("portfolio_delta_risk", num_value (portfolio_delta_risk rm));
                 ("portfolio_gamma_risk", num_value (portfolio_gamma_risk rm));
                 ("portfolio_vega_risk", num_value (portfolio_vega_risk rm));
                 ("portfolio_theta_decay", num_value (portfolio_theta_decay rm))])]
  end.

(** The dict [analyze_csv] returns (lines 262 and 303-314). *)
Definition report_value (results : report) : value :=
  match results with
  | ReportError error => VDict [("error", VStr error)]
  | Report meta options s =>
      VDict
        [("metadata",
          VDict [("filename", VStr (Meta.filename meta));
                 ("format_type", VStr (Meta.format_type meta));
                 ("total_options", VInt (Meta.total_options meta));
                 ("spot_price", num_value (Meta.spot_price meta));
                 ("risk_free_rate", num_value (Meta.risk_free_rate meta));
                 ("analysis_time", VStr (Meta.analysis_time meta))]);
         ("options", VList (List.map result_value options));
         ("summary", summary_value s)]
  end.

(** No dict of the value has a key twice, as in every Python dict. *)
Fixpoint distinct (keys : list string) : bool :=
  match keys with
  | [] => true
  | k :: rest => negb (existsb (String.eqb k) rest) && distinct rest
  end.

Fixpoint keys_distinct (v : value) : bool :=
  match v with
  | VList items => forallb keys_distinct items
  | VDict items =>
      distinct (List.map fst items)
      && forallb (fun item => keys_distinct (snd item)) items
  | _ => true
  end.

(** [x == y and type(x) is type(y)], down the lists and dicts (the items of
    a dict in the same order): Python's comparison, so a NaN is not equal to
    itself. *)
Fixpoint same_value (x y : value) : bool :=
  match x, y with
  | VNone, VNone => true
  | VBool a, VBool b => Bool.eqb a b
  | VInt a, VInt b => a =? b
  | VFloat a, VFloat b => (a =? b)%float
  | VStr a, VStr b => String.eqb a b
  | VList xs, VList ys =>
      (fix all xs ys :=
         match xs, ys with
         | [], [] => true
         | x :: xs', y :: ys' => same_value x y && all xs' ys'
         | _, _ => false
         end) xs ys
  | VDict xs, VDict ys =>
      (fix all xs ys :=
         match xs, ys with
         | [], [] => true
         | (k, x) :: xs', (k', y) :: ys' =>
             String.eqb k k' && same_value x y && all xs' ys'
         | _, _ => false
         end) xs ys
  | _, _ => false
  end.

(** No [float] of the value is a NaN. *)
Fixpoint nan_free (v : value) : bool :=
  match v with
  | VFloat f => (f =? f)%float
  | VList items => forallb nan_free items
  | VDict items => forallb (fun item => nan_free (snd item)) items
  | _ => true
  end.

(** [d[k]] and [l[i]] on a value. *)
Definition entry (k : string) (v : value) : option value :=
  match v with
  | VDict items => snd <$> List.find (fun item => String.eqb k (fst item)) items
  | _ => None
  end.

Definition element (i : nat) (v : value) : option value :=
  match v with
  | VList items => nth_error items i
  | _ => None
  end.

(** The number of decimal digits of an [int].  Python converts no [int] of
    more than 4300 digits to or from text ([sys.int_max_str_digits]). *)
Definition digits (z : Z) : nat := String.length (str_int (Z.abs z)).

Definition within_limit (z : Z) : bool := Nat.leb (digits z) 4300.

(** [x != x], and the two infinities. *)
Definition special (f : float) : bool :=
  negb (f =? f)%float || (f =? infinity)%float || (f =? neg_infinity)%float.

Module Json.

(** *** Text of a string ([ensure_ascii=True])

    A character is a code point below 256. *)

Definition quote : ascii := "034".

Definition backslash : ascii := "092".

Definition hex_digit (n : nat) : ascii :=
  if Nat.ltb n 10 then ascii_of_nat (48 + n)%nat else ascii_of_nat (87 + n)%nat.

(** The short escapes of the encoder. *)
Definition short_escape (c : ascii) : option ascii :=
  if Ascii.eqb c quote then Some quote
  else if Ascii.eqb c backslash then Some backslash
  else if Ascii.eqb c "008" then Some "b"%char
  else if Ascii.eqb c "012" then Some "f"%char
  else if Ascii.eqb c "010" then Some "n"%char
  else if Ascii.eqb c "013" then Some "r"%char
  else if Ascii.eqb c "009" then Some "t"%char
  else None.

(** A character is printed as it is when it is between the blank and the
    tilde, quote and backslash apart. *)
Definition printable (c : ascii) : bool :=
  Nat.leb 32 (nat_of_ascii c) && Nat.leb (nat_of_ascii c) 126.

Definition escape_char (c : ascii) : string :=
  match short_escape c with
  | Some e => String backslash (String e EmptyString)
  | None =>
      if printable c then String c EmptyString
      else
        String backslash
          (String "u" (String "0" (String "0"
             (String (hex_digit (nat_of_ascii c / 16)%nat)
                (String (hex_digit (nat_of_ascii c mod 16)%nat) EmptyString)))))
  end.

Fixpoint escape (s : string) : string :=
  match s with
  | EmptyString => EmptyString
  | String c rest => (escape_char c ++ escape rest)%string
  end.

Definition open_quote : string := String quote EmptyString.

Definition encode_string (s : string) : string :=
  (open_quote ++ escape s ++ open_quote)%string.

(** *** [json.dumps(v, indent=2)] *)

Section Encoder.

(** [float.__repr__], which is [str] on a [float]. *)
Variable float_repr : float -> string.

(** The encoder's [floatstr], with [allow_nan] as it is by default. *)
Definition floatstr (f : float) : string :=
  if negb (f =? f)%float then "NaN"
  else if (f =? infinity)%float then "Infinity"
  else if (f =? neg_infinity)%float then "-Infinity"
  else float_repr f.

(** A line feed and the indentation of a level. *)
Definition newline_indent (level : nat) : string :=
  String "010" (repeat_char " " (2 * level)%nat).

(** The text of a value at a level of nesting.  An [int] is printed by
    [int.__repr__], which gives this text for an [int] within the limit of
    digits and raises beyond it. *)
Fixpoint encode (level : nat) (v : value) : string :=
  match v with
  | VNone => "null"
  | VBool true => "true"
  | VBool false => "false"
  | VInt z => str_int z
  | VFloat f => floatstr f
  | VStr s => encode_string s
  | VList [] => "[]"
  | VList items =>
      ("[" ++ newline_indent (S level)
       ++ String.concat ("," ++ newline_indent (S level))
            (List.map (encode (S level)) items)
       ++ newline_indent level ++ "]")%string
  | VDict [] => "{}"
  | VDict items =>
      ("{" ++ newline_indent (S level)
       ++ String.concat ("," ++ newline_indent (S level))
            (List.map (fun item => encode_string (fst item) ++ ": "
                                   ++ encode (S level) (snd item)) items)
       ++ newline_indent level ++ "}")%string
  end.

Definition dumps (v : value) : string := encode 0 v.

End Encoder.

(** *** [json.loads(s)]

    A text that is not JSON raises [JSONDecodeError], a [ValueError]. *)

(** The blanks of JSON. *)
Definition is_ws (c : ascii) : bool :=
  Ascii.eqb c " " || Ascii.eqb c "009" || Ascii.eqb c "010" || Ascii.eqb c "013".

Fixpoint skip_ws (s : string) : string :=
  match s with
  | EmptyString => EmptyString
  | String c rest => if is_ws c then skip_ws rest else s
  end.

Definition hex_value (c : ascii) : option nat :=
  let n := nat_of_ascii c in
  if Nat.leb 48 n && Nat.leb n 57 then Some (n - 48)%nat
  else if Nat.leb 97 n && Nat.leb n 102 then Some (n - 87)%nat
  else if Nat.leb 65 n && Nat.leb n 70 then Some (n - 55)%nat
  else None.

(** What follows a backslash other than [u]. *)
Definition unescape (c : ascii) : option ascii :=
  if Ascii.eqb c quote then Some quote
  else if Ascii.eqb c backslash then Some backslash
  else if Ascii.eqb c "/" then Some "/"%char
  else if Ascii.eqb c "b" then Some "008"%char
  else if Ascii.eqb c "f" then Some "012"%char
  else if Ascii.eqb c "n" then Some "010"%char
  else if Ascii.eqb c "r" then Some "013"%char
  else if Ascii.eqb c "t" then Some "009"%char
  else None.

(** [\uXXXX]: four hexadecimal digits.  A code point of 256 or more has no
    place in a [string] of this embedding and is refused. *)
Definition code_point (a b c d : ascii) : result ascii :=
  match hex_value a, hex_value b, hex_value c, hex_value d with
  | Some h3, Some h2, Some h1, Some h0 =>
      if Nat.eqb h3 0 && Nat.eqb h2 0 then Ok (ascii_of_nat (16 * h1 + h0)%nat)
      else Raise ValueError
  | _, _, _, _ => Raise ValueError
  end.

(** The string that starts after an opening quote, and the text after its
    closing quote.  A control character in a string is refused (the decoder
    is strict). *)
Fixpoint scan_string (s : string) : result (string * string) :=
  match s with
  | EmptyString => Raise ValueError
  | String c rest =>
      if Ascii.eqb c quote then Ok (EmptyString, rest)
      else if Ascii.eqb c backslash then
        match rest with
        | String "u" (String h3 (String h2 (String h1 (String h0 rest')))) =>
            char ← code_point h3 h2 h1 h0;
            '(text, after) ← scan_string rest';
            mret (String char text, after)
        | String "u" _ => Raise ValueError
        | String e rest' =>
            match unescape e with
            | Some char =>
                '(text, after) ← scan_string rest';
                mret (String char text, after)
            | None => Raise ValueError
            end
        | EmptyString => Raise ValueError
        end
      else if Nat.ltb (nat_of_ascii c) 32 then Raise ValueError
      else
        '(text, after) ← scan_string rest;
        mret (String c text, after)
  end.

(** The number at the start of a text, as the decoder matches it: an
    optional [-] and either [0] or a digit from 1 to 9 with the digits that
    follow it; then a point and digits, if they are there; then [e] or [E],
    an optional sign and digits, if they are there.  With the text after
    it. *)
Definition scan_unsigned (s : string) : option (string * string) :=
  match s with
  | String c rest =>
      if Ascii.eqb c "0" then Some ("0", rest)
      else if is_digit c
           then Some (take_while is_digit s, drop_while is_digit s)
           else None
  | EmptyString => None
  end.

Definition scan_integer (s : string) : option (string * string) :=
  match s with
  | String c rest =>
      if Ascii.eqb c "-"
      then match scan_unsigned rest with
           | Some (found, after) => Some (String "-" found, after)
           | None => None
           end
      else scan_unsigned s
  | EmptyString => None
  end.

Definition scan_fraction (s : string) : string * string :=
  match s with
  | String c rest =>
      if Ascii.eqb c "." && negb (is_empty (take_while is_digit rest))
      then (String "." (take_while is_digit rest), drop_while is_digit rest)
      else (EmptyString, s)
  | EmptyString => (EmptyString, s)
  end.

(** The sign of an exponent, if it is there. *)
Definition scan_sign (s : string) : string * string :=
  match s with
  | String c rest =>
      if Ascii.eqb c "+" || Ascii.eqb c "-" then (String c EmptyString, rest)
      else (EmptyString, s)
  | EmptyString => (EmptyString, s)
  end.

Definition scan_exponent (s : string) : string * string :=
  match s with
  | String c rest =>
      let '(sign, unsigned) := scan_sign rest in
      if (Ascii.eqb c "e" || Ascii.eqb c "E")
         && negb (is_empty (take_while is_digit unsigned))
      then (String c (sign ++ take_while is_digit unsigned),
            drop_while is_digit unsigned)
      else (EmptyString, s)
  | EmptyString => (EmptyString, s)
  end.

Definition scan_number (s : string) : option (string * string * string * string) :=
  match scan_integer s with
  | Some (integer, after) =>
      let '(frac, after) := scan_fraction after in
      let '(exp, after) := scan_exponent after in
      Some (integer, frac, exp, after)
  | None => None
  end.

(** [int(s)] on the integer part of a number. *)
Definition parse_int (s : string) : result Z :=
  match NilZero.int_of_string s with
  | Some d =>
      if within_limit (Z.of_int d) then Ok (Z.of_int d) else Raise ValueError
  | None => Raise ValueError
  end.

(** A text that continues no number: it is empty, or its first character is
    neither a digit, a point, a sign nor an [e]. *)
Definition ends_number (s : string) : bool :=
  match s with
  | EmptyString => true
  | String c _ =>
      negb (is_digit c || Ascii.eqb c "." || Ascii.eqb c "+" || Ascii.eqb c "-"
            || Ascii.eqb c "e" || Ascii.eqb c "E")
  end.

Section Decoder.

(** [float(s)] of the interpreter; [None] is its [ValueError]. *)
Variable py_float : string -> option float.

Definition parse_float (s : string) : result float :=
  match py_float s with
  | Some f => Ok f
  | None => Raise ValueError
  end.

(** What is neither a string, an array or an object: the three names, a
    number, and the three constants of [allow_nan]. *)
Definition parse_atom (s : string) : result (value * string) :=
  match after_label "null" s with
  | Some rest => Ok (VNone, rest)
  | None =>
  match after_label "true" s with
  | Some rest => Ok (VBool true, rest)
  | None =>
  match after_label "false" s with
  | Some rest => Ok (VBool false, rest)
  | None =>
  match scan_number s with
  | Some (integer, frac, exp, rest) =>
      if is_empty frac && is_empty exp
      then z ← parse_int integer; mret (VInt z, rest)
      else f ← parse_float (integer ++ frac ++ exp); mret (VFloat f, rest)
  | None =>
  match after_label "NaN" s with
  | Some rest => Ok (VFloat nan, rest)
  | None =>
  match after_label "Infinity" s with
  | Some rest => Ok (VFloat infinity, rest)
  | None =>
  match after_label "-Infinity" s with
  | Some rest => Ok (VFloat neg_infinity, rest)
  | None => Raise ValueError
  end end end end end end end.

(** [dict(pairs)]: a key met again takes the new value and keeps its
    place. *)
Fixpoint dict_set (items : list (string * value)) (k : string) (v : value)
  : list (string * value) :=
  match items with
  | [] => [(k, v)]
  | (k', v') :: rest =>
      if String.eqb k k' then (k, v) :: rest else (k', v') :: dict_set rest k v
  end.

Definition dict (pairs : list (string * value)) : list (string * value) :=
  fold_left (fun items pair => dict_set items (fst pair) (snd pair)) pairs [].

(** The value at the start of a text, and the text after it.  An array is
    [[], blanks, and either []] or values with [,] between them and []];
    an object likewise with [key : value] members; blanks may stand around
    every value, [,] and [:].  [fuel] bounds the number of nested calls;
    [loads] gives it the length of the text. *)
Fixpoint parse_value (fuel : nat) (s : string) : result (value * string) :=
  match fuel with
  | O => Raise ValueError
  | S fuel =>
      match after_label open_quote s with
      | Some rest =>
          '(text, after) ← scan_string rest;
          mret (VStr text, after)
      | None =>
      match after_label "[" s with
      | Some rest =>
          match after_label "]" (skip_ws rest) with
          | Some after => Ok (VList [], after)
          | None =>
              '(items, after) ← parse_elements fuel (skip_ws rest);
              mret (VList items, after)
          end
      | None =>
      match after_label "{" s with
      | Some rest =>
          match after_label "}" (skip_ws rest) with
          | Some after => Ok (VDict [], after)
          | None =>
              '(pairs, after) ← parse_members fuel (skip_ws rest);
              mret (VDict (dict pairs), after)
          end
      | None => parse_atom s
      end end end
  end
with parse_elements (fuel : nat) (s : string) : result (list value * string) :=
  match fuel with
  | O => Raise ValueError
  | S fuel =>
      '(v, after) ← parse_value fuel s;
      match after_label "]" (skip_ws after) with
      | Some after => Ok ([v], after)
      | None =>
          match after_label "," (skip_ws after) with
          | Some after =>
              '(others, after) ← parse_elements fuel (skip_ws after);
              mret (v :: others, after)
          | None => Raise ValueError
          end
      end
  end
with parse_members (fuel : nat) (s : string)
  : result (list (string * value) * string) :=
  match fuel with
  | O => Raise ValueError
  | S fuel =>
      match after_label open_quote s with
      | Some rest =>
          '(k, after) ← scan_string rest;
          match after_label ":" (skip_ws after) with
          | Some after =>
              '(v, after) ← parse_value fuel (skip_ws after);
              match after_label "}" (skip_ws after) with
              | Some after => Ok ([(k, v)], after)
              | None =>
                  match after_label "," (skip_ws after) with
                  | Some after =>
                      '(others, after) ← parse_members fuel (skip_ws after);
                      mret ((k, v) :: others, after)
                  | None => Raise ValueError
                  end
              end
          | None => Raise ValueError
          end
      | None => Raise ValueError
      end
  end.

(** The whole text is one value, blanks around it apart. *)
Definition loads (s : string) : result value :=
  '(v, after) ← parse_value (String.length s) (skip_ws s);
  if is_empty (skip_ws after) then Ok v else Raise ValueError.

(** [float_repr] prints [f] as a number with a fraction or an exponent, and
    [float] reads that text back as [f]: what [float.__repr__] does on every
    [float] that is neither a NaN nor an infinity. *)
Definition reads_back (float_repr : float -> string) (f : float) : bool :=
  match scan_number (float_repr f) with
  | Some (integer, frac, exp, EmptyString) =>
      negb (is_empty frac && is_empty exp)
      && match py_float (integer ++ frac ++ exp) with
         | Some g => PrimFloat.Leibniz.eqb g f
         | None => false
         end
  | _ => false
  end.

(** Every [int] of the value is within the limit of digits, and every
    [float] that is neither a NaN nor an infinity is read back from its
    [repr]. *)
Fixpoint numbers_readable (float_repr : float -> string) (v : value) : bool :=
  match v with
  | VInt z => within_limit z
  | VFloat f => special f || reads_back float_repr f
  | VList items => forallb (numbers_readable float_repr) items
  | VDict items => forallb (fun item => numbers_readable float_repr (snd item)) items
  | _ => true
  end.

(** What reading back the text of one value means, whatever follows it in
    the text: with fuel for the length of its text, the parser returns the
    value and the text that follows. *)
Definition parses_back (float_repr : float -> string) (v : value) : Prop :=
  forall fuel level rest,
    (String.length (encode float_repr level v) <= fuel)%nat ->
    ends_number rest = true ->
    parse_value fuel (encode float_repr level v ++ rest) = Ok (v, rest).

End Decoder.

(** A character a value can start with in the text of [dumps]: no blank and
    no closing bracket. *)
Definition starts_value (s : string) : bool :=
  match s with
  | EmptyString => false
  | String c _ => negb (is_ws c || Ascii.eqb "]" c || Ascii.eqb "}" c)
  end.

(** The first character is neither a quote nor an opening bracket. *)
Definition starts_atom (s : string) : bool :=
  match s with
  | EmptyString => true
  | String c _ => negb (Ascii.eqb quote c || Ascii.eqb "[" c || Ascii.eqb "{" c)
  end.

End Json.

(** Line 361: [json.dumps(results, indent=2)]. *)
Definition json_dumps (float_repr : float -> string) (results : report) : string :=
  Json.dumps float_repr (report_value results).
(** ** A reading of [float(s)] for the examples

    [float(s)] on plain decimal numerals (surrounding blanks, a sign, digits
    with at most one point): the quotient of two integers, which binary64
    division rounds correctly when both are below 2^53. *)

Fixpoint decimal_from (s : string) (mantissa : Z) (digits : nat) (fraction : option nat)
  : option (Z * nat) :=
  match s with
  | EmptyString =>
      match digits with
      | O => None
      | S _ => Some (mantissa, default O fraction)
      end
  | String c rest =>
      match digit_value c with
      | Some d => decimal_from rest (10 * mantissa + d) (S digits) (S <$> fraction)
      | None =>
          if Ascii.eqb c "."
          then match fraction with
               | None => decimal_from rest mantissa digits (Some O)
               | Some _ => None
               end
          else None
      end
  end.

Definition decimal_float (s : string) : option float :=
  let '(negative, body) :=
    match strip s with
    | String "-" rest => (true, rest)
    | unsigned => (false, unsigned)
    end in
  '(mantissa, places) ← decimal_from body 0 O None;
  let f := (Z_to_float mantissa / Z_to_float (10 ^ Z.of_nat places))%float in
  Some (if negative then (- f)%float else f).

(** ** Sample inputs *)

Definition blanks (n : nat) : list string := repeat "" n.

(** A row of an option chain: the cells of the seven columns the parser
    reads, the other sixteen blank. *)
Definition chain_line (call_iv call_ltp strike put_ltp put_iv : string) : list string :=
  blanks 4 ++ [call_iv; call_ltp] ++ blanks 5 ++ [strike] ++ blanks 5
  ++ [put_ltp; put_iv] ++ blanks 4.

Definition chain_header : list string := blanks 23.

(** Call and put both traded. *)
Definition both_traded : list string :=
  chain_line "12.5" "150.25" "23,000.00" "80" "-".

(** Only the call traded. *)
Definition call_only : list string := chain_line "12.5" "150.25" "23,000.00" "-" "-".

(** Nothing traded. *)
Definition untraded : list string := chain_line "-" "-" "23,000.00" "0" "-".

(** The call's implied volatility is given as zero. *)
Definition zero_iv : list string := chain_line "0" "150.25" "23000" "-" "-".

Definition short_line : list string := blanks 11 ++ ["23000"] ++ blanks 10.

Definition dash_strike : list string := chain_line "12.5" "150.25" "-" "80" "11".

(** The file name carries 14-Aug-2025, and today is 31 July 2025. *)
Definition august_14 (filepath : string) : option (string * string * string) :=
  Some ("14", "Aug", "2025").

Definition july_31 : Z := 739463.

Definition portfolio_line (option_type : string) : gmap string (option string) :=
  list_to_map
    [("symbol", Some "AAPL"); ("position", Some "1"); ("spot", Some "100");
     ("strike", Some "100"); ("expiry", Some "0.25"); ("volatility", Some "0.2");
     ("option_type", Some option_type)].

Definition portfolio_file : csv_file :=
  {| filepath := "examples/sample_portfolio.csv";
     name := "sample_portfolio.csv";
     first_line := "symbol,position,spot,strike,expiry,volatility,option_type";
     reader_rows := [];
     dict_rows := [portfolio_line "call"] |}.

(** A pricing client that answers every request alike. *)
Definition fixed_price (option : Opt.t) (spot_price risk_free_rate : num)
  : result Calc.t :=
  Ok {| Calc.theoretical_price := Float 4;
        Calc.delta := Float 0.52;
        Calc.gamma := Float 0.03;
        Calc.vega := Float 12;
        Calc.theta := Float (-5);
        Calc.calculation_success := true |}.

Definition sample_option (option_type : string) (strike : float)
    (market_price : option num) : Opt.t :=
  {| Opt.symbol := Some "NIFTY";
     Opt.strike := Float strike;
     Opt.option_type := option_type;
     Opt.market_price := market_price;
     Opt.implied_volatility := Float 0.20;
     Opt.expiry_days := Int 30;
     Opt.position := None;
     Opt.spot_price := None |}.

Definition calls_only : list Opt.t :=
  [sample_option "call" 90 None; sample_option "call" 100 None;
   sample_option "call" 110 None].

Definition calls_and_put : list Opt.t :=
  [sample_option "call" 90 None; sample_option "put" 100 None;
   sample_option "call" 110 None].

Definition sample_calculation (theoretical_price : float) : Calc.t :=
  {| Calc.theoretical_price := Float theoretical_price;
     Calc.delta := Float 0.5;
     Calc.gamma := Float 0.01;
     Calc.vega := Float 10;
     Calc.theta := Float (-2);
     Calc.calculation_success := true |}.

Definition sample_result (success : bool) (delta position : num) : Res.t :=
  {| Res.symbol := Some "AAPL";
     Res.option_type := "call";
     Res.strike := Float 100;
     Res.spot_price := Float 100;
     Res.expiry_days := Float 91.25;
     Res.implied_volatility := Float 0.20;
     Res.market_price := None;
     Res.position := position;
     Res.theoretical_price := Float 4;
     Res.delta := delta;
     Res.gamma := Float 0.03;
     Res.vega := Float 12;
     Res.theta := Float (-5);
     Res.calculation_success := success;
     Res.price_difference := None;
     Res.price_difference_pct := None |}.

Definition good_result : Res.t := sample_result true (Float 0.5) (Float 2).

Definition failed_result : Res.t := sample_result false (Float 0.9) (Float 10).

(** ** More sample inputs *)

(** The digits of [fraction], a number below [10 ^ places], on [places]
    places, without the zeros at the end (one digit at least). *)
Fixpoint strip_zeros (digits : list ascii) : list ascii :=
  match digits with
  | [] => []
  | d :: rest =>
      match strip_zeros rest with
      | [] => if Ascii.eqb d "0" then [] else [d]
      | kept => d :: kept
      end
  end.

Definition fraction_digits (places : Z) (fraction : Z) : string :=
  match list_ascii_of_string (str_int (10 ^ places + fraction)) with
  | _ :: digits =>
      match strip_zeros digits with
      | [] => "0"
      | kept => string_of_list_ascii kept
      end
  | [] => "0"
  end.

(** A reading of [str(x)] on a [float] for the examples: the exact decimal
    expansion of the value, which is what Python prints when that expansion
    is short (integers, halves, quarters, eighths and the like, of moderate
    size). *)
Definition exact_str_float (f : float) : string :=
  match Prim2SF f with
  | S754_zero s => if s then "-0.0" else "0.0"
  | S754_infinity s => if s then "-inf" else "inf"
  | S754_nan => "nan"
  | S754_finite s m e =>
      let sign := if s then "-" else "" in
      if 0 <=? e
      then (sign ++ str_int (Z.pos m * 2 ^ e) ++ ".0")%string
      else
        let places := - e in
        let scaled := Z.pos m * 5 ^ places in
        (sign ++ str_int (scaled / 10 ^ places) ++ "."
         ++ fraction_digits places (scaled mod 10 ^ places))%string
  end.

(** A stand-in for [format(x, spec)] in the examples: the number as [str]
    prints it, whatever the spec. *)
Definition plain_format (x : num) (spec : string) : string :=
  match x with
  | Int z => str_int z
  | Float f => exact_str_float f
  end.

Definition priced_result (symbol : option string) (market_price : option num) : Res.t :=
  {| Res.symbol := symbol;
     Res.option_type := "call";
     Res.strike := Float 100;
     Res.spot_price := Float 100;
     Res.expiry_days := Float 91.25;
     Res.implied_volatility := Float 0.25;
     Res.market_price := market_price;
     Res.position := Int 1;
     Res.theoretical_price := Float 4;
     Res.delta := Float 0.5;
     Res.gamma := Float 0.03125;
     Res.vega := Float 12;
     Res.theta := Float (-5);
     Res.calculation_success := true;
     Res.price_difference := option_map (fun m => py_sub m (Float 4)) market_price;
     Res.price_difference_pct :=
       option_map (fun m => Float (to_float (py_sub m (Float 4)) / 4 * 100)) market_price |}.

Definition sample_meta (total : Z) : Meta.t :=
  {| Meta.filename := "sample_portfolio.csv";
     Meta.format_type := "portfolio";
     Meta.total_options := total;
     Meta.spot_price := Float 100;
     Meta.risk_free_rate := Float 0.0625;
     Meta.analysis_time := "2025-07-31T09:30:00" |}.

(** A successful result with a market price whose difference keys were never
    set. *)
Definition without_differences : Res.t :=
  {| Res.symbol := Some "AAPL";
     Res.option_type := "call";
     Res.strike := Float 100;
     Res.spot_price := Float 100;
     Res.expiry_days := Float 91.25;
     Res.implied_volatility := Float 0.25;
     Res.market_price := Some (Float 5);
     Res.position := Int 1;
     Res.theoretical_price := Float 4;
     Res.delta := Float 0.5;
     Res.gamma := Float 0.03125;
     Res.vega := Float 12;
     Res.theta := Float (-5);
     Res.calculation_success := true;
     Res.price_difference := None;
     Res.price_difference_pct := None |}.

(** An option-chain file of three rows. *)
Definition chain_file : csv_file :=
  {| filepath := "input/option-chain-ED-NIFTY-14-Aug-2025.csv";
     name := "option-chain-ED-NIFTY-14-Aug-2025.csv";
     first_line := "CALLS,,PUTS";
     reader_rows := [chain_header; untraded; call_only; both_traded];
     dict_rows := [] |}.

(** A portfolio row with the given strike, and one cut after its symbol. *)
Definition portfolio_row (strike : string) : gmap string (option string) :=
  list_to_map
    [("symbol", Some "AAPL"); ("position", Some "1"); ("spot", Some "100");
     ("strike", Some strike); ("expiry", Some "0.25"); ("volatility", Some "0.25");
     ("option_type", Some "call")].

Definition short_portfolio_row : gmap string (option string) :=
  list_to_map
    [("symbol", Some "AAPL"); ("position", None); ("spot", None);
     ("strike", None); ("expiry", None); ("volatility", None);
     ("option_type", None)].

Definition two_strikes : csv_file :=
  {| filepath := "examples/two_strikes.csv";
     name := "two_strikes.csv";
     first_line := "symbol,position,spot,strike,expiry,volatility,option_type";
     reader_rows := [];
     dict_rows := [portfolio_row "100"; portfolio_row "110"] |}.

(** What the executable prints for a call. *)
Definition priced_output : string :=
  "Price: 4.0 Delta: 0.5 Gamma: 0.03125 Vega: 12.0 Theta: -5.0".

(** A process that prints it whatever it is asked. *)
Definition answers_priced (cmd : list string) : run_outcome :=
  Completed 0 priced_output "".

(** A process that exits with status 1 whatever it is asked. *)
Definition exits_with_error (cmd : list string) : run_outcome :=
  Completed 1 "" "unknown option".

(** An executable that answers for the strike 100.0 and cannot be started
    for any other. *)
Definition runs_at_100 (cmd : list string) : run_outcome :=
  if String.eqb (nth 5 cmd "") "100.0"
  then Completed 0 priced_output ""
  else Raised OSError.

(** A stand-in for [json.dumps]. *)
Definition braces (results : report) : string := "{}".

(** An executable that prints a price and Greeks whose portfolio figures are
    short in decimal (vega 50.0: two such options have a vega risk of
    1.0). *)
Definition round_output : string :=
  "Price: 4.0 Delta: 0.5 Gamma: 0.03125 Vega: 50.0 Theta: -5.0".

Definition answers_round (cmd : list string) : run_outcome :=
  Completed 0 round_output "".

Section Analyzer.

(** [float(s)] of the interpreter; [None] is its [ValueError]. *)
Variable py_float : string -> option float.

(** [re.search(date_pattern, Path(filepath).name)]: the groups (day, month,
    year) of the first [DD-Mon-YYYY] in the file name. *)
Variable date_match : string -> option (string * string * string).

(** [date.today().toordinal()] *)
Variable today : Z.

(** [datetime.now().isoformat()] *)
Variable now : string.

(** [calculate_option_price(option, spot_price, risk_free_rate)] (lines
    189-232): the client of the pricing executable.  It returns the zeroed,
    unsuccessful calculation on a timeout, a non-zero exit status or output
    it cannot read; an executable that cannot be started raises an [OSError]
    it does not catch. *)
Variable calculate_option_price : Opt.t -> num -> num -> result Calc.t.

(** [float(s)] as a computation. *)
Definition float_of (s : string) : result num :=
  match py_float s with
  | Some f => Ok (Float f)
  | None => Raise ValueError
  end.

(** [float(v)] on a cell of [csv.DictReader]: [None] is a [TypeError]. *)
Definition float_cell (v : option string) : result num :=
  match v with
  | Some s => float_of s
  | None => Raise TypeError
  end.

(** Lines 130-138. *)
Definition _parse_price (price_str : string) : option num :=
  if is_empty price_str || String.eqb price_str "-" then None
  else
    let clean_str := strip (remove_char "034" (remove_char "," price_str)) in
    if is_empty clean_str then None
    else
      match py_float clean_str with
      | Some f => Some (Float f)
      | None => None
      end.

(** Lines 140-148. *)
Definition _parse_percentage (pct_str : string) : option num :=
  if is_empty pct_str || String.eqb pct_str "-" then None
  else
    let clean_str :=
      strip (remove_char "034" (remove_char "," (remove_char "%" pct_str))) in
    if is_empty clean_str then None
    else
      match py_float clean_str with
      | Some f => Some (Float (f / 100))
      | None => None
      end.

(** Lines 150-171. *)
Definition _estimate_expiry_days (filepath : string) : Z :=
  match date_match filepath with
  | Some (day, month_str, year) =>
      let month := default 8 (month_map !! month_str) in
      match (y ← int year; d ← int day; date y month d) with
      | Some expiry_date => Z.max 1 (expiry_date - today)
      | None => 30
      end
  | None => 30
  end.

(** The dicts of lines 79-86 and 90-97. *)
Definition chain_option (filepath : string) (strike : num) (option_type : string)
    (ltp : num) (iv : option num) : Opt.t :=
  {| Opt.symbol := Some "NIFTY";
     Opt.strike := strike;
     Opt.option_type := option_type;
     Opt.market_price := Some ltp;
     Opt.implied_volatility := py_or iv (Float 0.20);
     Opt.expiry_days := Int (_estimate_expiry_days filepath);
     Opt.position := None;
     Opt.spot_price := None |}.

(** [ltp is not None and ltp > 0] *)
Definition positive (ltp : option num) : bool :=
  match ltp with
  | Some p => py_gt p (Int 0)
  | None => false
  end.

(** [if ltp is not None and ltp > 0: options.append({...})] *)
Definition append_if_traded (filepath : string) (strike : num) (option_type : string)
    (ltp iv : option num) : parser unit :=
  match ltp with
  | Some p =>
      if py_gt p (Int 0) then append (chain_option filepath strike option_type p iv)
      else mret tt
  | None => mret tt
  end.

(** The body of the [try] of lines 62-97; [mret tt] where the source says
    [continue]. *)
Definition chain_row (filepath : string) (row : list string) : parser unit :=
  field ← lift (getitem row 11);
  let strike_str := remove_char "034" (remove_char "," field) in
  if is_empty strike_str || String.eqb strike_str "-" then mret tt
  else
    strike ← lift (float_of strike_str);
    call_ltp ← _parse_price <$> lift (getitem row 5);
    call_iv ← _parse_percentage <$> lift (getitem row 4);
    put_ltp ← _parse_price <$> lift (getitem row 17);
    put_iv ← _parse_percentage <$> lift (getitem row 18);
    _ ← append_if_traded filepath strike "call" call_ltp call_iv;
    append_if_traded filepath strike "put" put_ltp put_iv.

(** The [for row in reader] of lines 58-100. *)
Fixpoint chain_rows (filepath : string) (rows : list (list string)) : parser unit :=
  match rows with
  | [] => mret tt
  | row :: rest =>
      _ ← (if len row <? 23 then mret tt
           else parser_try (chain_row filepath row) caught_by_chain (mret tt));
      chain_rows filepath rest
  end.

(** Lines 50-102; the argument is what [csv.reader] yields, and
    [next(reader)] raises on a file with no line. *)
Definition parse_option_chain_csv (filepath : string) (reader : list (list string))
  : result (list Opt.t) :=
  match reader with
  | [] => Raise StopIteration
  | headers :: rows => run_parser (chain_rows filepath rows)
  end.

(** The dict of lines 113-122, its values computed in the order written. *)
Definition portfolio_option (row : gmap string (option string)) : result Opt.t :=
  symbol ← cell row "symbol";
  position ← cell row "position" ≫= float_cell;
  spot_price ← cell row "spot" ≫= float_cell;
  strike ← cell row "strike" ≫= float_cell;
  expiry ← cell row "expiry" ≫= float_cell;
  volatility ← cell row "volatility" ≫= float_cell;
  option_type ← cell row "option_type" ≫= lower_cell;
  mret {| Opt.symbol := symbol;
          Opt.strike := strike;
          Opt.option_type := option_type;
          Opt.market_price := None;
          Opt.implied_volatility := volatility;
          Opt.expiry_days := py_mul expiry (Int 365);
          Opt.position := Some position;
          Opt.spot_price := Some spot_price |}.

(** The [for row in reader] of lines 111-126. *)
Fixpoint portfolio_rows (rows : list (gmap string (option string))) : parser unit :=
  match rows with
  | [] => mret tt
  | row :: rest =>
      _ ← parser_try (option ← lift (portfolio_option row); append option)
             caught_by_portfolio (mret tt);
      portfolio_rows rest
  end.

(** Lines 104-128; the argument is what [csv.DictReader] yields. *)
Definition parse_portfolio_csv (reader : list (gmap string (option string)))
  : result (list Opt.t) :=
  run_parser (portfolio_rows reader).

(** Lines 245-314. *)
Definition analyze_csv (file : csv_file) (output_format : string)
    (spot_price : option num) (risk_free_rate : num) : result report :=
  let first_line := lower (first_line file) in
  '(options, format_type) ←
    (if contains "symbol,position,spot,strike" first_line
     then options ← parse_portfolio_csv (dict_rows file); mret (options, "portfolio")
     else options ← parse_option_chain_csv (filepath file) (reader_rows file);
          mret (options, "option_chain"));
  match options with
  | [] => mret (ReportError "No valid options found in CSV file")
  | first :: _ =>
      spot_price ←
        match spot_price with
        | Some given => mret given
        | None =>
            if String.eqb format_type "portfolio"
            then mret (default (Float 23000) (Opt.spot_price first))
            else estimate_spot_price options
        end;
      results ←
        result_map
          (fun option =>
             calculation ← calculate_option_price option spot_price risk_free_rate;
             make_result option spot_price calculation)
          options;
      summary ← _generate_summary results spot_price;
      mret (Report
        {| Meta.filename := name file;
           Meta.format_type := format_type;
           Meta.total_options := len results;
           Meta.spot_price := spot_price;
           Meta.risk_free_rate := risk_free_rate;
           Meta.analysis_time := now |}
        results summary)
  end.

(** ** What a row of an option chain contributes

    The columns the loop body reads, named, and the list one row adds to
    [options]; [chain_rows_run] below proves that the loop computes it. *)

Definition column (row : list string) (i : nat) : string := nth i row "".

(** Column 11 with commas and quotes removed (line 64). *)
Definition strike_text (row : list string) : string :=
  remove_char "034" (remove_char "," (column row 11)).

(** The strike of lines 64-67, when the text is neither blank nor ['-'] and
    [float] accepts it. *)
Definition row_strike (row : list string) : option num :=
  let strike_str := strike_text row in
  if is_empty strike_str || String.eqb strike_str "-" then None
  else
    match py_float strike_str with
    | Some f => Some (Float f)
    | None => None
    end.

Definition call_ltp (row : list string) : option num := _parse_price (column row 5).
Definition call_iv (row : list string) : option num := _parse_percentage (column row 4).
Definition put_ltp (row : list string) : option num := _parse_price (column row 17).
Definition put_iv (row : list string) : option num := _parse_percentage (column row 18).

Definition traded (filepath : string) (strike : num) (option_type : string)
    (ltp iv : option num) : list Opt.t :=
  match ltp with
  | Some p =>
      if py_gt p (Int 0) then [chain_option filepath strike option_type p iv] else []
  | None => []
  end.

Definition row_options (filepath : string) (row : list string) : list Opt.t :=
  if len row <? 23 then []
  else
    match row_strike row with
    | Some strike =>
        traded filepath strike "call" (call_ltp row) (call_iv row)
        ++ traded filepath strike "put" (put_ltp row) (put_iv row)
    | None => []
    end.

(** The implied-volatility column behind an option of the chain. *)
Definition source_iv (row : list string) (o : Opt.t) : option num :=
  if is_call o then call_iv row else put_iv row.

(** A result whose market price is set has the two difference keys. *)
Definition differences_present (r : Res.t) : bool :=
  match Res.market_price r with
  | Some _ =>
      match Res.price_difference r, Res.price_difference_pct r with
      | Some _, Some _ => true
      | _, _ => false
      end
  | None => true
  end.

(** The results [analyze_csv] builds from [options], given the calculation
    of each (lines 275-298). *)
Definition results_of (options : list Opt.t) (spot_price risk_free_rate : num)
  : result (list Res.t) :=
  result_map
    (fun option =>
       calculation ← calculate_option_price option spot_price risk_free_rate;
       make_result option spot_price calculation)
    options.

(** ** The stages of [analyze_csv], named *)

(** Lines 251-259: the format is read off the lower-cased first line, and
    the file goes to the parser of that format. *)
Definition detect_and_parse (file : csv_file) : result (list Opt.t * string) :=
  if contains "symbol,position,spot,strike" (lower (first_line file))
  then options ← parse_portfolio_csv (dict_rows file); mret (options, "portfolio")
  else options ← parse_option_chain_csv (filepath file) (reader_rows file);
       mret (options, "option_chain").

(** Lines 265-269: the spot every option of the run is priced at. *)
Definition resolve_spot (spot_price : option num) (format_type : string)
    (first : Opt.t) (options : list Opt.t) : result num :=
  match spot_price with
  | Some given => mret given
  | None =>
      if String.eqb format_type "portfolio"
      then mret (default (Float 23000) (Opt.spot_price first))
      else estimate_spot_price options
  end.

(** What a result copies from its option and from the run (lines 282-289). *)
Definition result_of_option (spot_price : num) (o : Opt.t) (r : Res.t) : Prop :=
  Res.symbol r = Opt.symbol o
  /\ Res.option_type r = Opt.option_type o
  /\ Res.strike r = Opt.strike o
  /\ Res.expiry_days r = Opt.expiry_days o
  /\ Res.implied_volatility r = Opt.implied_volatility o
  /\ Res.market_price r = Opt.market_price o
  /\ Res.position r = default (Int 1) (Opt.position o)
  /\ Res.spot_price r = spot_price.


(** ** The option-chain parser on a file as it is read

    Lines 54-58 open the file and iterate the reader outside the [try] of
    the loop: the rows yielded are parsed as [parse_option_chain_csv] parses
    them, and an exception of the reading, at [open], at [next(reader)] or
    at a later row, leaves the function. *)
Definition parse_option_chain_file (filepath : string) (file : reading)
  : outcome (list Opt.t) :=
  match file with
  | Fail e => ReadFailed e
  | _ =>
      match parse_option_chain_csv filepath (yielded file) with
      | Raise e => RaisedExn e
      | Ok options =>
          match failure file with
          | Some e => ReadFailed e
          | None => Returned options
          end
      end
  end.
(** * Properties *)

#[local] Set Default Proof Using "Type".

(** ** Numbers *)

Arguments py_add : simpl never.
Arguments py_sub : simpl never.
Arguments py_mul : simpl never.
Arguments py_truediv : simpl never.
Arguments py_abs : simpl never.
Arguments py_lt : simpl never.
Arguments py_gt : simpl never.
Arguments is_zero : simpl never.
Arguments to_float : simpl never.
Arguments Z_to_float : simpl never.

Lemma float_positive_nonzero (f : float) :
  PrimFloat.ltb 0 f = true -> PrimFloat.eqb f 0 = false.
Proof.
  rewrite ltb_spec, FloatAxioms.eqb_spec.
  change (Prim2SF 0) with (S754_zero false).
  unfold SFltb, SFeqb.
  destruct (Prim2SF f) as [s | s | | s m e]; simpl; try discriminate;
    destruct s; intros; try discriminate; reflexivity.
Qed.

Lemma py_gt_zero_nonzero (n : num) : py_gt n (Int 0) = true -> is_zero n = false.
Proof.
  destruct n as [z | f]; unfold py_gt, py_lt, is_zero; simpl.
  - intros H. apply Z.ltb_lt in H. apply Z.eqb_neq. lia.
  - change (Z_to_float 0) with 0%float. apply float_positive_nonzero.
Qed.

Lemma len_positive {A} (x : A) (xs : list A) : is_zero (Int (len (x :: xs))) = false.
Proof. unfold is_zero, len. apply Z.eqb_neq. simpl length. lia. Qed.

(** ** Expiry *)

(** The estimate is 30 days or a day count clamped to at least 1. *)
Lemma _estimate_expiry_days_at_least_one filepath : 1 <= _estimate_expiry_days filepath.
Proof.
  unfold _estimate_expiry_days.
  destruct (date_match filepath) as [[[day month_str] year] |]; [| lia].
  destruct (_ ≫= _); lia.
Qed.

(** ** The loop of the option-chain parser *)

Ltac run_monad :=
  unfold mbind, mret, fmap, parser_bind, parser_ret, parser_fmap, result_bind,
    result_ret, lift, append in *.

Lemma getitem_column (row : list string) (i : nat) :
  (i < length row)%nat -> getitem row i = Ok (column row i).
Proof.
  intros Hi. unfold getitem, column.
  rewrite (nth_error_nth' row "" Hi). reflexivity.
Qed.

Lemma append_if_traded_run filepath strike option_type ltp iv options :
  append_if_traded filepath strike option_type ltp iv options
  = (Ok tt, options ++ traded filepath strike option_type ltp iv).
Proof.
  unfold append_if_traded, traded. run_monad.
  destruct ltp as [p |]; [destruct (py_gt p (Int 0)) |]; simpl;
    rewrite ?app_nil_r; reflexivity.
Qed.

Lemma chain_row_run filepath row options :
  (len row <? 23) = false ->
  parser_try (chain_row filepath row) caught_by_chain (mret tt) options
  = (Ok tt, options ++ row_options filepath row).
Proof.
  intros Hlen. unfold row_options. rewrite Hlen.
  apply Z.ltb_ge in Hlen. unfold len in Hlen.
  unfold parser_try, chain_row, row_strike, strike_text, float_of.
  run_monad.
  rewrite !getitem_column by lia.
  destruct (is_empty _ || _)%bool.
  - rewrite app_nil_r. reflexivity.
  - destruct (py_float _) as [f |]; simpl.
    + rewrite !append_if_traded_run. rewrite <- app_assoc. reflexivity.
    + rewrite app_nil_r. reflexivity.
Qed.

Lemma chain_rows_run filepath rows options :
  chain_rows filepath rows options
  = (Ok tt, options ++ flat_map (row_options filepath) rows).
Proof.
  revert options. induction rows as [| row rest IH]; intros options; simpl.
  - rewrite app_nil_r. reflexivity.
  - run_monad. destruct (len row <? 23) eqn:Hlen.
    + rewrite IH. unfold row_options at 2. rewrite Hlen. reflexivity.
    + pose proof (chain_row_run filepath row options Hlen) as Hrow.
      run_monad. rewrite Hrow, IH, app_assoc. reflexivity.
Qed.

(** The parser is total on a file with a header line, and its result is the
    rows' contributions in order. *)
Lemma parse_option_chain_csv_run filepath headers rows :
  parse_option_chain_csv filepath (headers :: rows)
  = Ok (flat_map (row_options filepath) rows).
Proof.
  unfold parse_option_chain_csv, run_parser. rewrite chain_rows_run. reflexivity.
Qed.

Lemma traded_type filepath strike option_type ltp iv o :
  In o (traded filepath strike option_type ltp iv) ->
  Opt.option_type o = option_type /\ Opt.strike o = strike
  /\ Opt.implied_volatility o = py_or iv (Float 0.20)
  /\ Opt.market_price o = ltp /\ positive ltp = true.
Proof.
  unfold traded, positive. destruct ltp as [p |]; [| intros []].
  destruct (py_gt p (Int 0)) eqn:Hp; [| intros []].
  intros [<- | []]. simpl. auto.
Qed.

Lemma traded_positive filepath strike option_type ltp iv :
  positive ltp = true ->
  exists o, traded filepath strike option_type ltp iv = [o]
            /\ Opt.option_type o = option_type /\ Opt.strike o = strike.
Proof.
  unfold traded, positive. destruct ltp as [p |]; [| discriminate].
  intros ->. eexists; split; [reflexivity | simpl; auto].
Qed.

Lemma traded_not_positive filepath strike option_type ltp iv :
  positive ltp = false -> traded filepath strike option_type ltp iv = [].
Proof.
  unfold traded, positive. destruct ltp as [p |]; [| reflexivity].
  intros ->. reflexivity.
Qed.

Lemma row_options_type filepath row o :
  In o (row_options filepath row) ->
  Opt.option_type o = "call" \/ Opt.option_type o = "put".
Proof.
  unfold row_options. destruct (len row <? 23); [intros [] |].
  destruct (row_strike row) as [strike |]; [| intros []].
  rewrite in_app_iff. intros [H | H]; apply traded_type in H as (-> & _); auto.
Qed.

(** A row of a file contributes the same options wherever it stands. *)
Lemma parse_option_chain_csv_row filepath headers before row after :
  parse_option_chain_csv filepath (headers :: before ++ row :: after)
  = Ok (flat_map (row_options filepath) before
        ++ row_options filepath row
        ++ flat_map (row_options filepath) after).
Proof.
  rewrite parse_option_chain_csv_run, flat_map_app. reflexivity.
Qed.

Lemma traded_length filepath strike option_type ltp iv :
  length (traded filepath strike option_type ltp iv) = Nat.b2n (positive ltp).
Proof.
  destruct (positive ltp) eqn:Hpositive.
  - destruct (traded_positive filepath strike option_type ltp iv Hpositive) as (o & -> & _).
    reflexivity.
  - rewrite (traded_not_positive filepath strike option_type ltp iv Hpositive).
    reflexivity.
Qed.

(** C4. For a row of an option chain with at least 23 columns whose strike
    parses, the parser emits a call exactly when the call LTP (column 5)
    parses to a positive value and, independently, a put exactly when the put
    LTP (column 17) does; the row contributes these options, and nothing
    else, wherever it stands in the file: every option it yields is a call
    or a put with the row's strike, and it yields one option for each of the
    two LTPs that is positive, so zero, one or two; when both LTPs are
    positive it yields exactly two, the call and the put, with the same
    strike. *)
Theorem chain_row_emits_call_and_put filepath headers row strike :
  23 <= len row ->
  row_strike row = Some strike ->
  exists emitted,
    parse_option_chain_csv filepath [headers; row] = Ok emitted
    /\ (forall before after, exists earlier later,
          parse_option_chain_csv filepath (headers :: before) = Ok earlier
          /\ parse_option_chain_csv filepath (headers :: after) = Ok later
          /\ parse_option_chain_csv filepath (headers :: before ++ row :: after)
             = Ok (earlier ++ emitted ++ later))
    /\ ((exists o, In o emitted /\ Opt.option_type o = "call")
        <-> positive (call_ltp row) = true)
    /\ ((exists o, In o emitted /\ Opt.option_type o = "put")
        <-> positive (put_ltp row) = true)
    /\ (forall o, In o emitted ->
        Opt.strike o = strike
        /\ (Opt.option_type o = "call" \/ Opt.option_type o = "put"))
    /\ length emitted
       = (Nat.b2n (positive (call_ltp row)) + Nat.b2n (positive (put_ltp row)))%nat
    /\ (length emitted <= 2)%nat
    /\ (positive (call_ltp row) = true -> positive (put_ltp row) = true ->
        exists c p, emitted = [c; p]
                    /\ Opt.option_type c = "call" /\ Opt.option_type p = "put"
                    /\ Opt.strike c = strike /\ Opt.strike p = strike).
Proof.
  intros Hlen Hstrike.
  exists (row_options filepath row).
  assert (Hrow : row_options filepath row
                 = traded filepath strike "call" (call_ltp row) (call_iv row)
                   ++ traded filepath strike "put" (put_ltp row) (put_iv row)).
  { unfold row_options. rewrite Hstrike.
    destruct (len row <? 23) eqn:Hshort; [apply Z.ltb_lt in Hshort; lia | reflexivity]. }
  assert (Hcount : length (row_options filepath row)
                   = (Nat.b2n (positive (call_ltp row))
                      + Nat.b2n (positive (put_ltp row)))%nat).
  { rewrite Hrow, length_app, !traded_length. reflexivity. }
  split; [| split; [| split; [| split; [| split; [| split; [| split]]]]]].
  - rewrite parse_option_chain_csv_run. simpl. rewrite app_nil_r. reflexivity.
  - intros before after. do 2 eexists.
    rewrite !parse_option_chain_csv_run, flat_map_app. simpl. auto.
  - rewrite Hrow. split.
    + intros (o & Hin & Htype). apply in_app_iff in Hin as [Hin | Hin];
        apply traded_type in Hin as (Ht & _ & _ & _ & Hpos); [exact Hpos |].
      rewrite Htype in Ht. discriminate.
    + intros Hpos.
      destruct (traded_positive filepath strike "call" _ (call_iv row) Hpos)
        as (o & -> & Ht & _).
      exists o. split; [left; reflexivity | exact Ht].
  - rewrite Hrow. split.
    + intros (o & Hin & Htype). apply in_app_iff in Hin as [Hin | Hin];
        apply traded_type in Hin as (Ht & _ & _ & _ & Hpos); [| exact Hpos].
      rewrite Htype in Ht. discriminate.
    + intros Hpos.
      destruct (traded_positive filepath strike "put" _ (put_iv row) Hpos)
        as (o & Heq & Ht & _).
      exists o. split; [| exact Ht]. rewrite Heq. apply in_app_iff. right. left. reflexivity.
  - intros o Hin. split; [| exact (row_options_type filepath row o Hin)].
    rewrite Hrow in Hin. apply in_app_iff in Hin as [Hin | Hin];
      apply traded_type in Hin as (_ & Hstrike' & _); exact Hstrike'.
  - exact Hcount.
  - rewrite Hcount.
    destruct (positive (call_ltp row)), (positive (put_ltp row)); simpl; lia.
  - intros Hcall Hput. rewrite Hrow.
    destruct (traded_positive filepath strike "call" _ (call_iv row) Hcall)
      as (c & -> & Hc & Hcs).
    destruct (traded_positive filepath strike "put" _ (put_iv row) Hput)
      as (p & -> & Hp & Hps).
    exists c, p. auto.
Qed.

(** C5. A row of an option chain with fewer than 23 columns, or whose strike
    field (column 11 without commas and quotes) is blank or ['-'] (or is text
    that [float] rejects), yields no option: alone in a file it gives the
    empty list, and in any file the parser returns, without raising, what it
    returns for the file without that row, so the rows after it are still
    read. *)
Theorem chain_row_skipped filepath headers before row after :
  len row < 23 \/ strike_text row = "" \/ strike_text row = "-"
  \/ py_float (strike_text row) = None ->
  parse_option_chain_csv filepath [headers; row] = Ok []
  /\ exists options,
       parse_option_chain_csv filepath (headers :: before ++ row :: after) = Ok options
       /\ parse_option_chain_csv filepath (headers :: before ++ after) = Ok options.
Proof.
  intros Hskip.
  assert (Hnone : row_options filepath row = []).
  { unfold row_options, row_strike.
    destruct (len row <? 23) eqn:Hshort; [reflexivity |].
    destruct Hskip as [Hlt | [-> | [-> | ->]]]; [| reflexivity | reflexivity |].
    - apply Z.ltb_ge in Hshort. lia.
    - destruct (_ || _)%bool; reflexivity. }
  split.
  - rewrite parse_option_chain_csv_run. simpl. rewrite Hnone. reflexivity.
  - eexists. rewrite parse_option_chain_csv_row, parse_option_chain_csv_run, Hnone.
    rewrite flat_map_app. split; reflexivity.
Qed.

Lemma row_options_iv filepath row o :
  In o (row_options filepath row) ->
  Opt.implied_volatility o = py_or (source_iv row o) (Float 0.20).
Proof.
  unfold row_options, source_iv, is_call. destruct (len row <? 23); [intros [] |].
  destruct (row_strike row) as [strike |]; [| intros []].
  rewrite in_app_iff. intros [H | H]; apply traded_type in H as (-> & _ & -> & _);
    reflexivity.
Qed.

(** C6, as the code has it.  An option of the chain comes from a row, and its
    implied volatility is the one parsed from the row's IV column (4 for a
    call, 18 for a put) when that is a number other than zero; it is 0.20
    when the column gives no number (blank, ['-'], not a number) and also
    when it gives zero. *)
Theorem chain_implied_volatility filepath headers rows options o :
  parse_option_chain_csv filepath (headers :: rows) = Ok options ->
  In o options ->
  exists row emitted,
    In row rows
    /\ parse_option_chain_csv filepath [headers; row] = Ok emitted
    /\ In o emitted
    /\ (forall v, source_iv row o = Some v -> is_zero v = false ->
        Opt.implied_volatility o = v)
    /\ (forall v, source_iv row o = Some v -> is_zero v = true ->
        Opt.implied_volatility o = Float 0.20)
    /\ (source_iv row o = None -> Opt.implied_volatility o = Float 0.20).
Proof.
  rewrite parse_option_chain_csv_run. intros [= <-] Hin.
  apply in_flat_map in Hin as (row & Hrow & Hin).
  exists row, (row_options filepath row).
  split; [exact Hrow |]. split.
  { rewrite parse_option_chain_csv_run. simpl. rewrite app_nil_r. reflexivity. }
  split; [exact Hin |].
  rewrite (row_options_iv filepath row o Hin). unfold py_or.
  split; [| split].
  - intros v -> ->. reflexivity.
  - intros v -> ->. reflexivity.
  - intros ->. reflexivity.
Qed.

(** ** The loop of the portfolio parser *)

Lemma portfolio_rows_run rows options :
  exists r added,
    portfolio_rows rows options = (r, options ++ added)
    /\ Forall (fun o => exists row, In row rows /\ portfolio_option row = Ok o) added.
Proof.
  revert options. induction rows as [| row rest IH]; intros options; simpl.
  - exists (Ok tt), []. rewrite app_nil_r. split; [reflexivity | constructor].
  - unfold parser_try. run_monad.
    destruct (portfolio_option row) as [o | e] eqn:Hrow.
    + destruct (IH (options ++ [o])) as (r & added & Hrun & Hall).
      exists r, (o :: added). rewrite Hrun, <- app_assoc. split; [reflexivity |].
      constructor; [exists row; auto |].
      eapply List.Forall_impl; [| exact Hall].
      intros o' (row' & Hin & Hrow'). exists row'. auto.
    + destruct (caught_by_portfolio e).
      * destruct (IH options) as (r & added & Hrun & Hall).
        exists r, added. rewrite Hrun. split; [reflexivity |].
        eapply List.Forall_impl; [| exact Hall].
        intros o' (row' & Hin & Hrow'). exists row'. auto.
      * exists (Raise e), []. rewrite app_nil_r. split; [reflexivity | constructor].
Qed.

Lemma parse_portfolio_csv_rows reader options o :
  parse_portfolio_csv reader = Ok options -> In o options ->
  exists row, In row reader /\ portfolio_option row = Ok o.
Proof.
  unfold parse_portfolio_csv, run_parser.
  destruct (portfolio_rows_run reader []) as (r & added & -> & Hall).
  destruct r as [[] | e]; [| discriminate]. intros [= <-] Hin.
  rewrite List.Forall_forall in Hall. apply Hall. exact Hin.
Qed.

Ltac step_cell H :=
  match type of H with
  | context [cell ?row ?column] =>
      unfold cell at 1 in H;
      let v := fresh "v" in
      let E := fresh "E" in
      destruct (row !! column) as [v |] eqn:E; [| discriminate H]
  end.

Ltac step_float H :=
  match type of H with
  | context [float_cell ?v] =>
      let n := fresh "n" in
      let E := fresh "E" in
      destruct (float_cell v) as [n |] eqn:E; [| discriminate H]
  end.

Lemma portfolio_option_fields row o :
  portfolio_option row = Ok o ->
  Opt.market_price o = None
  /\ (exists text, row !! "option_type" = Some (Some text)
                   /\ Opt.option_type o = lower text)
  /\ (exists position, Opt.position o = Some position)
  /\ (exists spot, Opt.spot_price o = Some spot).
Proof.
  unfold portfolio_option. run_monad. intros H.
  step_cell H. do 5 (step_cell H; step_float H). step_cell H.
  unfold lower_cell in H. destruct v5 as [text |]; [| discriminate H].
  injection H as <-. simpl. eauto 10.
Qed.

(** C8, as the code has it.  Every option of the option-chain parser has
    option type ['call'] or ['put'].  Every option of the portfolio parser
    has, as its option type, the lower-cased text of the [option_type] column
    of a row of the file, whatever that text spells. *)
Theorem option_type_of_parsed_options :
  (forall filepath reader options o,
     parse_option_chain_csv filepath reader = Ok options -> In o options ->
     Opt.option_type o = "call" \/ Opt.option_type o = "put")
  /\ (forall reader options o,
        parse_portfolio_csv reader = Ok options -> In o options ->
        exists row text,
          In row reader /\ row !! "option_type" = Some (Some text)
          /\ Opt.option_type o = lower text).
Proof.
  split.
  - intros filepath [| headers rows] options o; [discriminate |].
    rewrite parse_option_chain_csv_run. intros [= <-] Hin.
    apply in_flat_map in Hin as (row & _ & Hin).
    exact (row_options_type filepath row o Hin).
  - intros reader options o Hparse Hin.
    destruct (parse_portfolio_csv_rows reader options o Hparse Hin) as (row & Hrow & Ho).
    apply portfolio_option_fields in Ho as (_ & (text & Hcell & Htype) & _).
    exists row, text. auto.
Qed.

(** ** The per-option result *)

Lemma make_result_run option spot_price calculation :
  make_result option spot_price calculation
  = Ok
      (let result := base_result option spot_price calculation in
       let t := Calc.theoretical_price calculation in
       match Opt.market_price option with
       | Some m =>
           set_differences result (py_sub m t)
             (if py_gt t (Int 0)
              then py_mul (Float (to_float (py_sub m t) / to_float t)) (Int 100)
              else Int 0)
       | None => result
       end).
Proof.
  unfold make_result. simpl.
  destruct (Opt.market_price option) as [m |]; [| reflexivity].
  destruct (py_gt (Calc.theoretical_price calculation) (Int 0)) eqn:Hpos; [| reflexivity].
  unfold py_truediv. rewrite (py_gt_zero_nonzero _ Hpos). reflexivity.
Qed.

(** C3, as the code has it.  Building a result never raises.  Its two
    difference keys are missing exactly when the option has no market price.
    With a market price [m] and theoretical price [t],
    [price_difference = m - t] whatever [t] is, and [price_difference_pct] is
    [(m - t) / t * 100] when [t > 0] and the integer 0 otherwise (in
    particular when [t == 0]). *)
Theorem price_differences_of_result option spot_price calculation :
  exists r,
    make_result option spot_price calculation = Ok r
    /\ Res.market_price r = Opt.market_price option
    /\ Res.theoretical_price r = Calc.theoretical_price calculation
    /\ (Res.market_price r = None ->
        Res.price_difference r = None /\ Res.price_difference_pct r = None)
    /\ (forall m, Res.market_price r = Some m ->
        let t := Res.theoretical_price r in
        Res.price_difference r = Some (py_sub m t)
        /\ (py_gt t (Int 0) = true ->
            exists q, py_truediv (py_sub m t) t = Ok q
                      /\ Res.price_difference_pct r = Some (py_mul q (Int 100)))
        /\ (py_gt t (Int 0) = false -> Res.price_difference_pct r = Some (Int 0))).
Proof.
  eexists. split; [apply make_result_run |].
  destruct (Opt.market_price option) as [m |] eqn:Hm; simpl; rewrite ?Hm;
    (split; [reflexivity |]); (split; [reflexivity |]); split.
  - discriminate.
  - intros m' [= <-]. split; [reflexivity |]. split.
    + intros Hpos. rewrite Hpos. unfold py_truediv.
      rewrite (py_gt_zero_nonzero _ Hpos). eauto.
    + intros ->. reflexivity.
  - auto.
  - discriminate.
Qed.

Lemma make_result_differences_present option spot_price calculation r :
  make_result option spot_price calculation = Ok r -> differences_present r = true.
Proof.
  rewrite make_result_run. intros [= <-]. unfold differences_present.
  destruct (Opt.market_price option) as [m |] eqn:Hm; simpl; rewrite Hm; reflexivity.
Qed.

(** ** The summary *)

Lemma filter_without_failed (before after : list Res.t) failed :
  Res.calculation_success failed = false ->
  List.filter Res.calculation_success (before ++ failed :: after)
  = List.filter Res.calculation_success (before ++ after).
Proof.
  intros Hfailed. rewrite !List.filter_app. simpl. rewrite Hfailed. reflexivity.
Qed.

Lemma filter_none {A} (f : A -> bool) (xs : list A) :
  (forall x, In x xs -> f x = false) -> List.filter f xs = [].
Proof.
  induction xs as [| x rest IH]; simpl; [reflexivity |].
  intros H. rewrite (H x (or_introl eq_refl)). apply IH. intros y Hy. apply H. right. exact Hy.
Qed.

Lemma successful_not_nil results :
  (exists r, In r results /\ Res.calculation_success r = true) ->
  is_nil (List.filter Res.calculation_success results) = false.
Proof.
  intros (r & Hin & Hok).
  assert (Hr : In r (List.filter Res.calculation_success results))
    by (apply List.filter_In; auto).
  destruct (List.filter _ results); [destruct Hr | reflexivity].
Qed.

Lemma no_successful_nil results :
  Forall (fun r => Res.calculation_success r = false) results ->
  List.filter Res.calculation_success results = [].
Proof.
  induction 1 as [| r rest Hr _ IH]; simpl; [reflexivity |].
  rewrite Hr. exact IH.
Qed.

Lemma differences_keys (rs : list Res.t) :
  Forall (fun r => differences_present r = true) rs ->
  let mispriced := List.filter has_market_price rs in
  exists differences pcts,
    result_map (fun r => key (Res.price_difference r)) mispriced = Ok differences
    /\ result_map (fun r => key (Res.price_difference_pct r)) mispriced = Ok pcts.
Proof.
  induction 1 as [| r rest Hr _ IH]; simpl.
  - exists [], []. auto.
  - destruct IH as (ds & ps & Hds & Hps).
    destruct (has_market_price r) eqn:Hm; [| eauto].
    unfold differences_present in Hr. unfold has_market_price in Hm.
    destruct (Res.market_price r); [| discriminate].
    destruct (Res.price_difference r) as [d |] eqn:Hd; [| discriminate].
    destruct (Res.price_difference_pct r) as [p |] eqn:Hp; [| discriminate].
    exists (d :: ds), (p :: ps). simpl. rewrite Hd, Hp, Hds, Hps. auto.
Qed.

Lemma filter_keeps_present (f : Res.t -> bool) (rs : list Res.t) :
  Forall (fun r => differences_present r = true) rs ->
  Forall (fun r => differences_present r = true) (List.filter f rs).
Proof.
  intros H. apply List.Forall_forall. intros r Hin.
  apply List.filter_In in Hin as [Hin _].
  rewrite List.Forall_forall in H. auto.
Qed.

(** With every difference key in place and a successful result, the summary
    is produced, and its totals are those of the successful results. *)
Lemma _generate_summary_produced results spot_price :
  Forall (fun r => differences_present r = true) results ->
  (exists r, In r results /\ Res.calculation_success r = true) ->
  exists pm ma rm,
    _generate_summary results spot_price = Ok (Summary pm ma rm)
    /\ total_value pm
       = weighted Res.theoretical_price (List.filter Res.calculation_success results)
    /\ net_delta pm = weighted Res.delta (List.filter Res.calculation_success results)
    /\ net_gamma pm = weighted Res.gamma (List.filter Res.calculation_success results)
    /\ net_vega pm = weighted Res.vega (List.filter Res.calculation_success results)
    /\ net_theta pm = weighted Res.theta (List.filter Res.calculation_success results).
Proof.
  intros Hpresent Hsome. unfold _generate_summary.
  rewrite (successful_not_nil results Hsome).
  destruct (differences_keys _ (filter_keeps_present Res.calculation_success _ Hpresent))
    as (ds & ps & Hds & Hps).
  unfold count_differences. rewrite Hds.
  destruct (List.filter has_market_price _) as [| r0 rest] eqn:Hmis.
  - simpl. do 3 eexists. split; [reflexivity |]. simpl. auto.
  - rewrite Hps. simpl is_nil. cbv iota. unfold py_truediv.
    rewrite len_positive. simpl.
    do 3 eexists. split; [reflexivity |]. simpl. auto.
Qed.

(** A summary that is produced carries the totals of the successful
    results. *)
Lemma _generate_summary_totals results spot_price pm ma rm :
  _generate_summary results spot_price = Ok (Summary pm ma rm) ->
  let successful := List.filter Res.calculation_success results in
  total_value pm = weighted Res.theoretical_price successful
  /\ net_delta pm = weighted Res.delta successful
  /\ net_gamma pm = weighted Res.gamma successful
  /\ net_vega pm = weighted Res.vega successful
  /\ net_theta pm = weighted Res.theta successful.
Proof.
  unfold _generate_summary.
  destruct (is_nil (List.filter Res.calculation_success results)); [discriminate |].
  destruct (if is_nil _ then _ else _) as [avg | e]; simpl; [| discriminate].
  destruct (count_differences py_gt _) as [over | e]; simpl; [| discriminate].
  destruct (count_differences py_lt _) as [under | e]; simpl; [| discriminate].
  intros [= <- _ _]. simpl. auto.
Qed.

Lemma _generate_summary_without_failed before failed after spot_price :
  Res.calculation_success failed = false ->
  _generate_summary (before ++ failed :: after) spot_price
  = _generate_summary (before ++ after) spot_price.
Proof.
  intros Hfailed. unfold _generate_summary.
  rewrite (filter_without_failed before after failed Hfailed). reflexivity.
Qed.

(** C1.  Whenever the summary is produced, its portfolio value and each of
    its net Greeks is the sum of [theoretical_price * position], respectively
    [greek * position], over the results with [calculation_success] true, and
    over no other; it is produced for every sequence with a successful result
    whose results carry their difference keys (as those of [analyze_csv] do).
    A failed result contributes nothing: whatever its position and Greeks,
    and wherever it stands, the summary is that of the sequence without it.
    In particular one successful result with delta 0.5 and position 2 and one
    failed result of any position (10, say) give net delta exactly 1.0. *)
Theorem summary_totals_exclude_failed :
  (forall results spot_price pm ma rm,
     _generate_summary results spot_price = Ok (Summary pm ma rm) ->
     let successful := List.filter Res.calculation_success results in
     let total greek :=
       py_sum (List.map (fun r => py_mul (greek r) (Res.position r)) successful) in
     total_value pm = total Res.theoretical_price
     /\ net_delta pm = total Res.delta
     /\ net_gamma pm = total Res.gamma
     /\ net_vega pm = total Res.vega
     /\ net_theta pm = total Res.theta)
  /\ (forall results spot_price,
        Forall (fun r => differences_present r = true) results ->
        (exists r, In r results /\ Res.calculation_success r = true) ->
        exists pm ma rm, _generate_summary results spot_price = Ok (Summary pm ma rm))
  /\ (forall before failed after spot_price,
        Res.calculation_success failed = false ->
        _generate_summary (before ++ failed :: after) spot_price
        = _generate_summary (before ++ after) spot_price)
  /\ (forall good failed spot_price,
        Res.calculation_success good = true ->
        Res.calculation_success failed = false ->
        differences_present good = true ->
        Res.delta good = Float 0.5 ->
        Res.position good = Float 2 \/ Res.position good = Int 2 ->
        exists pm ma rm,
          _generate_summary [good; failed] spot_price = Ok (Summary pm ma rm)
          /\ _generate_summary [failed; good] spot_price = Ok (Summary pm ma rm)
          /\ net_delta pm = Float 1).
Proof.
  split; [| split; [| split]].
  - intros results spot_price pm ma rm Hrun. simpl.
    exact (_generate_summary_totals results spot_price pm ma rm Hrun).
  - intros results spot_price Hpresent Hsome.
    destruct (_generate_summary_produced results spot_price Hpresent Hsome)
      as (pm & ma & rm & Hrun & _).
    eauto.
  - exact _generate_summary_without_failed.
  - intros good failed spot_price Hgood Hfailed Hpresent Hdelta Hposition.
    destruct (_generate_summary_produced [good] spot_price) as (pm & ma & rm & Hrun & Hsum).
    { constructor; [exact Hpresent | constructor]. }
    { exists good. split; [left; reflexivity | exact Hgood]. }
    exists pm, ma, rm.
    change [good; failed] with ([good] ++ failed :: []).
    change [failed; good] with ([] ++ failed :: [good]).
    rewrite !(_generate_summary_without_failed _ failed _ spot_price Hfailed).
    change ([good] ++ []) with [good]. change ([] ++ [good]) with [good].
    split; [exact Hrun |]. split; [exact Hrun |].
    destruct Hsum as (_ & -> & _). simpl. rewrite Hgood.
    unfold weighted. simpl List.map. rewrite Hdelta.
    destruct Hposition as [-> | ->]; vm_compute; reflexivity.
Qed.

Lemma filter_nil_all {A} (f : A -> bool) (xs : list A) :
  List.filter f xs = [] -> Forall (fun x => f x = false) xs.
Proof.
  induction xs as [| x rest IH]; simpl; [constructor |].
  destruct (f x) eqn:Hx; [discriminate |]. intros H. constructor; auto.
Qed.

(** No successful result with a market price: the mispricing subset is empty
    and the market analysis is all zeros. *)
Lemma _generate_summary_no_market_prices results spot_price :
  (exists r, In r results /\ Res.calculation_success r = true) ->
  (forall r, In r results -> Res.calculation_success r = true ->
             Res.market_price r = None) ->
  exists pm rm,
    _generate_summary results spot_price = Ok (Summary pm no_market_analysis rm).
Proof.
  intros Hsome Hprices. unfold _generate_summary.
  rewrite (successful_not_nil results Hsome).
  assert (Hmis : List.filter has_market_price
                   (List.filter Res.calculation_success results) = []).
  { apply filter_none. intros r Hin.
    apply List.filter_In in Hin as [Hin Hok]. unfold has_market_price.
    rewrite (Hprices r Hin Hok). reflexivity. }
  rewrite Hmis. simpl. do 2 eexists. reflexivity.
Qed.

(** C7.  When no result is successful the summary is the error marker
    [{'error': 'No successful calculations'}].  When some result is
    successful and no successful result carries a market price, the summary
    is produced, without raising, with [avg_price_difference_pct] the integer
    0 (and no option counted as carrying a market price, overpriced or
    underpriced). *)
Theorem summary_degenerate_cases :
  (forall results spot_price,
     Forall (fun r => Res.calculation_success r = false) results ->
     _generate_summary results spot_price
     = Ok (SummaryError "No successful calculations"))
  /\ (forall results spot_price,
        (exists r, In r results /\ Res.calculation_success r = true) ->
        (forall r, In r results -> Res.calculation_success r = true ->
                   Res.market_price r = None) ->
        exists pm ma rm,
          _generate_summary results spot_price = Ok (Summary pm ma rm)
          /\ avg_price_difference_pct ma = Int 0
          /\ options_with_market_prices ma = 0
          /\ overpriced_count ma = 0
          /\ underpriced_count ma = 0).
Proof.
  split.
  - intros results spot_price Hnone. unfold _generate_summary.
    rewrite (no_successful_nil results Hnone). reflexivity.
  - intros results spot_price Hsome Hprices.
    destruct (_generate_summary_no_market_prices results spot_price Hsome Hprices)
      as (pm & rm & Hrun).
    exists pm, no_market_analysis, rm. simpl. auto.
Qed.

(** ** The spot estimate *)

Lemma filter_some {A} (f : A -> bool) (xs : list A) x :
  In x xs -> f x = true -> is_nil (List.filter f xs) = false.
Proof.
  intros Hin Hx.
  assert (H : In x (List.filter f xs)) by (apply List.filter_In; auto).
  destruct (List.filter f xs); [destruct H | reflexivity].
Qed.

(** C2, as the code has it.  The estimate is the fallback 23000.0 for the
    empty sequence, and also for any sequence without a call or without a
    put; for a sequence with at least one call and at least one put it is
    [sum(strikes) / len(strikes)] over all its options, and computing it does
    not raise. *)
Theorem spot_estimate_mean_or_fallback :
  estimate_spot_price [] = Ok (Float 23000)
  /\ (forall options,
        (exists c, In c options /\ Opt.option_type c = "call") ->
        (exists p, In p options /\ Opt.option_type p = "put") ->
        let strikes := List.map Opt.strike options in
        estimate_spot_price options
        = Ok (Float (to_float (py_sum strikes) / to_float (Int (len strikes)))))
  /\ (forall options,
        (forall o, In o options -> Opt.option_type o <> "call")
        \/ (forall o, In o options -> Opt.option_type o <> "put") ->
        estimate_spot_price options = Ok (Float 23000)).
Proof.
  split; [reflexivity |]. split.
  - intros options (c & Hc & Hcall) (p & Hp & Hput). simpl.
    unfold estimate_spot_price.
    destruct options as [| o rest]; [destruct Hc |].
    simpl is_nil at 1. cbv iota.
    rewrite (filter_some is_call (o :: rest) c Hc)
      by (unfold is_call; rewrite Hcall; reflexivity).
    rewrite (filter_some is_put (o :: rest) p Hp)
      by (unfold is_put; rewrite Hput; reflexivity).
    simpl. unfold py_truediv. rewrite len_positive. reflexivity.
  - intros options Hlack. unfold estimate_spot_price.
    destruct (is_nil options); [reflexivity |].
    destruct Hlack as [Hno | Hno].
    + rewrite (filter_none is_call options); [reflexivity |].
      intros o Ho. unfold is_call. apply String.eqb_neq. exact (Hno o Ho).
    + rewrite (filter_none is_put options); [simpl; rewrite orb_true_r; reflexivity |].
      intros o Ho. unfold is_put. apply String.eqb_neq. exact (Hno o Ho).
Qed.

(** ** Portfolio files *)

Lemma parse_portfolio_csv_no_market_price reader options :
  parse_portfolio_csv reader = Ok options ->
  Forall (fun o => Opt.market_price o = None) options.
Proof.
  intros Hparse. apply List.Forall_forall. intros o Hin.
  destruct (parse_portfolio_csv_rows reader options o Hparse Hin) as (row & _ & Ho).
  apply portfolio_option_fields in Ho as (Hprice & _). exact Hprice.
Qed.

Lemma results_of_run options spot_price risk_free_rate results :
  results_of options spot_price risk_free_rate = Ok results ->
  length results = length options
  /\ Forall (fun r => differences_present r = true) results
  /\ (Forall (fun o => Opt.market_price o = None) options ->
      Forall (fun r => Res.market_price r = None) results).
Proof.
  unfold results_of. revert results.
  induction options as [| o rest IH]; simpl; intros results.
  - intros [= <-]. auto.
  - destruct (calculate_option_price o spot_price risk_free_rate) as [c | e];
      [| discriminate]. simpl.
    destruct (make_result o spot_price c) as [r | e] eqn:Hr; [| discriminate]. simpl.
    destruct (result_map _ rest) as [rs | e]; [| discriminate]. simpl.
    intros [= <-]. destruct (IH rs eq_refl) as (Hlen & Hpresent & Hnone).
    split; [simpl; congruence |]. split.
    + constructor; [exact (make_result_differences_present o spot_price c r Hr) | exact Hpresent].
    + intros Hall. inversion Hall as [| ? ? Ho Hrest]; subst.
      constructor; [| exact (Hnone Hrest)].
      rewrite make_result_run in Hr. injection Hr as <-. rewrite Ho. exact Ho.
Qed.

Lemma results_of_total options spot_price risk_free_rate :
  (forall o, In o options ->
             raises (calculate_option_price o spot_price risk_free_rate) = false) ->
  exists results, results_of options spot_price risk_free_rate = Ok results.
Proof.
  unfold results_of. induction options as [| o rest IH]; simpl; intros Hok.
  - eauto.
  - pose proof (Hok o (or_introl eq_refl)) as Ho.
    destruct (calculate_option_price o spot_price risk_free_rate) as [c | e];
      [| discriminate Ho]. simpl.
    rewrite make_result_run. simpl.
    destruct IH as (rs & ->); [intros o' Ho'; apply Hok; right; exact Ho' |].
    simpl. eauto.
Qed.

Lemma summary_of_unpriced results spot_price :
  Forall (fun r => Res.market_price r = None) results ->
  exists summary,
    _generate_summary results spot_price = Ok summary
    /\ match summary with
       | SummaryError _ => Forall (fun r => Res.calculation_success r = false) results
       | Summary _ ma _ => ma = no_market_analysis
       end.
Proof.
  intros Hnone. rewrite List.Forall_forall in Hnone.
  destruct (List.filter Res.calculation_success results) as [| r rest] eqn:Hok.
  - exists (SummaryError "No successful calculations").
    unfold _generate_summary. rewrite Hok. split; [reflexivity |].
    exact (filter_nil_all _ _ Hok).
  - assert (Hr : In r (List.filter Res.calculation_success results))
      by (rewrite Hok; left; reflexivity).
    apply List.filter_In in Hr as [Hin Hsuccess].
    destruct (_generate_summary_no_market_prices results spot_price) as (pm & rm & Hrun).
    { exists r. auto. }
    { intros r' Hin' _. exact (Hnone r' Hin'). }
    exists (Summary pm no_market_analysis rm). auto.
Qed.

Arguments results_of : simpl never.

(** [analyze_csv] on a file in portfolio format that the parser reads. *)
Lemma analyze_csv_portfolio file output_format spot_price risk_free_rate options :
  contains "symbol,position,spot,strike" (lower (first_line file)) = true ->
  parse_portfolio_csv (dict_rows file) = Ok options ->
  analyze_csv file output_format spot_price risk_free_rate
  = match options with
    | [] => Ok (ReportError "No valid options found in CSV file")
    | first :: _ =>
        let spot :=
          match spot_price with
          | Some given => given
          | None => default (Float 23000) (Opt.spot_price first)
          end in
        results ← results_of options spot risk_free_rate;
        summary ← _generate_summary results spot;
        mret (Report
          {| Meta.filename := name file;
             Meta.format_type := "portfolio";
             Meta.total_options := len results;
             Meta.spot_price := spot;
             Meta.risk_free_rate := risk_free_rate;
             Meta.analysis_time := now |}
          results summary)
    end.
Proof.
  intros Hformat Hparse. unfold analyze_csv. rewrite Hformat, Hparse.
  destruct options as [| first rest]; [reflexivity |].
  destruct spot_price; reflexivity.
Qed.

(** C10.  Every option the portfolio parser returns has [market_price]
    [None].  So for a file in portfolio format that the parser reads without
    raising, a report of [analyze_csv] is either the error report (no option
    parsed) or a report whose results all have [market_price] [None], whose
    mispricing subset is therefore empty, and whose summary, when it is not
    the error marker of a run with no successful calculation, has
    [options_with_market_prices], [overpriced_count] and [underpriced_count]
    0 and [avg_price_difference_pct] the integer 0; and [analyze_csv] does
    return a report whenever the pricing client raises on no option. *)
Theorem portfolio_options_carry_no_market_price
    file output_format spot_price risk_free_rate options :
  contains "symbol,position,spot,strike" (lower (first_line file)) = true ->
  parse_portfolio_csv (dict_rows file) = Ok options ->
  Forall (fun o => Opt.market_price o = None) options
  /\ (forall rep,
        analyze_csv file output_format spot_price risk_free_rate = Ok rep ->
        match rep with
        | ReportError _ => options = []
        | Report _ results summary =>
            length results = length options
            /\ Forall (fun r => Res.market_price r = None) results
            /\ List.filter has_market_price results = []
            /\ match summary with
               | SummaryError _ =>
                   Forall (fun r => Res.calculation_success r = false) results
               | Summary _ ma _ =>
                   options_with_market_prices ma = 0
                   /\ overpriced_count ma = 0
                   /\ underpriced_count ma = 0
                   /\ avg_price_difference_pct ma = Int 0
               end
        end)
  /\ ((forall o spot, In o options ->
                      raises (calculate_option_price o spot risk_free_rate) = false) ->
      exists rep, analyze_csv file output_format spot_price risk_free_rate = Ok rep).
Proof.
  intros Hformat Hparse.
  pose proof (parse_portfolio_csv_no_market_price _ _ Hparse) as Hnone.
  split; [exact Hnone |].
  rewrite (analyze_csv_portfolio _ _ _ _ _ Hformat Hparse).
  destruct options as [| first rest].
  { split; [intros rep [= <-]; reflexivity | eauto]. }
  set (spot := match spot_price with
               | Some given => given
               | None => default (Float 23000) (Opt.spot_price first)
               end).
  cbv zeta. split.
  - intros rep.
    destruct (results_of (first :: rest) spot risk_free_rate) as [results | e] eqn:Hresults;
      simpl; [| discriminate].
    destruct (results_of_run _ _ _ _ Hresults) as (Hlen & _ & Hall).
    specialize (Hall Hnone).
    destruct (summary_of_unpriced results spot Hall) as (summary & -> & Hsummary).
    simpl. intros [= <-].
    split; [exact Hlen |]. split; [exact Hall |]. split.
    + apply filter_none. intros r Hin. rewrite List.Forall_forall in Hall.
      unfold has_market_price. rewrite (Hall r Hin). reflexivity.
    + destruct summary as [msg | pm ma rm]; [exact Hsummary |].
      subst ma. simpl. auto.
  - intros Hclient.
    destruct (results_of_total (first :: rest) spot risk_free_rate) as (results & Hresults).
    { intros o Ho. exact (Hclient o spot Ho). }
    rewrite Hresults. simpl.
    destruct (results_of_run _ _ _ _ Hresults) as (_ & _ & Hall).
    destruct (summary_of_unpriced results spot (Hall Hnone)) as (summary & -> & _).
    simpl. eauto.
Qed.

(** * Further properties of the analyzer *)

(** ** The market analysis of the summary *)

Lemma float_not_both_signs (f : float) :
  PrimFloat.ltb 0 f = true -> PrimFloat.ltb f 0 = false.
Proof.
  rewrite !ltb_spec. change (Prim2SF 0) with (S754_zero false). unfold SFltb.
  destruct (Prim2SF f) as [s | s | | s m e]; simpl; try discriminate;
    destruct s; intros; try discriminate; reflexivity.
Qed.

Lemma py_gt_not_lt (n : num) : py_gt n (Int 0) = true -> py_lt n (Int 0) = false.
Proof.
  destruct n as [z | f]; unfold py_gt, py_lt; simpl.
  - intros H. apply Z.ltb_lt in H. apply Z.ltb_ge. lia.
  - unfold to_float. change (Z_to_float 0) with 0%float. apply float_not_both_signs.
Qed.

Lemma result_map_length {A B} (f : A -> result B) (xs : list A) (ys : list B) :
  result_map f xs = Ok ys -> length ys = length xs.
Proof.
  revert ys. induction xs as [| x rest IH]; simpl; intros ys.
  - intros [= <-]. reflexivity.
  - destruct (f x) as [y | e]; simpl; [| discriminate].
    destruct (result_map f rest) as [ys' | e]; simpl; [| discriminate].
    intros [= <-]. simpl. rewrite (IH ys' eq_refl). reflexivity.
Qed.

Lemma filter_length_le {A} (f : A -> bool) (xs : list A) :
  (length (List.filter f xs) <= length xs)%nat.
Proof.
  induction xs as [| x rest IH]; simpl; [lia |]. destruct (f x); simpl; lia.
Qed.

Lemma exclusive_filters_length {A} (f g : A -> bool) (xs : list A) :
  (forall x, f x = true -> g x = false) ->
  (length (List.filter f xs) + length (List.filter g xs) <= length xs)%nat.
Proof.
  intros Hfg. induction xs as [| x rest IH]; simpl; [lia |].
  destruct (f x) eqn:Hf; [rewrite (Hfg x Hf) |]; [simpl; lia |].
  destruct (g x); simpl; lia.
Qed.

(** X1.  In a summary that is produced, the options counted as overpriced and
    as underpriced are disjoint parts of those counted as carrying a market
    price, which are part of the successful results: the two counts are not
    negative, their sum is at most [options_with_market_prices], and that is
    at most the number of results. *)
Theorem market_analysis_counts_bounded results spot_price pm ma rm :
  _generate_summary results spot_price = Ok (Summary pm ma rm) ->
  0 <= overpriced_count ma
  /\ 0 <= underpriced_count ma
  /\ overpriced_count ma + underpriced_count ma <= options_with_market_prices ma
  /\ options_with_market_prices ma
     = len (List.filter has_market_price (List.filter Res.calculation_success results))
  /\ options_with_market_prices ma <= len results.
Proof.
  unfold _generate_summary.
  destruct (is_nil (List.filter Res.calculation_success results)); [discriminate |].
  destruct (if is_nil _ then _ else _) as [avg | e]; simpl; [| discriminate].
  unfold count_differences.
  destruct (result_map _ _) as [differences | e] eqn:Hkeys; simpl; [| discriminate].
  intros [= _ <-]. simpl.
  apply result_map_length in Hkeys.
  pose proof (exclusive_filters_length
                (fun d => py_gt d (Int 0)) (fun d => py_lt d (Int 0)) differences
                py_gt_not_lt) as Hsum.
  pose proof (filter_length_le has_market_price
                (List.filter Res.calculation_success results)) as Hmarket.
  pose proof (filter_length_le Res.calculation_success results) as Hsuccess.
  unfold len. repeat split; lia.
Qed.

Lemma result_map_key_missing {A} (field : Res.t -> option A) (rs : list Res.t) r :
  In r rs -> field r = None ->
  result_map (fun r => key (field r)) rs = Raise KeyError.
Proof.
  induction rs as [| r' rest IH]; simpl; [intros [] |].
  intros [-> | Hin] Hnone.
  - rewrite Hnone. reflexivity.
  - destruct (field r') as [v |]; simpl; [| reflexivity].
    rewrite (IH Hin Hnone). reflexivity.
Qed.

Lemma result_map_key_cases {A} (field : Res.t -> option A) (rs : list Res.t) :
  (exists vs, result_map (fun r => key (field r)) rs = Ok vs)
  \/ result_map (fun r => key (field r)) rs = Raise KeyError.
Proof.
  induction rs as [| r rest IH]; simpl; [left; eauto |].
  destruct (field r) as [v |]; simpl; [| right; reflexivity].
  destruct IH as [(vs & ->) | ->]; simpl; [left; eauto | right; reflexivity].
Qed.

(** X2.  [_generate_summary] reads the difference keys of every successful
    result that carries a market price: when one of them lacks
    [price_difference] or [price_difference_pct], it raises [KeyError]
    instead of returning a summary. *)
Theorem summary_raises_on_missing_difference results spot_price r :
  In r results ->
  Res.calculation_success r = true ->
  has_market_price r = true ->
  Res.price_difference r = None \/ Res.price_difference_pct r = None ->
  _generate_summary results spot_price = Raise KeyError.
Proof.
  intros Hin Hsuccess Hmarket Hmissing.
  assert (Hmis : In r (List.filter has_market_price
                         (List.filter Res.calculation_success results))).
  { apply List.filter_In. split; [| exact Hmarket].
    apply List.filter_In. auto. }
  unfold _generate_summary.
  rewrite (successful_not_nil results) by eauto.
  destruct (List.filter has_market_price _) as [| m rest] eqn:Hfilter; [destruct Hmis |].
  simpl is_nil. cbv iota.
  destruct (result_map_key_cases Res.price_difference_pct (m :: rest))
    as [(pcts & Hpcts) | Hpcts]; rewrite Hpcts; [| reflexivity].
  unfold py_truediv. rewrite len_positive. simpl.
  unfold count_differences.
  destruct Hmissing as [Hdifference | Hpct].
  - rewrite (result_map_key_missing Res.price_difference (m :: rest) r Hmis Hdifference).
    reflexivity.
  - rewrite (result_map_key_missing Res.price_difference_pct (m :: rest) r Hmis Hpct)
      in Hpcts.
    discriminate.
Qed.

(** ** The option-chain parser, whole files *)

Lemma py_or_nonzero iv : is_zero (py_or iv (Float 0.20)) = false.
Proof.
  unfold py_or. destruct iv as [n |]; [| reflexivity].
  destruct (is_zero n) eqn:Hn; [reflexivity | exact Hn].
Qed.

Lemma row_options_length filepath row : (length (row_options filepath row) <= 2)%nat.
Proof.
  unfold row_options. destruct (len row <? 23); [simpl; lia |].
  destruct (row_strike row) as [strike |]; [| simpl; lia].
  rewrite length_app, !traded_length.
  destruct (positive _), (positive _); simpl; lia.
Qed.

Lemma flat_map_length_le {A B} (f : A -> list B) (n : nat) (xs : list A) :
  (forall x, length (f x) <= n)%nat ->
  (length (flat_map f xs) <= n * length xs)%nat.
Proof.
  intros Hf. induction xs as [| x rest IH]; simpl; [lia |].
  rewrite length_app. specialize (Hf x). lia.
Qed.

(** X3.  Every option the option-chain parser returns is a NIFTY option with
    a market price that is present and positive, an implied volatility that
    is not zero, the expiry estimated from the file name (one value for the
    whole file, at least one day), and neither a position nor a spot price of
    its own; and a file of [n] rows yields at most [2 * n] options. *)
Theorem chain_options_invariant filepath headers rows options :
  parse_option_chain_csv filepath (headers :: rows) = Ok options ->
  (length options <= 2 * length rows)%nat
  /\ 1 <= _estimate_expiry_days filepath
  /\ forall o, In o options ->
       Opt.symbol o = Some "NIFTY"
       /\ (exists p, Opt.market_price o = Some p /\ py_gt p (Int 0) = true)
       /\ is_zero (Opt.implied_volatility o) = false
       /\ Opt.expiry_days o = Int (_estimate_expiry_days filepath)
       /\ Opt.position o = None
       /\ Opt.spot_price o = None.
Proof.
  rewrite parse_option_chain_csv_run. intros [= <-].
  split; [apply flat_map_length_le, row_options_length |].
  split; [apply _estimate_expiry_days_at_least_one |].
  intros o Hin. apply in_flat_map in Hin as (row & _ & Hin).
  unfold row_options in Hin. destruct (len row <? 23); [destruct Hin |].
  destruct (row_strike row) as [strike |]; [| destruct Hin].
  assert (Htraded : exists option_type ltp iv,
             In o (traded filepath strike option_type ltp iv)).
  { apply in_app_iff in Hin as [Hin | Hin]; eauto. }
  destruct Htraded as (option_type & ltp & iv & Htraded).
  unfold traded in Htraded. destruct ltp as [p |]; [| destruct Htraded].
  destruct (py_gt p (Int 0)) eqn:Hpositive; [| destruct Htraded].
  destruct Htraded as [<- | []]. simpl.
  split; [reflexivity |]. split; [eauto |].
  split; [apply py_or_nonzero |]. auto.
Qed.

(** X4.  The option-chain parser raises only through the reading of the
    file, which lines 54-58 do outside the [try]: an exception of [open], of
    the decoder or of [csv.reader] leaves the function at whatever row it
    arises (the options parsed before it are lost), and a file with no line
    at all raises [StopIteration] at [next(reader)].  No row that was read
    makes it raise: a file read to its end, and not empty, gives the options
    of its rows.  Its first line is skipped as the header whatever it holds,
    so the outcome does not depend on it, and a file of one line yields no
    option. *)
Theorem chain_parser_raises_only_from_reading filepath file :
  (forall e, failure file = Some e ->
     parse_option_chain_file filepath file = ReadFailed e)
  /\ (file = EndOfFile ->
      parse_option_chain_file filepath file = RaisedExn StopIteration)
  /\ (failure file = None -> file <> EndOfFile ->
      exists options,
        parse_option_chain_file filepath file = Returned options
        /\ parse_option_chain_csv filepath (yielded file) = Ok options)
  /\ (forall headers headers' rest,
        parse_option_chain_file filepath (Yield headers rest)
        = parse_option_chain_file filepath (Yield headers' rest))
  /\ (forall line, parse_option_chain_file filepath (Yield line EndOfFile) = Returned []).
Proof.
  split; [| split; [| split; [| split]]].
  - intros e Hfail. destruct file as [| headers rest | e']; [discriminate | |].
    + unfold parse_option_chain_file. cbn [yielded].
      rewrite parse_option_chain_csv_run. cbn [failure] in Hfail |- *.
      rewrite Hfail. reflexivity.
    + injection Hfail as ->. reflexivity.
  - intros ->. reflexivity.
  - intros Hfail Hlines. destruct file as [| headers rest | e'];
      [destruct (Hlines eq_refl) | | discriminate].
    unfold parse_option_chain_file. cbn [yielded].
    rewrite parse_option_chain_csv_run. cbn [failure] in Hfail |- *.
    rewrite Hfail. eauto.
  - intros headers headers' rest. unfold parse_option_chain_file. cbn [yielded].
    rewrite !parse_option_chain_csv_run. reflexivity.
  - intros line. unfold parse_option_chain_file. cbn [yielded].
    rewrite parse_option_chain_csv_run. reflexivity.
Qed.

(** ** Cells of an option chain *)

Lemma remove_char_idempotent c s : remove_char c (remove_char c s) = remove_char c s.
Proof.
  induction s as [| d rest IH]; simpl; [reflexivity |].
  destruct (Ascii.eqb c d) eqn:Hcd; [exact IH |].
  simpl. rewrite Hcd, IH. reflexivity.
Qed.

Lemma remove_char_commute c d s :
  remove_char c (remove_char d s) = remove_char d (remove_char c s).
Proof.
  induction s as [| e rest IH]; simpl; [reflexivity |].
  destruct (Ascii.eqb d e) eqn:Hde, (Ascii.eqb c e) eqn:Hce; simpl;
    rewrite ?Hde, ?Hce, IH; reflexivity.
Qed.

Lemma is_empty_eq s : is_empty s = true -> s = "".
Proof. destruct s; [reflexivity | discriminate]. Qed.

Lemma guard_cases s :
  (is_empty s || String.eqb s "-")%bool = true -> s = "" \/ s = "-".
Proof.
  intros H. apply orb_true_iff in H as [H | H].
  - left. exact (is_empty_eq s H).
  - right. apply String.eqb_eq. exact H.
Qed.

(** X5.  Thousands separators do not change a price: [_parse_price] gives
    the same value for a cell and for the cell with its commas removed; and a
    percentage is the price reading of the cell without its per cent signs,
    divided by 100.  (The interpreter's [float] rejects a lone ['-'].) *)
Theorem price_cells_ignore_separators :
  py_float "-" = None ->
  (forall s, _parse_price (remove_char "," s) = _parse_price s)
  /\ (forall s,
        _parse_percentage s
        = match _parse_price (remove_char "%" s) with
          | Some v => Some (Float (to_float v / 100))
          | None => None
          end).
Proof.
  intros Hdash. split.
  - intros s. unfold _parse_price at 2.
    destruct (is_empty s || String.eqb s "-")%bool eqn:Hguard.
    { apply guard_cases in Hguard as [-> | ->]; reflexivity. }
    unfold _parse_price. rewrite remove_char_idempotent.
    destruct (is_empty (remove_char "," s) || String.eqb (remove_char "," s) "-")%bool
      eqn:Hguard'; [| reflexivity].
    apply guard_cases in Hguard' as [-> | ->]; simpl; [reflexivity |].
    change (strip "-") with "-". rewrite Hdash. reflexivity.
  - intros s. unfold _parse_percentage.
    destruct (is_empty s || String.eqb s "-")%bool eqn:Hguard.
    { apply guard_cases in Hguard as [-> | ->]; reflexivity. }
    unfold _parse_price.
    destruct (is_empty (remove_char "%" s) || String.eqb (remove_char "%" s) "-")%bool
      eqn:Hguard'.
    + apply guard_cases in Hguard' as [-> | ->]; simpl; [reflexivity |].
      change (strip "-") with "-". rewrite Hdash. reflexivity.
    + cbv zeta. destruct (is_empty (strip _)); [reflexivity |].
      destruct (py_float (strip _)); reflexivity.
Qed.

(** ** The portfolio parser, whole files *)

Lemma portfolio_rows_app before after options :
  portfolio_rows (before ++ after) options
  = match portfolio_rows before options with
    | (Ok _, options') => portfolio_rows after options'
    | (Raise e, options') => (Raise e, options')
    end.
Proof.
  revert options. induction before as [| row rest IH]; intros options; simpl.
  - reflexivity.
  - unfold parser_try. run_monad.
    destruct (portfolio_option row) as [o | e]; [apply IH |].
    destruct (caught_by_portfolio e); [apply IH | reflexivity].
Qed.

Lemma portfolio_rows_skip row rest options e :
  portfolio_option row = Raise e -> caught_by_portfolio e = true ->
  portfolio_rows (row :: rest) options = portfolio_rows rest options.
Proof.
  intros Hrow Hcaught. simpl. unfold parser_try. run_monad.
  rewrite Hrow, Hcaught. reflexivity.
Qed.

Lemma portfolio_rows_abort row rest options e :
  portfolio_option row = Raise e -> caught_by_portfolio e = false ->
  portfolio_rows (row :: rest) options = (Raise e, options).
Proof.
  intros Hrow Hcaught. simpl. unfold parser_try. run_monad.
  rewrite Hrow, Hcaught. reflexivity.
Qed.

(** X6.  A portfolio row that raises [ValueError] (a numeric cell [float]
    rejects) or [KeyError] (a column the header lacks) is skipped: the parser
    returns what it returns for the file without that row.  In particular a
    row whose [strike] cell is not a number, with the cells before it in
    order, is such a row. *)
Theorem portfolio_row_skipped before row after :
  (forall e, portfolio_option row = Raise e -> caught_by_portfolio e = true ->
     parse_portfolio_csv (before ++ row :: after) = parse_portfolio_csv (before ++ after))
  /\ (forall symbol position spot strike p s,
        row !! "symbol" = Some symbol ->
        row !! "position" = Some (Some position) -> py_float position = Some p ->
        row !! "spot" = Some (Some spot) -> py_float spot = Some s ->
        row !! "strike" = Some (Some strike) -> py_float strike = None ->
        portfolio_option row = Raise ValueError)
  /\ (row !! "symbol" = None -> portfolio_option row = Raise KeyError).
Proof.
  split; [| split].
  - intros e Hrow Hcaught. unfold parse_portfolio_csv, run_parser.
    rewrite !portfolio_rows_app.
    destruct (portfolio_rows before []) as [[[] | e'] options]; [| reflexivity].
    rewrite (portfolio_rows_skip row after options e Hrow Hcaught). reflexivity.
  - intros symbol position spot strike p s Hsymbol Hposition Hp Hspot Hs Hstrike Hnone.
    unfold portfolio_option, cell, float_cell, float_of. run_monad.
    rewrite Hsymbol, Hposition, Hp, Hspot, Hs, Hstrike, Hnone. reflexivity.
  - intros Hsymbol. unfold portfolio_option, cell. run_monad.
    rewrite Hsymbol. reflexivity.
Qed.

(** X7.  A portfolio row shorter than the header, whose missing numeric
    cells [csv.DictReader] fills with [None], is not skipped: [float(None)]
    raises [TypeError], which the parser does not catch, so the whole parse
    raises and the options of the rows before it are lost.  The same holds
    for any exception other than [ValueError] and [KeyError]. *)
Theorem portfolio_short_row_aborts before row after earlier :
  parse_portfolio_csv before = Ok earlier ->
  (forall e, portfolio_option row = Raise e -> caught_by_portfolio e = false ->
     parse_portfolio_csv (before ++ row :: after) = Raise e)
  /\ (forall symbol,
        row !! "symbol" = Some symbol -> row !! "position" = Some None ->
        parse_portfolio_csv (before ++ row :: after) = Raise TypeError).
Proof.
  intros Hbefore.
  assert (Habort : forall e, portfolio_option row = Raise e ->
                     caught_by_portfolio e = false ->
                     parse_portfolio_csv (before ++ row :: after) = Raise e).
  { intros e Hrow Hcaught. unfold parse_portfolio_csv, run_parser in *.
    rewrite portfolio_rows_app.
    destruct (portfolio_rows before []) as [[[] | e'] options]; [| discriminate].
    rewrite (portfolio_rows_abort row after options e Hrow Hcaught). reflexivity. }
  split; [exact Habort |].
  intros symbol Hsymbol Hposition. apply Habort; [| reflexivity].
  unfold portfolio_option, cell, float_cell. run_monad.
  rewrite Hsymbol, Hposition. reflexivity.
Qed.

Lemma cell_ok row column v : cell row column = Ok v -> row !! column = Some v.
Proof. unfold cell. destruct (row !! column); [intros [= ->]; reflexivity | discriminate]. Qed.

Lemma float_cell_ok v n :
  float_cell v = Ok n -> exists text f, v = Some text /\ py_float text = Some f /\ n = Float f.
Proof.
  unfold float_cell, float_of. destruct v as [text |]; [| discriminate].
  destruct (py_float text) as [f |] eqn:Hf; [| discriminate].
  intros [= <-]. eauto.
Qed.

Ltac step_number H column :=
  let v := fresh "v" in
  let n := fresh "n" in
  let Hcell := fresh "Hcell" in
  let Hfloat := fresh "Hfloat" in
  destruct (cell _ column) as [v |] eqn:Hcell; [| discriminate H];
  apply cell_ok in Hcell;
  cbn [mbind result_bind] in H;
  destruct (float_cell v) as [n |] eqn:Hfloat; [| discriminate H];
  apply float_cell_ok in Hfloat as (? & ? & -> & ? & ->);
  cbn [mbind result_bind] in H.

(** X8.  An option the portfolio parser builds from a row carries the row's
    cells: the symbol as written, position, spot, strike and volatility as
    [float] reads them (a volatility of zero stays zero, the parser has no
    default), the option type lower-cased, [expiry_days] equal to the
    [expiry] cell, in years, times 365, and no market price. *)
Theorem portfolio_option_of_row row o :
  portfolio_option row = Ok o ->
  exists position spot strike expiry volatility option_type p s k e v,
    row !! "position" = Some (Some position) /\ py_float position = Some p
    /\ row !! "spot" = Some (Some spot) /\ py_float spot = Some s
    /\ row !! "strike" = Some (Some strike) /\ py_float strike = Some k
    /\ row !! "expiry" = Some (Some expiry) /\ py_float expiry = Some e
    /\ row !! "volatility" = Some (Some volatility) /\ py_float volatility = Some v
    /\ row !! "option_type" = Some (Some option_type)
    /\ row !! "symbol" = Some (Opt.symbol o)
    /\ Opt.position o = Some (Float p)
    /\ Opt.spot_price o = Some (Float s)
    /\ Opt.strike o = Float k
    /\ Opt.expiry_days o = Float (e * 365)
    /\ Opt.implied_volatility o = Float v
    /\ Opt.option_type o = lower option_type
    /\ Opt.market_price o = None.
Proof.
  unfold portfolio_option. intros H.
  destruct (cell row "symbol") as [symbol |] eqn:Hsymbol; [| discriminate H].
  apply cell_ok in Hsymbol. cbn [mbind result_bind] in H.
  step_number H "position". step_number H "spot". step_number H "strike".
  step_number H "expiry". step_number H "volatility".
  destruct (cell row "option_type") as [t |] eqn:Htype; [| discriminate H].
  apply cell_ok in Htype. cbn [mbind result_bind] in H.
  unfold lower_cell in H. destruct t as [option_type |]; [| discriminate H].
  cbn [mbind result_bind mret result_ret] in H. injection H as <-.
  do 11 eexists. repeat (split; [eassumption |]). simpl.
  repeat (split; [reflexivity |]). reflexivity.
Qed.

(** ** Expiry from the file name *)

(** X9.  The expiry estimate is at least one day.  It is 30 days when the
    file name holds no date or holds a day that does not exist; for a date
    that exists it is the number of days from today to that date, and 1 when
    the date is today or has passed.  Three letters that are not one of the
    twelve month abbreviations do not make the date invalid: they are read as
    August. *)
Theorem expiry_estimate_cases filepath :
  1 <= _estimate_expiry_days filepath
  /\ (date_match filepath = None -> _estimate_expiry_days filepath = 30)
  /\ (forall day month_str year y d,
        date_match filepath = Some (day, month_str, year) ->
        int year = Some y -> int day = Some d ->
        let month := default 8 (month_map !! month_str) in
        (month_map !! month_str = None -> month = 8)
        /\ (date y month d = None -> _estimate_expiry_days filepath = 30)
        /\ (forall expiry_date, date y month d = Some expiry_date ->
              (today < expiry_date ->
               _estimate_expiry_days filepath = expiry_date - today)
              /\ (expiry_date <= today -> _estimate_expiry_days filepath = 1))).
Proof.
  split; [apply _estimate_expiry_days_at_least_one |].
  unfold _estimate_expiry_days. split; [intros ->; reflexivity |].
  intros day month_str year y d -> Hyear Hday. simpl. rewrite Hyear, Hday. simpl.
  split; [intros ->; reflexivity |]. split; [intros ->; reflexivity |].
  intros expiry_date ->. split; intros; lia.
Qed.

(** ** [analyze_csv], stage by stage *)

Lemma analyze_csv_stages file output_format spot_price risk_free_rate :
  analyze_csv file output_format spot_price risk_free_rate
  = ('(options, format_type) ← detect_and_parse file;
     match options with
     | [] => mret (ReportError "No valid options found in CSV file")
     | first :: _ =>
         spot ← resolve_spot spot_price format_type first options;
         results ← results_of options spot risk_free_rate;
         summary ← _generate_summary results spot;
         mret (Report
           {| Meta.filename := name file;
              Meta.format_type := format_type;
              Meta.total_options := len results;
              Meta.spot_price := spot;
              Meta.risk_free_rate := risk_free_rate;
              Meta.analysis_time := now |}
           results summary)
     end).
Proof.
  unfold analyze_csv, detect_and_parse.
  destruct (contains _ _).
  - destruct (parse_portfolio_csv _) as [[| first rest] | e]; reflexivity.
  - destruct (parse_option_chain_csv _ _) as [[| first rest] | e]; reflexivity.
Qed.

Lemma results_of_options options spot_price risk_free_rate results :
  results_of options spot_price risk_free_rate = Ok results ->
  Forall2 (result_of_option spot_price) options results.
Proof.
  unfold results_of. revert results.
  induction options as [| o rest IH]; simpl; intros results.
  - intros [= <-]. constructor.
  - destruct (calculate_option_price o spot_price risk_free_rate) as [c | e];
      [| discriminate]. simpl.
    rewrite make_result_run. simpl.
    destruct (result_map _ rest) as [rs | e]; [| discriminate]. simpl.
    intros [= <-]. constructor; [| exact (IH rs eq_refl)].
    unfold result_of_option. destruct (Opt.market_price o) eqn:Hm; simpl;
      rewrite ?Hm; repeat split; reflexivity.
Qed.

Lemma estimate_spot_price_total options : exists s, estimate_spot_price options = Ok s.
Proof.
  unfold estimate_spot_price. destruct (is_nil options); [eauto |].
  destruct (_ || _)%bool; [eauto |].
  destruct (List.map Opt.strike options) as [| k ks] eqn:Hks; [eauto |].
  cbn [is_nil]. unfold py_truediv. rewrite len_positive. eauto.
Qed.

Lemma resolve_spot_total spot_price format_type first options :
  exists s, resolve_spot spot_price format_type first options = Ok s.
Proof.
  unfold resolve_spot. destruct spot_price as [given |]; [eauto |].
  destruct (String.eqb _ _); [eauto | apply estimate_spot_price_total].
Qed.

Lemma _generate_summary_total results spot_price :
  Forall (fun r => differences_present r = true) results ->
  exists s, _generate_summary results spot_price = Ok s.
Proof.
  intros Hpresent.
  destruct (List.filter Res.calculation_success results) as [| r rest] eqn:Hok.
  - unfold _generate_summary. rewrite Hok. eauto.
  - assert (Hr : In r (List.filter Res.calculation_success results))
      by (rewrite Hok; left; reflexivity).
    apply List.filter_In in Hr as [Hin Hsuccess].
    destruct (_generate_summary_produced results spot_price Hpresent)
      as (pm & ma & rm & Hrun & _); eauto.
Qed.

Lemma results_share_spot spot options results :
  Forall2 (result_of_option spot) options results ->
  Forall (fun r => Res.spot_price r = spot) results.
Proof.
  induction 1 as [| o r os rs Hr _ IH]; constructor; [| exact IH].
  destruct Hr as (_ & _ & _ & _ & _ & _ & _ & Hr). exact Hr.
Qed.

(** X10.  A report of [analyze_csv] lists one result per parsed option, in
    the order the parser returned them: each result copies symbol, option
    type, strike, expiry, implied volatility and market price from its
    option, takes position 1 when the option has none, and all results carry
    the one spot price of the report; [total_options] is their number, and
    the summary is that of these results at that spot.  The error report is
    returned exactly when the parser found no option. *)
Theorem report_lists_parsed_options file output_format spot_price risk_free_rate rep :
  analyze_csv file output_format spot_price risk_free_rate = Ok rep ->
  exists options format_type,
    detect_and_parse file = Ok (options, format_type)
    /\ match rep with
       | ReportError error =>
           options = [] /\ error = "No valid options found in CSV file"
       | Report meta results summary =>
           options <> []
           /\ Forall2 (result_of_option (Meta.spot_price meta)) options results
           /\ Meta.total_options meta = len options
           /\ Meta.format_type meta = format_type
           /\ Meta.filename meta = name file
           /\ Meta.risk_free_rate meta = risk_free_rate
           /\ _generate_summary results (Meta.spot_price meta) = Ok summary
       end.
Proof.
  rewrite analyze_csv_stages.
  destruct (detect_and_parse file) as [[options format_type] | e]; simpl; [| discriminate].
  intros H. exists options, format_type. split; [reflexivity |].
  destruct options as [| first rest]; [injection H as <-; auto |].
  destruct (resolve_spot _ _ _ _) as [spot | e]; simpl in H; [| discriminate H].
  destruct (results_of _ _ _) as [results | e] eqn:Hresults; simpl in H;
    [| discriminate H].
  destruct (_generate_summary _ _) as [summary | e] eqn:Hsummary; simpl in H;
    [| discriminate H].
  injection H as <-. simpl.
  pose proof (results_of_options _ _ _ _ Hresults) as Hcopy.
  split; [discriminate |]. split; [exact Hcopy |].
  split; [unfold len; apply Forall2_length in Hcopy; rewrite Hcopy; reflexivity |].
  auto.
Qed.

(** X11.  The spot of a report: an explicit spot always wins; without one, a
    portfolio file is priced at the spot of its first parsed row (the spots
    of the other rows are not used), and an option chain at the estimate of
    [estimate_spot_price]. *)
Theorem report_spot_price file output_format spot_price risk_free_rate
    meta results summary :
  analyze_csv file output_format spot_price risk_free_rate
  = Ok (Report meta results summary) ->
  (forall given, spot_price = Some given ->
     Meta.spot_price meta = given
     /\ Forall (fun r => Res.spot_price r = given) results)
  /\ (spot_price = None ->
      exists first rest format_type,
        detect_and_parse file = Ok (first :: rest, format_type)
        /\ (format_type = "portfolio" ->
            Meta.spot_price meta = default (Float 23000) (Opt.spot_price first)
            /\ Forall (fun r => Res.spot_price r
                                = default (Float 23000) (Opt.spot_price first)) results)
        /\ (format_type = "option_chain" ->
            estimate_spot_price (first :: rest) = Ok (Meta.spot_price meta))).
Proof.
  rewrite analyze_csv_stages.
  destruct (detect_and_parse file) as [[options format_type] | e] eqn:Hparse; simpl;
    [| discriminate].
  destruct options as [| first rest]; [discriminate |].
  destruct (resolve_spot _ _ _ _) as [spot | e] eqn:Hspot; simpl; [| discriminate].
  destruct (results_of _ _ _) as [results' | e] eqn:Hresults; simpl; [| discriminate].
  destruct (_generate_summary _ _) as [summary' | e]; simpl; [| discriminate].
  intros [= <- <- <-]. simpl.
  pose proof (results_share_spot _ _ _ (results_of_options _ _ _ _ Hresults)) as Hall.
  split.
  - intros given ->. simpl in Hspot. injection Hspot as <-. auto.
  - intros ->. exists first, rest, format_type. split; [reflexivity |].
    unfold resolve_spot in Hspot. split.
    + intros ->. simpl in Hspot. injection Hspot as <-. auto.
    + intros ->. simpl in Hspot. exact Hspot.
Qed.

Lemma results_of_raise options spot_price risk_free_rate e :
  results_of options spot_price risk_free_rate = Raise e ->
  exists o, In o options /\ calculate_option_price o spot_price risk_free_rate = Raise e.
Proof.
  unfold results_of. induction options as [| o os IH]; simpl; [discriminate |].
  destruct (calculate_option_price o spot_price risk_free_rate) as [c | e'] eqn:Hc; simpl.
  - rewrite make_result_run. simpl.
    destruct (result_map _ os) as [rs | e'] eqn:Hrest; simpl; [discriminate |].
    intros [= ->]. destruct (IH eq_refl) as (o' & Hin & Hraise). eauto.
  - intros [= ->]. eauto.
Qed.

Lemma analyze_csv_parse_raises file output_format spot_price risk_free_rate e :
  detect_and_parse file = Raise e ->
  analyze_csv file output_format spot_price risk_free_rate = Raise e.
Proof. intros Hparse. rewrite analyze_csv_stages, Hparse. reflexivity. Qed.

Lemma analyze_csv_returns file output_format spot_price risk_free_rate options format_type :
  detect_and_parse file = Ok (options, format_type) ->
  (forall o spot, In o options ->
     raises (calculate_option_price o spot risk_free_rate) = false) ->
  exists rep, analyze_csv file output_format spot_price risk_free_rate = Ok rep.
Proof.
  intros Hparse Hclient. rewrite analyze_csv_stages, Hparse. simpl.
  destruct options as [| first rest]; [eauto |].
  destruct (resolve_spot_total spot_price format_type first (first :: rest))
    as (spot & ->). simpl.
  destruct (results_of_total (first :: rest) spot risk_free_rate) as (results & Hresults).
  { intros o Ho. exact (Hclient o spot Ho). }
  rewrite Hresults. simpl.
  destruct (results_of_run _ _ _ _ Hresults) as (_ & Hpresent & _).
  destruct (_generate_summary_total results spot Hpresent) as (summary & ->).
  simpl. eauto.
Qed.

Lemma analyze_csv_raise_source
    file output_format spot_price risk_free_rate options format_type e :
  detect_and_parse file = Ok (options, format_type) ->
  analyze_csv file output_format spot_price risk_free_rate = Raise e ->
  exists o spot, In o options /\ calculate_option_price o spot risk_free_rate = Raise e.
Proof.
  intros Hparse. rewrite analyze_csv_stages, Hparse. simpl.
  destruct options as [| first rest]; [discriminate |].
  destruct (resolve_spot_total spot_price format_type first (first :: rest))
    as (spot & ->). simpl.
  destruct (results_of (first :: rest) spot risk_free_rate) as [results | e']
    eqn:Hresults; simpl.
  - destruct (results_of_run _ _ _ _ Hresults) as (_ & Hpresent & _).
    destruct (_generate_summary_total results spot Hpresent) as (summary & ->).
    discriminate.
  - intros [= <-]. destruct (results_of_raise _ _ _ _ Hresults) as (o & Hin & Hraise).
    eauto.
Qed.


End Analyzer.

(** * The theorems at sample inputs *)

(** Two binary64 constants with different representations are different. *)
Ltac floats_differ :=
  let H := fresh "H" in
  intros H; apply (f_equal (fun n => Prim2SF (to_float n))) in H; vm_compute in H;
  discriminate H.

(** C2, counterexample.  Three calls with strikes 90, 100 and 110: a
    non-empty sequence whose mean strike is 100, and the estimate is the
    fallback 23000.0. *)
Lemma spot_estimate_of_calls_only :
  List.map Opt.strike calls_only = [Float 90; Float 100; Float 110]
  /\ py_truediv (py_sum (List.map Opt.strike calls_only))
       (Int (len (List.map Opt.strike calls_only))) = Ok (Float 100)
  /\ estimate_spot_price calls_only = Ok (Float 23000)
  /\ Float 23000 <> Float 100.
Proof.
  split; [reflexivity |]. split; [vm_compute; reflexivity |].
  split; [vm_compute; reflexivity |]. floats_differ.
Qed.

(** C2 as amended, at a call at 90, a put at 100 and a call at 110. *)
Lemma spot_estimate_witness :
  (exists c, In c calls_and_put /\ Opt.option_type c = "call")
  /\ (exists p, In p calls_and_put /\ Opt.option_type p = "put")
  /\ List.map Opt.strike calls_and_put = [Float 90; Float 100; Float 110]
  /\ estimate_spot_price calls_and_put = Ok (Float 100).
Proof.
  assert (Hcall : exists c, In c calls_and_put /\ Opt.option_type c = "call").
  { exists (sample_option "call" 90 None). split; [left; reflexivity | reflexivity]. }
  assert (Hput : exists p, In p calls_and_put /\ Opt.option_type p = "put").
  { exists (sample_option "put" 100 None).
    split; [right; left; reflexivity | reflexivity]. }
  split; [exact Hcall |]. split; [exact Hput |]. split; [reflexivity |].
  rewrite (proj1 (proj2 spot_estimate_mean_or_fallback) calls_and_put Hcall Hput).
  vm_compute. reflexivity.
Defined.

(** The option-chain parser on a file named for 14 August 2025, read on
    31 July 2025 with the decimal reading of [float]. *)
Local Abbreviation parse_chain :=
  (parse_option_chain_csv decimal_float august_14 july_31
     "input/option-chain-ED-NIFTY-14-Aug-2025.csv").

(** C1 at a successful result (delta 0.5, position 2, theta -5) and a failed
    one of position 10. *)
Lemma summary_totals_exclude_failed_witness :
  Forall (fun r => differences_present r = true) [good_result; failed_result]
  /\ Res.calculation_success good_result = true
  /\ Res.calculation_success failed_result = false
  /\ Res.position failed_result = Float 10
  /\ (exists pm ma rm,
        _generate_summary [good_result; failed_result] (Float 100) = Ok (Summary pm ma rm)
        /\ net_delta pm = Float 1 /\ net_theta pm = Float (-10)
        /\ total_value pm = Float 8)
  /\ (exists pm ma rm,
        _generate_summary [good_result; failed_result] (Float 100) = Ok (Summary pm ma rm)
        /\ _generate_summary [failed_result; good_result] (Float 100)
           = Ok (Summary pm ma rm)
        /\ net_delta pm = Float 1).
Proof.
  assert (Hpresent : Forall (fun r => differences_present r = true)
                       [good_result; failed_result])
    by (repeat constructor).
  split; [exact Hpresent |].
  split; [reflexivity |]. split; [reflexivity |]. split; [reflexivity |]. split.
  - destruct (proj1 (proj2 summary_totals_exclude_failed)
                [good_result; failed_result] (Float 100) Hpresent)
      as (pm & ma & rm & Hrun).
    { exists good_result. split; [left; reflexivity | reflexivity]. }
    destruct (proj1 summary_totals_exclude_failed _ _ pm ma rm Hrun)
      as (Hvalue & Hdelta & _ & _ & Htheta).
    exists pm, ma, rm. split; [exact Hrun |].
    rewrite Hvalue, Hdelta, Htheta. repeat split; vm_compute; reflexivity.
  - apply (proj2 (proj2 (proj2 summary_totals_exclude_failed)) good_result failed_result
             (Float 100)); try reflexivity.
    left. reflexivity.
Defined.

(** The three sample rows of an option chain yield none, one and two
    options. *)
Example chain_rows_yield_none_one_two :
  exists c1 c2 p2,
    parse_chain [chain_header; untraded; call_only; both_traded] = Ok [c1; c2; p2]
    /\ List.map Opt.option_type [c1; c2; p2] = ["call"; "call"; "put"]
    /\ List.map Opt.market_price [c1; c2; p2]
       = [Some (Float 150.25); Some (Float 150.25); Some (Float 80)]
    /\ List.map Opt.implied_volatility [c1; c2; p2]
       = [Float 0.125; Float 0.125; Float 0.20]
    /\ List.map Opt.expiry_days [c1; c2; p2] = [Int 14; Int 14; Int 14].
Proof.
  do 3 eexists. split; [vm_compute; reflexivity |]. repeat split.
Qed.

(** C3, counterexample.  A market price of 5 against a theoretical price of
    0: both difference keys are present, [price_difference] 5 and
    [price_difference_pct] 0. *)
Lemma price_differences_at_zero_theoretical_price :
  exists r,
    make_result (sample_option "call" 100 (Some (Float 5))) (Float 100)
      (sample_calculation 0) = Ok r
    /\ Res.market_price r = Some (Float 5)
    /\ is_zero (Res.theoretical_price r) = true
    /\ Res.price_difference r = Some (Float 5)
    /\ Res.price_difference_pct r = Some (Int 0).
Proof.
  eexists. split; [vm_compute; reflexivity |].
  repeat split; vm_compute; reflexivity.
Qed.

(** C3 as amended, at a market price of 12 against a theoretical price of
    8. *)
Lemma price_differences_of_result_witness :
  exists r,
    make_result (sample_option "call" 100 (Some (Float 12))) (Float 100)
      (sample_calculation 8) = Ok r
    /\ Res.price_difference r = Some (Float 4)
    /\ Res.price_difference_pct r = Some (Float 50).
Proof.
  destruct (price_differences_of_result (sample_option "call" 100 (Some (Float 12)))
              (Float 100) (sample_calculation 8))
    as (r & Hrun & Hmarket & Htheoretical & _ & Hpriced).
  exists r. split; [exact Hrun |].
  destruct (Hpriced (Float 12) Hmarket) as (Hdifference & Hpositive & _).
  rewrite Htheoretical in Hdifference, Hpositive. simpl in Hdifference, Hpositive.
  split; [exact Hdifference |].
  destruct (Hpositive eq_refl) as (q & Hq & Hpct).
  rewrite Hpct. vm_compute in Hq. inversion Hq. vm_compute. reflexivity.
Defined.

(** C4 at a row with strike 23,000.00, call LTP 150.25 and put LTP 80. *)
Lemma chain_row_emits_call_and_put_witness :
  23 <= len both_traded
  /\ row_strike decimal_float both_traded = Some (Float 23000)
  /\ exists c p,
       parse_chain [chain_header; both_traded] = Ok [c; p]
       /\ Opt.option_type c = "call" /\ Opt.option_type p = "put"
       /\ Opt.strike c = Float 23000 /\ Opt.strike p = Float 23000.
Proof.
  assert (Hlen : 23 <= len both_traded) by (vm_compute; intros H; discriminate H).
  assert (Hstrike : row_strike decimal_float both_traded = Some (Float 23000))
    by (vm_compute; reflexivity).
  split; [exact Hlen |]. split; [exact Hstrike |].
  destruct (chain_row_emits_call_and_put decimal_float august_14 july_31
              "input/option-chain-ED-NIFTY-14-Aug-2025.csv" chain_header both_traded
              (Float 23000) Hlen Hstrike)
    as (emitted & Hparse & _ & _ & _ & _ & _ & _ & Hboth).
  destruct Hboth as (c & p & Hemitted & Htypes); [vm_compute; reflexivity .. |].
  exists c, p. rewrite <- Hemitted. split; [exact Hparse | exact Htypes].
Defined.

(** C5 at a row of 22 columns and at a row whose strike reads [-], alone and
    between two rows that yield three options. *)
Lemma chain_row_skipped_witness :
  len short_line < 23
  /\ strike_text dash_strike = "-"
  /\ parse_chain [chain_header; short_line] = Ok []
  /\ parse_chain [chain_header; dash_strike] = Ok []
  /\ exists options,
       parse_chain [chain_header; call_only; dash_strike; both_traded] = Ok options
       /\ parse_chain [chain_header; call_only; both_traded] = Ok options
       /\ length options = 3%nat.
Proof.
  assert (Hshort : len short_line < 23) by reflexivity.
  assert (Hdash : strike_text dash_strike = "-") by reflexivity.
  split; [exact Hshort |]. split; [exact Hdash |].
  pose proof (chain_row_skipped decimal_float august_14 july_31
                "input/option-chain-ED-NIFTY-14-Aug-2025.csv" chain_header
                [] short_line [] (or_introl Hshort)) as [Hnone _].
  pose proof (chain_row_skipped decimal_float august_14 july_31
                "input/option-chain-ED-NIFTY-14-Aug-2025.csv" chain_header
                [call_only] dash_strike [both_traded]
                (or_intror (or_intror (or_introl Hdash))))
    as [Hnone' (options & Hwith & Hwithout)].
  split; [exact Hnone |]. split; [exact Hnone' |].
  exists options. split; [exact Hwith |]. split; [exact Hwithout |].
  simpl in Hwithout. vm_compute in Hwithout. inversion Hwithout. reflexivity.
Defined.

(** C6, counterexample.  The call's IV column reads 0: the source supplies
    an implied volatility, it parses to 0.0, and the emitted call carries the
    default 0.20 instead. *)
Lemma zero_implied_volatility_defaults :
  column zero_iv 4 = "0"
  /\ call_iv decimal_float zero_iv = Some (Float 0)
  /\ exists o,
       parse_chain [chain_header; zero_iv] = Ok [o]
       /\ Opt.option_type o = "call"
       /\ Opt.implied_volatility o = Float 0.20
       /\ Opt.implied_volatility o <> Float 0.
Proof.
  split; [reflexivity |]. split; [vm_compute; reflexivity |].
  eexists. split; [vm_compute; reflexivity |].
  split; [reflexivity |]. split; [reflexivity |]. simpl. floats_differ.
Qed.

(** C6 as amended, at a row whose call IV reads 12.5 and whose put IV reads
    [-]. *)
Lemma chain_implied_volatility_witness :
  exists c p,
    parse_chain [chain_header; both_traded] = Ok [c; p]
    /\ source_iv decimal_float both_traded c = Some (Float 0.125)
    /\ Opt.implied_volatility c = Float 0.125
    /\ source_iv decimal_float both_traded p = None
    /\ Opt.implied_volatility p = Float 0.20.
Proof.
  destruct (parse_chain [chain_header; both_traded]) as [options | e] eqn:Hparse;
    [| vm_compute in Hparse; discriminate Hparse].
  assert (Hoptions : exists c p, options = [c; p]
            /\ source_iv decimal_float both_traded c = Some (Float 0.125)
            /\ is_zero (Float 0.125) = false
            /\ source_iv decimal_float both_traded p = None).
  { vm_compute in Hparse. inversion Hparse. do 2 eexists.
    split; [reflexivity |]. repeat split; vm_compute; reflexivity. }
  destruct Hoptions as (c & p & -> & Hc & Hnonzero & Hp).
  exists c, p. split; [reflexivity |].
  destruct (chain_implied_volatility decimal_float august_14 july_31 _ chain_header
              [both_traded] [c; p] c Hparse (or_introl eq_refl))
    as (row & _ & [<- | []] & _ & _ & Hgiven & _ & _).
  destruct (chain_implied_volatility decimal_float august_14 july_31 _ chain_header
              [both_traded] [c; p] p Hparse (or_intror (or_introl eq_refl)))
    as (row' & _ & [<- | []] & _ & _ & _ & _ & Hmissing).
  split; [exact Hc |]. split; [exact (Hgiven _ Hc Hnonzero) |].
  split; [exact Hp | exact (Hmissing Hp)].
Defined.

(** C7 at two failed results, and at a failed and a successful result
    without market prices. *)
Lemma summary_degenerate_cases_witness :
  _generate_summary [failed_result; failed_result] (Float 100)
  = Ok (SummaryError "No successful calculations")
  /\ exists pm ma rm,
       _generate_summary [failed_result; good_result] (Float 100) = Ok (Summary pm ma rm)
       /\ avg_price_difference_pct ma = Int 0.
Proof.
  split.
  - apply (proj1 summary_degenerate_cases).
    repeat constructor.
  - destruct (proj2 summary_degenerate_cases [failed_result; good_result] (Float 100))
      as (pm & ma & rm & Hrun & Havg & _).
    + exists good_result. split; [right; left; reflexivity | reflexivity].
    + intros r [<- | [<- | []]] _; reflexivity.
    + exists pm, ma, rm. split; [exact Hrun | exact Havg].
Defined.

(** C8, counterexample.  A portfolio row whose option type reads
    [Straddle]: the parser returns an option whose type is ['straddle'],
    neither ['call'] nor ['put']. *)
Lemma portfolio_option_type_not_canonical :
  exists o,
    parse_portfolio_csv decimal_float [portfolio_line "Straddle"] = Ok [o]
    /\ Opt.option_type o = "straddle"
    /\ Opt.option_type o <> "call"
    /\ Opt.option_type o <> "put".
Proof.
  eexists. split; [vm_compute; reflexivity |].
  split; [reflexivity |]. split; discriminate.
Qed.

(** C8 as amended, at an option-chain row with both sides traded and at a
    portfolio row whose option type reads [CALL]. *)
Lemma option_type_of_parsed_options_witness :
  (exists c p,
     parse_chain [chain_header; both_traded] = Ok [c; p]
     /\ (Opt.option_type c = "call" \/ Opt.option_type c = "put")
     /\ (Opt.option_type p = "call" \/ Opt.option_type p = "put"))
  /\ (exists o text,
        parse_portfolio_csv decimal_float [portfolio_line "CALL"] = Ok [o]
        /\ portfolio_line "CALL" !! "option_type" = Some (Some text)
        /\ Opt.option_type o = lower text).
Proof.
  destruct (option_type_of_parsed_options decimal_float august_14 july_31)
    as [Hchain Hportfolio].
  split.
  - destruct (parse_chain [chain_header; both_traded]) as [options | e] eqn:Hparse;
      [| vm_compute in Hparse; discriminate Hparse].
    assert (Hoptions : exists c p, options = [c; p]).
    { vm_compute in Hparse. inversion Hparse. eauto. }
    destruct Hoptions as (c & p & ->). exists c, p. split; [reflexivity |].
    split.
    + exact (Hchain _ _ _ c Hparse (or_introl eq_refl)).
    + exact (Hchain _ _ _ p Hparse (or_intror (or_introl eq_refl))).
  - destruct (parse_portfolio_csv decimal_float [portfolio_line "CALL"])
      as [options | e] eqn:Hparse; [| vm_compute in Hparse; discriminate Hparse].
    assert (Hoptions : exists o, options = [o]).
    { vm_compute in Hparse. inversion Hparse. eauto. }
    destruct Hoptions as (o & ->).
    destruct (Hportfolio _ _ o Hparse (or_introl eq_refl))
      as (row & text & [<- | []] & Hcell & Htype).
    exists o, text. auto.
Defined.

(** C10 at a portfolio file with one call row (strike 100, spot 100,
    volatility 0.2, expiry 0.25 years, position 1) and a pricing client that
    answers price 4.0 and delta 0.52. *)
Lemma portfolio_options_carry_no_market_price_witness :
  contains "symbol,position,spot,strike" (lower (first_line portfolio_file)) = true
  /\ exists o meta r pm ma rm,
       parse_portfolio_csv decimal_float (dict_rows portfolio_file) = Ok [o]
       /\ Opt.market_price o = None
       /\ analyze_csv decimal_float august_14 july_31 "2025-07-31T09:30:00" fixed_price
            portfolio_file "table" None (Float 0.05)
          = Ok (Report meta [r] (Summary pm ma rm))
       /\ Res.market_price r = None
       /\ options_with_market_prices ma = 0
       /\ overpriced_count ma = 0
       /\ underpriced_count ma = 0
       /\ avg_price_difference_pct ma = Int 0
       /\ total_value pm = Float 4
       /\ net_delta pm = Float 0.52.
Proof.
  assert (Hformat : contains "symbol,position,spot,strike"
                      (lower (first_line portfolio_file)) = true) by reflexivity.
  split; [exact Hformat |].
  destruct (parse_portfolio_csv decimal_float (dict_rows portfolio_file))
    as [options | e] eqn:Hparse; [| vm_compute in Hparse; discriminate Hparse].
  destruct (portfolio_options_carry_no_market_price decimal_float august_14 july_31
              "2025-07-31T09:30:00" fixed_price portfolio_file "table" None (Float 0.05)
              options Hformat Hparse)
    as (Hnone & Hreport & Hreturns).
  destruct Hreturns as (rep & Hrun); [reflexivity |].
  specialize (Hreport rep Hrun).
  assert (Hoptions : exists o, options = [o]).
  { vm_compute in Hparse. inversion Hparse. eauto. }
  destruct Hoptions as (o & ->).
  assert (Hshape : exists meta r pm ma rm,
            rep = Report meta [r] (Summary pm ma rm)
            /\ total_value pm = Float 4 /\ net_delta pm = Float 0.52).
  { unfold analyze_csv in Hrun. rewrite Hformat in Hrun.
    vm_compute in Hrun. inversion Hrun. do 5 eexists.
    split; [reflexivity |]. split; reflexivity. }
  destruct Hshape as (meta & r & pm & ma & rm & -> & Hvalue & Hdelta).
  destruct Hreport as (_ & Hresults & _ & Hzero & Hover & Hunder & Havg).
  exists o, meta, r, pm, ma, rm.
  split; [reflexivity |].
  split; [exact (Forall_inv Hnone) |].
  split; [exact Hrun |].
  split; [exact (Forall_inv Hresults) |].
  auto 10.
Defined.

(** * Further properties: the pricing client *)

Lemma append_cons c (a b : string) : (String c a ++ b)%string = String c (a ++ b)%string.
Proof. reflexivity. Qed.

Lemma cons_app_cases c (s skipped later : string) :
  String c s = (skipped ++ later)%string ->
  (skipped = "" /\ later = String c s)
  \/ exists skipped', skipped = String c skipped' /\ s = (skipped' ++ later)%string.
Proof.
  destruct skipped as [| c' skipped'].
  - intros H. left. split; [reflexivity | symmetry; exact H].
  - rewrite append_cons. intros [= <- ->]. right. eauto.
Qed.

Lemma take_drop_while p s : s = (take_while p s ++ drop_while p s)%string.
Proof.
  induction s as [| c rest IH]; simpl; [reflexivity |].
  destruct (p c); [rewrite append_cons, <- IH |]; reflexivity.
Qed.

Lemma take_while_all p s : all_chars p (take_while p s) = true.
Proof.
  induction s as [| c rest IH]; simpl; [reflexivity |].
  destruct (p c) eqn:Hc; simpl; [rewrite Hc; exact IH | reflexivity].
Qed.

Lemma drop_while_stops p s : stops p (drop_while p s) = true.
Proof.
  induction s as [| c rest IH]; simpl; [reflexivity |].
  destruct (p c) eqn:Hc; simpl; [exact IH | rewrite Hc; reflexivity].
Qed.

Lemma after_label_app label s rest :
  after_label label s = Some rest -> s = (label ++ rest)%string.
Proof.
  revert s. induction label as [| a label IH]; intros s; simpl.
  - intros [= ->]. reflexivity.
  - destruct s as [| b s]; [discriminate |].
    destruct (Ascii.eqb a b) eqn:Hab; [| discriminate].
    apply Ascii.eqb_eq in Hab as ->. intros H. rewrite append_cons, <- (IH s H).
    reflexivity.
Qed.

Lemma match_here_parts label group s text :
  match_here label group s = Some text ->
  exists blanks rest,
    s = (label ++ blanks ++ text ++ rest)%string
    /\ all_chars is_space blanks = true
    /\ all_chars group text = true
    /\ is_empty text = false
    /\ stops group rest = true.
Proof.
  unfold match_here.
  destruct (after_label label s) as [tail |] eqn:Hlabel; [| discriminate].
  apply after_label_app in Hlabel as ->.
  destruct (is_empty (take_while group (drop_while is_space tail))) eqn:Hempty;
    [discriminate |].
  intros [= <-].
  exists (take_while is_space tail),
         (drop_while group (drop_while is_space tail)).
  rewrite <- take_drop_while, <- take_drop_while.
  split; [reflexivity |]. split; [apply take_while_all |].
  split; [apply take_while_all |]. split; [exact Hempty | apply drop_while_stops].
Qed.

(** X13.  What the client reads for a label: [search] returns the text at
    the first place of the output where the label is followed, after any
    blanks, by a group character; the text is the longest run of group
    characters there, so it is not empty, holds only group characters (no
    sign for the price, gamma and vega, whose group is digits and dots), and
    ends where the output ends or a character outside the group stands; and
    the pattern matches at no earlier place.  It returns nothing exactly when
    the pattern matches nowhere. *)
Theorem search_leftmost_longest label group output :
  (forall text, search label group output = Some text ->
     exists before blanks rest,
       output = (before ++ label ++ blanks ++ text ++ rest)%string
       /\ all_chars is_space blanks = true
       /\ all_chars group text = true
       /\ is_empty text = false
       /\ stops group rest = true
       /\ forall skipped later,
            before = (skipped ++ later)%string -> later <> "" ->
            match_here label group (later ++ label ++ blanks ++ text ++ rest)%string
            = None)
  /\ (search label group output = None ->
      forall skipped later, output = (skipped ++ later)%string ->
                            match_here label group later = None).
Proof.
  induction output as [| c output IH]; simpl.
  - destruct (match_here label group "") as [text |] eqn:Hhere.
    + split; [| discriminate]. intros text' [= <-].
      destruct (match_here_parts _ _ _ _ Hhere) as (blanks & rest & Hs & Hrest).
      exists "", blanks, rest. split; [exact Hs |].
      repeat (split; [tauto |]).
      intros skipped later Hbefore Hlater. destruct skipped, later; try discriminate.
      contradiction.
    + split; [discriminate |]. intros _ skipped later Hout.
      destruct skipped, later; try discriminate. exact Hhere.
  - destruct (match_here label group (String c output)) as [text |] eqn:Hhere.
    + split; [| discriminate]. intros text' [= <-].
      destruct (match_here_parts _ _ _ _ Hhere) as (blanks & rest & Hs & Hrest).
      exists "", blanks, rest. split; [exact Hs |].
      repeat (split; [tauto |]).
      intros skipped later Hbefore Hlater. destruct skipped, later; try discriminate.
      contradiction.
    + destruct IH as [IHsome IHnone]. split.
      * intros text Hsearch.
        destruct (IHsome text Hsearch)
          as (before & blanks & rest & -> & Hblanks & Htext & Hempty & Hstops & Hleft).
        exists (String c before), blanks, rest. split; [reflexivity |].
        repeat (split; [assumption |]).
        intros skipped later Hbefore Hlater.
        apply cons_app_cases in Hbefore as [[-> ->] | (skipped' & -> & ->)].
        -- exact Hhere.
        -- apply (Hleft skipped' later eq_refl Hlater).
      * intros Hsearch skipped later Hout.
        apply cons_app_cases in Hout as [[-> ->] | (skipped' & -> & ->)].
        -- exact Hhere.
        -- exact (IHnone Hsearch skipped' later eq_refl).
Qed.

Section ClientProperties.

Variable py_float : string -> option float.
Variable str_float : float -> string.
Variable subprocess_run : list string -> run_outcome.
Variable bsm_executable : string.

#[local] Set Default Proof Using "Type".

Local Abbreviation number := (Client.number py_float).
Local Abbreviation read_output := (Client.read_output py_float).
Local Abbreviation field_read := (Client.field_read py_float).
Local Abbreviation command := (Client.command str_float bsm_executable).
Local Abbreviation client :=
  (Client.calculate_option_price py_float str_float subprocess_run bsm_executable).

Lemma number_cases m :
  (exists n, number m = Ok n
             /\ match m with
                | Some text => exists f, py_float text = Some f /\ n = Float f
                | None => n = Float 0
                end)
  \/ (number m = Raise ValueError /\ exists text, m = Some text /\ py_float text = None).
Proof.
  unfold Client.number. destruct m as [text |]; [| left; eauto].
  destruct (py_float text) as [f |] eqn:Hf; [left; eauto | right; eauto].
Qed.

Lemma number_raise m e : number m = Raise e -> e = ValueError.
Proof.
  unfold Client.number. destruct m as [text |]; [| discriminate].
  destruct (py_float text); [discriminate |]. intros [= <-]. reflexivity.
Qed.

Ltac read_field label :=
  let H := fresh "H" in
  destruct (Client.number _ (search label _ _)) as [? | ?] eqn:H; simpl;
  [| try discriminate; try (intros [= <-]; exact (number_raise _ _ H))].

Lemma read_output_success output calculation :
  read_output output = Ok calculation -> Calc.calculation_success calculation = true.
Proof.
  unfold Client.read_output. cbv zeta.
  read_field "Price:". read_field "Delta:". read_field "Gamma:". read_field "Vega:".
  read_field "Theta:". intros [= <-]. reflexivity.
Qed.

Lemma read_output_raise output e : read_output output = Raise e -> e = ValueError.
Proof.
  unfold Client.read_output. cbv zeta.
  read_field "Price:". read_field "Delta:". read_field "Gamma:". read_field "Vega:".
  read_field "Theta:". discriminate.
Qed.

(** X14.  Reading the output of the executable is all or nothing.  When
    [float] accepts the text of every field the output shows, the calculation
    is successful, each field shown has its value, and each field not shown
    is 0.0 (an output that shows no field at all still gives a successful
    calculation, all zeros).  When [float] rejects the text of one field, the
    reading raises [ValueError], whatever the other fields hold. *)
Theorem read_output_all_or_nothing output :
  (forall calculation, read_output output = Ok calculation ->
     Calc.calculation_success calculation = true
     /\ field_read "Price:" digit_or_dot output (Calc.theoretical_price calculation)
     /\ field_read "Delta:" sign_digit_or_dot output (Calc.delta calculation)
     /\ field_read "Gamma:" digit_or_dot output (Calc.gamma calculation)
     /\ field_read "Vega:" digit_or_dot output (Calc.vega calculation)
     /\ field_read "Theta:" sign_digit_or_dot output (Calc.theta calculation))
  /\ (forall e, read_output output = Raise e ->
        e = ValueError
        /\ exists label group text,
             In (label, group)
               [("Price:", digit_or_dot); ("Delta:", sign_digit_or_dot);
                ("Gamma:", digit_or_dot); ("Vega:", digit_or_dot);
                ("Theta:", sign_digit_or_dot)]
             /\ search label group output = Some text
             /\ py_float text = None)
  /\ ((forall label group text,
         search label group output = Some text -> py_float text <> None) ->
      exists calculation, read_output output = Ok calculation).
Proof.
  unfold Client.read_output, Client.field_read. cbv zeta.
  destruct (number_cases (search "Price:" digit_or_dot output))
    as [(price & -> & Hprice) | (-> & text & Hm & Hf)];
    [| split; [discriminate |]; split;
       [intros e [= <-]; split; [reflexivity |];
        exists "Price:", digit_or_dot, text; simpl; auto 10
       | intros Hall; destruct (Hall _ _ _ Hm Hf)]].
  destruct (number_cases (search "Delta:" sign_digit_or_dot output))
    as [(delta & -> & Hdelta) | (-> & text & Hm & Hf)];
    [| split; [discriminate |]; split;
       [intros e [= <-]; split; [reflexivity |];
        exists "Delta:", sign_digit_or_dot, text; simpl; auto 10
       | intros Hall; destruct (Hall _ _ _ Hm Hf)]].
  destruct (number_cases (search "Gamma:" digit_or_dot output))
    as [(gamma & -> & Hgamma) | (-> & text & Hm & Hf)];
    [| split; [discriminate |]; split;
       [intros e [= <-]; split; [reflexivity |];
        exists "Gamma:", digit_or_dot, text; simpl; auto 10
       | intros Hall; destruct (Hall _ _ _ Hm Hf)]].
  destruct (number_cases (search "Vega:" digit_or_dot output))
    as [(vega & -> & Hvega) | (-> & text & Hm & Hf)];
    [| split; [discriminate |]; split;
       [intros e [= <-]; split; [reflexivity |];
        exists "Vega:", digit_or_dot, text; simpl; auto 10
       | intros Hall; destruct (Hall _ _ _ Hm Hf)]].
  destruct (number_cases (search "Theta:" sign_digit_or_dot output))
    as [(theta & -> & Htheta) | (-> & text & Hm & Hf)];
    [| split; [discriminate |]; split;
       [intros e [= <-]; split; [reflexivity |];
        exists "Theta:", sign_digit_or_dot, text; simpl; auto 10
       | intros Hall; destruct (Hall _ _ _ Hm Hf)]].
  simpl. split; [| split; [discriminate | eauto]].
  intros calculation [= <-]. simpl.
  destruct (search "Price:" _ _), (search "Delta:" _ _), (search "Gamma:" _ _),
    (search "Vega:" _ _), (search "Theta:" _ _); auto 10.
Qed.

Ltac default_outcome :=
  split; [discriminate |];
  split; [intros ? [= <-]; split; [reflexivity | discriminate] |];
  split; [intros; reflexivity |];
  split; intros; reflexivity.

(** X15.  The pricing client returns a calculation for every outcome of the
    process but one: an exception of [subprocess.run] other than a timeout, a
    [SubprocessError] or a [ValueError] (an executable that cannot be
    started, say) is raised to the caller.  A calculation it returns with
    [calculation_success] false is the zeroed default, and it returns that
    for a non-zero exit status, a timeout, a [SubprocessError] and an output
    with a field [float] rejects; a successful one is the reading of the
    output of a process that exited with status 0. *)
Theorem client_outcomes option spot_price risk_free_rate :
  let outcome := subprocess_run (command option spot_price risk_free_rate) in
  (forall e, client option spot_price risk_free_rate = Raise e ->
     outcome = Raised e /\ e <> ValueError)
  /\ (forall calculation,
        client option spot_price risk_free_rate = Ok calculation ->
        (Calc.calculation_success calculation = false ->
         calculation = _default_option_result)
        /\ (Calc.calculation_success calculation = true ->
            exists stdout stderr,
              outcome = Completed 0 stdout stderr
              /\ read_output stdout = Ok calculation))
  /\ (forall returncode stdout stderr,
        outcome = Completed returncode stdout stderr -> returncode <> 0 ->
        client option spot_price risk_free_rate = Ok _default_option_result)
  /\ (outcome = TimeoutExpired \/ outcome = SubprocessError
      \/ outcome = Raised ValueError ->
      client option spot_price risk_free_rate = Ok _default_option_result)
  /\ (forall stdout stderr e,
        outcome = Completed 0 stdout stderr -> read_output stdout = Raise e ->
        client option spot_price risk_free_rate = Ok _default_option_result).
Proof.
  cbv zeta. unfold Client.calculate_option_price.
  destruct (subprocess_run _) as [returncode stdout stderr | | | e] eqn:Hrun.
  - destruct (returncode =? 0) eqn:Hcode.
    + apply Z.eqb_eq in Hcode as ->.
      destruct (read_output stdout) as [calculation | e] eqn:Hread.
      * pose proof (read_output_success stdout calculation Hread) as Hsuccess.
        split; [discriminate |].
        split; [intros c [= <-]; split; [rewrite Hsuccess; discriminate | eauto] |].
        split; [intros ? ? ? [= <- _ _] Hne; contradiction |].
        split; [intros [H | [H | H]]; discriminate H |].
        intros ? ? e [= <- _] He. rewrite Hread in He. discriminate.
      * rewrite (read_output_raise stdout e Hread).
        simpl. default_outcome.
    + default_outcome.
  - default_outcome.
  - default_outcome.
  - destruct e; simpl; try default_outcome;
      (split; [intros e' [= <-]; split; [reflexivity | discriminate] |];
       split; [discriminate |]; split; [discriminate |];
       split; [intros [H | [H | H]]; discriminate H | discriminate]).
Qed.

End ClientProperties.

(** * Further properties: the analysis with the pricing client *)

Section Pipeline.

Variable py_float : string -> option float.
Variable date_match : string -> option (string * string * string).
Variable today : Z.
Variable now : string.
Variable str_float : float -> string.
Variable subprocess_run : list string -> run_outcome.
Variable bsm_executable : string.

#[local] Set Default Proof Using "Type".

Local Abbreviation command := (Client.command str_float bsm_executable).
Local Abbreviation client :=
  (Client.calculate_option_price py_float str_float subprocess_run bsm_executable).
Local Abbreviation parse := (detect_and_parse py_float date_match today).
Local Abbreviation analyze := (analyze_csv py_float date_match today now client).

Lemma client_started option spot_price risk_free_rate :
  started (subprocess_run (command option spot_price risk_free_rate)) = true ->
  raises (client option spot_price risk_free_rate) = false.
Proof.
  unfold Client.calculate_option_price, started.
  destruct (subprocess_run _) as [returncode stdout stderr | | | e]; try reflexivity.
  - intros _. destruct (returncode =? 0); [| reflexivity].
    destruct (Client.read_output py_float stdout) as [c | e] eqn:Hread; [reflexivity |].
    unfold Client.read_output, Client.number in Hread.
    repeat match type of Hread with
           | context [search ?l ?g ?s] => destruct (search l g s)
           | context [py_float ?t] => destruct (py_float t)
           end; simpl in Hread; try discriminate Hread;
      injection Hread as <-; reflexivity.
  - intros ->. reflexivity.
Qed.

Lemma client_failed option spot_price risk_free_rate :
  failed (subprocess_run (command option spot_price risk_free_rate)) = true ->
  client option spot_price risk_free_rate = Ok _default_option_result.
Proof.
  unfold Client.calculate_option_price, failed.
  destruct (subprocess_run _) as [returncode stdout stderr | | | e]; try reflexivity.
  - destruct (returncode =? 0); [discriminate | reflexivity].
  - intros ->. reflexivity.
Qed.

Lemma client_raises option spot_price risk_free_rate e :
  subprocess_run (command option spot_price risk_free_rate) = Raised e ->
  Client.caught_by_client e = false ->
  client option spot_price risk_free_rate = Raise e.
Proof.
  intros Hrun Hcaught. unfold Client.calculate_option_price.
  rewrite Hrun, Hcaught. reflexivity.
Qed.

Lemma failed_results options spot_price risk_free_rate :
  (forall o, In o options ->
     failed (subprocess_run (command o spot_price risk_free_rate)) = true) ->
  exists results,
    results_of client options spot_price risk_free_rate = Ok results
    /\ length results = length options
    /\ Forall (fun r => Res.calculation_success r = false
                        /\ Res.theoretical_price r = Float 0
                        /\ Res.delta r = Float 0 /\ Res.gamma r = Float 0
                        /\ Res.vega r = Float 0 /\ Res.theta r = Float 0) results.
Proof.
  unfold results_of. induction options as [| o rest IH]; simpl; intros Hfailed.
  - exists []. auto.
  - rewrite (client_failed o spot_price risk_free_rate (Hfailed o (or_introl eq_refl))).
    simpl. rewrite make_result_run. simpl.
    destruct IH as (results & -> & Hlen & Hall);
      [intros o' Ho'; apply Hfailed; right; exact Ho' |].
    simpl. eexists. split; [reflexivity |]. split; [simpl; congruence |].
    constructor; [| exact Hall].
    destruct (Opt.market_price o); simpl; auto 10.
Qed.

(** X16.  A pricing call that fails does not stop the analysis.  When every
    process can be started, [analyze_csv] with the pricing client returns a
    report for every file the parser reads, whatever the processes answer.
    When every call fails (non-zero exit status, timeout, [SubprocessError])
    the report still lists one result per parsed option, each with zero price
    and Greeks and [calculation_success] false, and its summary is the error
    marker of a run with no successful calculation. *)
Theorem analysis_survives_failed_pricing
    file output_format spot_price risk_free_rate options format_type :
  parse file = Ok (options, format_type) ->
  ((forall cmd, started (subprocess_run cmd) = true) ->
   exists rep, analyze file output_format spot_price risk_free_rate = Ok rep)
  /\ ((forall cmd, failed (subprocess_run cmd) = true) ->
      options <> [] ->
      exists meta results,
        analyze file output_format spot_price risk_free_rate
        = Ok (Report meta results (SummaryError "No successful calculations"))
        /\ length results = length options
        /\ Forall (fun r => Res.calculation_success r = false
                            /\ Res.theoretical_price r = Float 0
                            /\ Res.delta r = Float 0 /\ Res.gamma r = Float 0
                            /\ Res.vega r = Float 0 /\ Res.theta r = Float 0) results).
Proof.
  intros Hparse. split.
  - intros Hstarted.
    apply (analyze_csv_returns py_float date_match today now client
             file output_format spot_price risk_free_rate options format_type Hparse).
    intros o spot _. apply client_started, Hstarted.
  - intros Hfailed Hsome.
    rewrite analyze_csv_stages, Hparse. simpl.
    destruct options as [| first rest]; [contradiction |].
    destruct (resolve_spot_total spot_price format_type first (first :: rest))
      as (spot & ->). simpl.
    destruct (failed_results (first :: rest) spot risk_free_rate)
      as (results & -> & Hlen & Hall); [intros o _; apply Hfailed |].
    simpl. unfold _generate_summary.
    rewrite (no_successful_nil results).
    + simpl. do 2 eexists. split; [reflexivity |]. auto.
    + eapply List.Forall_impl; [| exact Hall]. intros r Hr. destruct Hr as [Hr _].
      exact Hr.
Qed.

(** X17.  An executable that cannot be started ends the analysis: when
    [subprocess.run] raises, for one of the parsed options, an exception the
    client does not catch (an [OSError], say), [analyze_csv] raises it for the
    first such option and returns no report, although the options before it
    were priced. *)
Theorem analysis_stops_when_executable_cannot_start
    file output_format spot_price risk_free_rate priced o rest format_type spot e :
  parse file = Ok (priced ++ o :: rest, format_type) ->
  resolve_spot spot_price format_type (hd o priced) (priced ++ o :: rest) = Ok spot ->
  (forall o', In o' priced ->
     started (subprocess_run (command o' spot risk_free_rate)) = true) ->
  subprocess_run (command o spot risk_free_rate) = Raised e ->
  Client.caught_by_client e = false ->
  analyze file output_format spot_price risk_free_rate = Raise e.
Proof.
  intros Hparse Hspot Hpriced Hrun Hcaught.
  rewrite analyze_csv_stages, Hparse. simpl.
  assert (Hresults : results_of client (priced ++ o :: rest) spot risk_free_rate
                     = Raise e).
  { unfold results_of. clear Hparse Hspot.
    induction priced as [| o' priced IH]; simpl.
    - rewrite (client_raises o spot risk_free_rate e Hrun Hcaught). reflexivity.
    - pose proof (client_started o' spot risk_free_rate
                    (Hpriced o' (or_introl eq_refl))) as Hok.
      destruct (client o' spot risk_free_rate) as [c | e']; [| discriminate Hok].
      simpl. rewrite make_result_run. simpl.
      rewrite IH; [reflexivity |]. intros o'' Ho''. apply Hpriced. right. exact Ho''. }
  destruct priced as [| first priced]; simpl in *; rewrite Hspot; simpl;
    rewrite Hresults; reflexivity.
Qed.

End Pipeline.


(** ** The report formats *)

Lemma split_on_not_nil c s : split_on c s <> [].
Proof.
  destruct s as [| d rest]; simpl; [discriminate |].
  destruct (Ascii.eqb c d); [discriminate |].
  destruct (split_on c rest); discriminate.
Qed.

Lemma split_on_free c s : free_of c s = true -> split_on c s = [s].
Proof.
  unfold free_of. induction s as [| d rest IH]; simpl; [reflexivity |].
  intros H. apply andb_prop in H as [Hd Hrest].
  destruct (Ascii.eqb c d); [discriminate Hd |].
  rewrite (IH Hrest). reflexivity.
Qed.

Lemma split_on_app c (a b : string) :
  free_of c a = true ->
  split_on c (a ++ String c EmptyString ++ b)%string = a :: split_on c b.
Proof.
  unfold free_of. induction a as [| d rest IH]; simpl.
  - intros _. rewrite Ascii.eqb_refl. reflexivity.
  - intros H. apply andb_prop in H as [Hd Hrest].
    destruct (Ascii.eqb c d); [discriminate Hd |].
    rewrite (IH Hrest). reflexivity.
Qed.

Lemma concat_cons sep (first second : string) (others : list string) :
  String.concat sep (first :: second :: others)
  = (first ++ sep ++ String.concat sep (second :: others))%string.
Proof. reflexivity. Qed.

(** Joining with a separator that no part holds, then splitting at it, gives
    the parts back. *)
Lemma split_on_concat c (parts : list string) :
  parts <> [] ->
  forallb (free_of c) parts = true ->
  split_on c (String.concat (String c EmptyString) parts) = parts.
Proof.
  induction parts as [| first others IH]; [intros H; destruct (H eq_refl) |].
  intros _ Hfree. simpl in Hfree. apply andb_prop in Hfree as [Hfirst Hothers].
  destruct others as [| second others].
  - simpl. apply split_on_free, Hfirst.
  - rewrite concat_cons, (split_on_app _ _ _ Hfirst).
    rewrite IH; [reflexivity | discriminate | exact Hothers].
Qed.

Lemma count_char_app c (a b : string) :
  count_char c (a ++ b)%string = (count_char c a + count_char c b)%nat.
Proof. induction a as [| d rest IH]; simpl; [reflexivity | rewrite IH; lia]. Qed.

Lemma all_chars_app p (a b : string) :
  all_chars p (a ++ b)%string = all_chars p a && all_chars p b.
Proof.
  induction a as [| d rest IH]; simpl; [reflexivity |].
  rewrite IH. apply andb_assoc.
Qed.

Lemma free_of_concat c sep (parts : list string) :
  free_of c sep = true -> forallb (free_of c) parts = true ->
  free_of c (String.concat sep parts) = true.
Proof.
  intros Hsep. induction parts as [| first others IH]; [reflexivity |].
  intros Hfree. cbn [forallb] in Hfree. apply andb_prop in Hfree as [Hfirst Hothers].
  destruct others as [| second others]; [exact Hfirst |].
  rewrite concat_cons. unfold free_of in *.
  rewrite !all_chars_app, Hfirst, Hsep. apply IH, Hothers.
Qed.

Lemma forallb_andb {A} (f g : A -> bool) (xs : list A) :
  forallb (fun x => f x && g x) xs = true ->
  forallb f xs = true /\ forallb g xs = true.
Proof.
  induction xs as [| x rest IH]; simpl; [auto |].
  intros H. apply andb_prop in H as [Hx Hrest]. apply andb_prop in Hx as [Hf Hg].
  destruct (IH Hrest) as [-> ->]. rewrite Hf, Hg. auto.
Qed.

Lemma split_on_length c s : length (split_on c s) = S (count_char c s).
Proof.
  induction s as [| d rest IH]; simpl; [reflexivity |].
  destruct (Ascii.eqb c d); simpl; [rewrite IH; reflexivity |].
  destruct (split_on c rest) as [| first others] eqn:Hsplit; simpl in *; lia.
Qed.

Lemma count_char_concat c (parts : list string) :
  parts <> [] ->
  S (count_char c (String.concat (String c EmptyString) parts))
  = (length parts + list_sum (List.map (count_char c) parts))%nat.
Proof.
  induction parts as [| first others IH]; [intros H; destruct (H eq_refl) |].
  intros _. destruct others as [| second others].
  - simpl. lia.
  - rewrite concat_cons, !count_char_app. simpl count_char at 2.
    rewrite Ascii.eqb_refl.
    assert (Hrest : second :: others <> []) by discriminate.
    specialize (IH Hrest). simpl length in *. simpl list_sum in *.
    simpl List.map in *. simpl list_sum in *. lia.
Qed.

Lemma result_map_raise {A B} (f : A -> result B) (xs : list A) e :
  result_map f xs = Raise e -> exists x, In x xs /\ f x = Raise e.
Proof.
  induction xs as [| x rest IH]; simpl; [discriminate |].
  destruct (f x) as [y | e'] eqn:Hx; simpl.
  - destruct (result_map f rest) as [ys | e'']; simpl; [discriminate |].
    intros [= ->]. destruct (IH eq_refl) as (x' & Hin & Hx'). eauto.
  - intros [= ->]. eauto.
Qed.

Lemma result_map_ok {A B} (f : A -> result B) (xs : list A) :
  (forall x, In x xs -> exists y, f x = Ok y) ->
  exists ys, result_map f xs = Ok ys.
Proof.
  induction xs as [| x rest IH]; simpl; intros Hall; [eauto |].
  destruct (Hall x (or_introl eq_refl)) as (y & ->). simpl.
  destruct IH as (ys & ->); [intros x' Hin; apply Hall; right; exact Hin |].
  simpl. eauto.
Qed.

Lemma result_map_ok_inv {A B} (f : A -> result B) (xs : list A) ys x :
  result_map f xs = Ok ys -> In x xs -> exists y, f x = Ok y.
Proof.
  revert ys. induction xs as [| x' rest IH]; simpl; intros ys Hmap Hin; [destruct Hin |].
  destruct (f x') as [y |] eqn:Hx'; simpl in Hmap; [| discriminate Hmap].
  destruct (result_map f rest) as [ys' |]; simpl in Hmap; [| discriminate Hmap].
  destruct Hin as [<- | Hin]; [rewrite Hx'; eauto | exact (IH ys' eq_refl Hin)].
Qed.

Section FormatProperties.

Variable str_float : float -> string.
Variable format : num -> string -> string.
Variable json_dumps : report -> string.

#[local] Set Default Proof Using "Type".

Local Abbreviation csv_fields := (Format.csv_fields str_float).
Local Abbreviation csv_row := (Format.csv_row str_float).
Local Abbreviation _format_as_csv := (Format._format_as_csv str_float).
Local Abbreviation option_line := (Format.option_line format).
Local Abbreviation table_lines := (Format.table_lines format).
Local Abbreviation _format_as_table := (Format._format_as_table format).
Local Abbreviation render := (Format.render str_float format json_dumps).

Lemma csv_row_concat r : csv_row r = String.concat "," (csv_fields r).
Proof. reflexivity. Qed.

Lemma csv_fields_not_nil r : csv_fields r <> [].
Proof. discriminate. Qed.

Lemma option_line_symbol r symbol :
  Res.symbol r = Some symbol -> exists line, option_line r = Ok line.
Proof. unfold Format.option_line. intros ->. simpl. eauto. Qed.

Lemma option_line_no_symbol r :
  Res.symbol r = None -> option_line r = Raise TypeError.
Proof. unfold Format.option_line. intros ->. reflexivity. Qed.

Lemma option_line_raise r e :
  option_line r = Raise e -> e = TypeError /\ Res.symbol r = None.
Proof.
  unfold Format.option_line. destruct (Res.symbol r) as [symbol |]; simpl.
  - discriminate.
  - intros [= <-]. auto.
Qed.

Lemma table_lines_raise meta options s e :
  table_lines meta options s = Raise e ->
  e = TypeError /\ exists r, In r (firstn 20 options) /\ Res.symbol r = None.
Proof.
  unfold Format.table_lines.
  destruct (result_map option_line (firstn 20 options)) as [rows | e'] eqn:Hrows;
    simpl; [discriminate |].
  intros [= ->]. apply result_map_raise in Hrows as (r & Hin & Hr).
  apply option_line_raise in Hr as [-> Hr]. eauto.
Qed.

Lemma table_lines_no_symbol meta options s r :
  In r (firstn 20 options) -> Res.symbol r = None ->
  table_lines meta options s = Raise TypeError.
Proof.
  intros Hin Hr.
  destruct (table_lines meta options s) as [lines | e] eqn:Hlines.
  - unfold Format.table_lines in Hlines.
    destruct (result_map option_line (firstn 20 options)) as [rows | e] eqn:Hrows;
      simpl in Hlines; [| discriminate Hlines].
    destruct (result_map_ok_inv _ _ _ _ Hrows Hin) as (line & Hline).
    rewrite (option_line_no_symbol r Hr) in Hline. discriminate Hline.
  - apply table_lines_raise in Hlines as [-> _]. reflexivity.
Qed.

Lemma table_lines_symbols meta options s :
  (forall r, In r options -> Res.symbol r <> None) ->
  exists lines, table_lines meta options s = Ok lines.
Proof.
  intros Hall. destruct (table_lines meta options s) as [lines | e] eqn:Hlines; [eauto |].
  apply table_lines_raise in Hlines as (_ & r & Hin & Hr).
  exfalso. apply (Hall r); [| exact Hr].
  rewrite <- (firstn_skipn 20 options). apply in_or_app. left. exact Hin.
Qed.

Lemma render_symbols meta options s format_type :
  (forall r, In r options -> Res.symbol r <> None) ->
  exists text, render (Report meta options s) format_type = Ok text.
Proof.
  intros Hall. unfold Format.render.
  destruct (String.eqb format_type "json"); [eauto |].
  destruct (String.eqb format_type "csv"); [eauto |].
  simpl. destruct (table_lines_symbols meta options s Hall) as (lines & ->).
  simpl. eauto.
Qed.

Lemma render_error error format_type :
  exists text, render (ReportError error) format_type = Ok text.
Proof.
  unfold Format.render.
  destruct (String.eqb format_type "json"); [eauto |].
  destruct (String.eqb format_type "csv"); simpl; eauto.
Qed.

(** X18.  The table shows the first twenty results.  Its lines are the
    thirteen of the head, one per result up to twenty, a line counting the
    results left out when there are more than twenty, the fourteen lines of
    the summary unless the summary is an error, and the closing rule.  The
    results after the twentieth reach the table through their number only:
    replacing them by as many others leaves every line as it was. *)
Theorem table_shows_first_twenty meta (options : list Res.t) s :
  (forall lines, table_lines meta options s = Ok lines ->
     length lines
     = (14 + Nat.min 20 (length options)
        + (if (20 <? len options)%Z then 1 else 0)
        + match s with Summary _ _ _ => 14 | SummaryError _ => 0 end)%nat
     /\ (20 < len options ->
         In ("... and " ++ str_int (len options - 20) ++ " more options")%string lines))
  /\ (forall shown hidden hidden',
        options = shown ++ hidden -> length shown = 20%nat ->
        length hidden' = length hidden ->
        table_lines meta (shown ++ hidden') s = table_lines meta options s).
Proof.
  split.
  - intros lines Hlines. unfold Format.table_lines in Hlines.
    destruct (result_map option_line (firstn 20 options)) as [rows | e] eqn:Hrows;
      simpl in Hlines; [| discriminate Hlines].
    injection Hlines as <-. apply result_map_length in Hrows.
    rewrite length_firstn in Hrows. split.
    + simpl length. rewrite !length_app, Hrows. unfold Format.more_lines.
      destruct (20 <? len options); destruct s; simpl length; lia.
    + intros Hmore. do 13 right. apply in_or_app. right.
      apply in_or_app. left. unfold Format.more_lines.
      apply Z.ltb_lt in Hmore. rewrite Hmore. left. reflexivity.
  - intros shown hidden hidden' -> Hshown Hhidden. unfold Format.table_lines.
    assert (Hfirst : forall rest : list Res.t, firstn 20 (shown ++ rest) = shown).
    { intros rest. rewrite <- Hshown, firstn_app, Nat.sub_diag, firstn_all. simpl.
      apply app_nil_r. }
    rewrite !Hfirst. unfold Format.more_lines, len. rewrite !length_app, Hhidden.
    reflexivity.
Qed.

(** X19.  Printing a report raises in one case only: the table format (any
    format name other than [json] and [csv]) on a report one of whose first
    twenty results has the symbol [None], which the width of the symbol
    column cannot format; the exception is [TypeError].  An error report
    prints in every format. *)
Theorem render_raises_on_missing_symbol results format_type :
  (forall e, render results format_type = Raise e ->
     e = TypeError /\ format_type <> "json" /\ format_type <> "csv"
     /\ exists meta options s r,
          results = Report meta options s
          /\ In r (firstn 20 options) /\ Res.symbol r = None)
  /\ (forall meta options s r,
        results = Report meta options s ->
        In r (firstn 20 options) -> Res.symbol r = None ->
        format_type <> "json" -> format_type <> "csv" ->
        render results format_type = Raise TypeError)
  /\ (forall error, results = ReportError error ->
        exists text, render results format_type = Ok text).
Proof.
  unfold Format.render. split; [| split].
  - intros e.
    destruct (String.eqb_spec format_type "json") as [-> | Hjson]; [discriminate |].
    destruct (String.eqb_spec format_type "csv") as [-> | Hcsv]; [discriminate |].
    destruct results as [error | meta options s]; simpl; [discriminate |].
    destruct (table_lines meta options s) as [lines | e'] eqn:Hlines; simpl;
      [discriminate |].
    intros [= ->]. apply table_lines_raise in Hlines as (-> & r & Hin & Hr).
    split; [reflexivity |]. split; [exact Hjson |]. split; [exact Hcsv |].
    exists meta, options, s, r. auto.
  - intros meta options s r -> Hin Hr Hjson Hcsv.
    destruct (String.eqb_spec format_type "json") as [-> | _]; [destruct (Hjson eq_refl) |].
    destruct (String.eqb_spec format_type "csv") as [-> | _]; [destruct (Hcsv eq_refl) |].
    simpl. rewrite (table_lines_no_symbol meta options s r Hin Hr). reflexivity.
  - intros error ->.
    destruct (String.eqb format_type "json"); [eauto |].
    destruct (String.eqb format_type "csv"); simpl; eauto.
Qed.

(** X20.  A CSV row is its fourteen values joined by commas, with no quoting:
    read back by splitting at the commas it has fourteen fields plus one for
    every comma inside a value, and it gives the fourteen values back when no
    value holds a comma. *)
Theorem csv_row_fields r :
  length (split_on "," (csv_row r))
  = (14 + list_sum (List.map (count_char ",") (csv_fields r)))%nat
  /\ (forallb (free_of ",") (csv_fields r) = true ->
      split_on "," (csv_row r) = csv_fields r).
Proof.
  rewrite csv_row_concat. split.
  - rewrite split_on_length.
    rewrite (count_char_concat "," (csv_fields r) (csv_fields_not_nil r)).
    reflexivity.
  - apply split_on_concat, csv_fields_not_nil.
Qed.

(** X21.  The CSV report reads back: when no value of a result holds a comma
    or a line feed, splitting the text of [_format_as_csv] into lines and the
    lines at the commas gives the fourteen column names followed by the
    values of every result, all of them (the CSV is not cut at twenty) and in
    the order of the report.  Metadata and summary are not in the text. *)
Theorem csv_report_reads_back meta options s :
  forallb (fun r => forallb (fun field => free_of "," field && free_of "010" field)
                      (csv_fields r)) options = true ->
  List.map (split_on ",") (split_on "010" (_format_as_csv (Report meta options s)))
  = split_on "," Format.csv_header :: List.map csv_fields options.
Proof.
  intros Hfree. unfold Format._format_as_csv, Format.csv_lines, newline.
  assert (Hrows : forallb (free_of "010") (List.map csv_row options) = true
                  /\ List.map (split_on ",") (List.map csv_row options)
                     = List.map csv_fields options).
  { induction options as [| r rest IH]; [split; reflexivity |].
    cbn [forallb] in Hfree. apply andb_prop in Hfree as [Hr Hrest].
    apply forallb_andb in Hr as [Hcomma Hline].
    destruct (IH Hrest) as [IHfree IHsplit].
    cbn [List.map forallb]. rewrite IHfree, IHsplit. split.
    - rewrite andb_true_r, csv_row_concat.
      apply free_of_concat; [reflexivity | exact Hline].
    - rewrite csv_row_concat,
        (split_on_concat "," _ (csv_fields_not_nil r) Hcomma).
      reflexivity. }
  destruct Hrows as [Hrows Hsplit].
  rewrite split_on_concat; [| discriminate |].
  - cbn [List.map]. rewrite Hsplit. reflexivity.
  - cbn [forallb]. rewrite Hrows. reflexivity.
Qed.

End FormatProperties.

(** ** From the file to the printed report *)

Section Output.

Variable py_float : string -> option float.
Variable date_match : string -> option (string * string * string).
Variable today : Z.
Variable now : string.
Variable calculate_option_price : Opt.t -> num -> num -> result Calc.t.
Variable str_float : float -> string.
Variable format : num -> string -> string.
Variable json_dumps : report -> string.

#[local] Set Default Proof Using "Type".

Local Abbreviation analyze :=
  (analyze_csv py_float date_match today now calculate_option_price).
Local Abbreviation render := (Format.render str_float format json_dumps).
Local Abbreviation str := (Format.str str_float).
Local Abbreviation csv_row := (Format.csv_row str_float).

Lemma chain_option_symbol filepath reader options o :
  parse_option_chain_csv py_float date_match today filepath reader = Ok options ->
  In o options -> Opt.symbol o = Some "NIFTY".
Proof.
  destruct reader as [| headers rows]; [discriminate |].
  rewrite parse_option_chain_csv_run. intros [= <-] Hin.
  apply in_flat_map in Hin as (row & _ & Hin).
  unfold row_options in Hin. destruct (len row <? 23); [destruct Hin |].
  destruct (row_strike _ row) as [strike |]; [| destruct Hin].
  assert (Htraded : exists option_type ltp iv,
             In o (traded date_match today filepath strike option_type ltp iv)).
  { apply in_app_iff in Hin as [Hin | Hin]; eauto. }
  destruct Htraded as (option_type & ltp & iv & Htraded).
  unfold traded in Htraded. destruct ltp as [p |]; [| destruct Htraded].
  destruct (py_gt p (Int 0)); [| destruct Htraded].
  destruct Htraded as [<- | []]. reflexivity.
Qed.

Lemma results_symbols spot (options : list Opt.t) (results : list Res.t) r :
  Forall2 (result_of_option spot) options results -> In r results ->
  exists o, In o options /\ Res.symbol r = Opt.symbol o.
Proof.
  induction 1 as [| o r' os rs Hr _ IH]; [intros [] |].
  intros [<- | Hin].
  - exists o. split; [left; reflexivity | apply Hr].
  - destruct (IH Hin) as (o' & Ho' & Hsymbol). exists o'. split; [right |]; assumption.
Qed.

Lemma results_of_unpriced options spot_price risk_free_rate results :
  results_of calculate_option_price options spot_price risk_free_rate = Ok results ->
  Forall (fun o => Opt.market_price o = None) options ->
  Forall (fun r => Res.market_price r = None
                   /\ Res.price_difference r = None
                   /\ Res.price_difference_pct r = None) results.
Proof.
  unfold results_of. revert results.
  induction options as [| o rest IH]; simpl; intros results.
  - intros [= <-] _. constructor.
  - destruct (calculate_option_price o spot_price risk_free_rate) as [c | e];
      [| discriminate]. simpl.
    rewrite make_result_run. simpl.
    destruct (result_map _ rest) as [rs | e]; [| discriminate]. simpl.
    intros [= <-] Hall. inversion Hall as [| ? ? Ho Hrest]; subst.
    constructor; [| exact (IH rs eq_refl Hrest)].
    rewrite Ho. simpl. auto.
Qed.

(** X22.  The report of an option-chain file prints in every format: all its
    results carry the symbol the parser gave them, so the table never meets
    the missing symbol it cannot format. *)
Theorem chain_report_prints file output_format spot_price risk_free_rate rep format_type :
  contains "symbol,position,spot,strike" (lower (first_line file)) = false ->
  analyze file output_format spot_price risk_free_rate = Ok rep ->
  exists text, render rep format_type = Ok text.
Proof.
  intros Hformat. rewrite analyze_csv_stages. unfold detect_and_parse. rewrite Hformat.
  destruct (parse_option_chain_csv _ _ _ _ _) as [options | e] eqn:Hparse; simpl;
    [| discriminate].
  destruct options as [| first rest]; [intros [= <-]; apply render_error |].
  destruct (resolve_spot _ _ _ _) as [spot | e]; simpl; [| discriminate].
  destruct (results_of _ _ _ _) as [results | e] eqn:Hresults; simpl; [| discriminate].
  destruct (_generate_summary _ _) as [summary | e]; simpl; [| discriminate].
  intros [= <-]. apply render_symbols. intros r Hin.
  apply results_of_options in Hresults.
  destruct (results_symbols _ _ _ _ Hresults Hin) as (o & Ho & ->).
  rewrite (chain_option_symbol _ _ _ o Hparse Ho). discriminate.
Qed.

(** X23.  In the CSV of a portfolio file, every row reads [None] in the
    [market_price] column and has the two difference columns empty: the
    parser sets the market price to [None], so the result has the key
    [market_price] (printed as [None]) and lacks the two difference keys
    (printed as the empty default). *)
Theorem portfolio_csv_market_columns
    file output_format spot_price risk_free_rate meta results s :
  contains "symbol,position,spot,strike" (lower (first_line file)) = true ->
  analyze file output_format spot_price risk_free_rate = Ok (Report meta results s) ->
  Forall (fun r =>
            csv_row r
            = String.concat ","
                [default "None" (Res.symbol r); Res.option_type r;
                 str (Res.strike r); str (Res.expiry_days r);
                 str (Res.implied_volatility r);
                 "None";
                 str (Res.theoretical_price r);
                 ""; "";
                 str (Res.delta r); str (Res.gamma r); str (Res.vega r);
                 str (Res.theta r); str (Res.position r)]) results.
Proof.
  intros Hformat. rewrite analyze_csv_stages. unfold detect_and_parse. rewrite Hformat.
  destruct (parse_portfolio_csv _ _) as [options | e] eqn:Hparse; simpl; [| discriminate].
  destruct options as [| first rest]; [discriminate |].
  destruct (resolve_spot _ _ _ _) as [spot | e]; simpl; [| discriminate].
  destruct (results_of _ _ _ _) as [results' | e] eqn:Hresults; simpl; [| discriminate].
  destruct (_generate_summary _ _) as [summary | e]; simpl; [| discriminate].
  intros [= _ <- _].
  pose proof (results_of_unpriced _ _ _ _ Hresults
                (parse_portfolio_csv_no_market_price _ _ _ Hparse)) as Hnone.
  apply List.Forall_forall. intros r Hin.
  destruct (proj1 (List.Forall_forall _ _) Hnone r Hin) as (Hm & Hd & Hp).
  rewrite csv_row_concat. unfold Format.csv_fields. rewrite Hm, Hd, Hp. reflexivity.
Qed.

End Output.

(** * The JSON form of a report read back *)

From Stdlib Require DecimalFacts DecimalPos DecimalZ.

(** Induction on a value, with the property at hand for the items of a list
    and of a dict. *)
Lemma value_ind_nested (P : value -> Prop) :
  P VNone -> (forall b, P (VBool b)) -> (forall z, P (VInt z)) ->
  (forall f, P (VFloat f)) -> (forall s, P (VStr s)) ->
  (forall items, Forall P items -> P (VList items)) ->
  (forall items, Forall (fun item => P (snd item)) items -> P (VDict items)) ->
  forall v, P v.
Proof.
  intros HNone HBool HInt HFloat HStr HList HDict.
  fix IH 1. intros [| b | z | f | s | items | items].
  - exact HNone.
  - apply HBool.
  - apply HInt.
  - apply HFloat.
  - apply HStr.
  - apply HList. induction items as [| x xs IHxs]; constructor; [apply IH | exact IHxs].
  - apply HDict. induction items as [| [k x] xs IHxs]; constructor; [apply IH | exact IHxs].
Qed.

Lemma app_assoc_string (a b c : string) : ((a ++ b) ++ c)%string = (a ++ b ++ c)%string.
Proof.
  induction a as [| x a IH]; [reflexivity |].
  rewrite !append_cons, IH. reflexivity.
Qed.

Lemma scan_string_char c tail :
  Json.scan_string (Json.escape_char c ++ tail)
  = ('(text, after) ← Json.scan_string tail; mret (String c text, after)).
Proof. destruct c as [[|] [|] [|] [|] [|] [|] [|] [|]]; reflexivity. Qed.

Lemma scan_string_escape s rest :
  Json.scan_string (Json.escape s ++ String "034" rest) = Ok (s, rest).
Proof.
  induction s as [| c s IH]; [reflexivity |].
  change (Json.escape (String c s)) with (Json.escape_char c ++ Json.escape s)%string.
  rewrite app_assoc_string, scan_string_char, IH. reflexivity.
Qed.

(** The number at the start of some texts. *)
Example scan_examples :
  List.map Json.scan_number ["1e5"; "-1E-2"; "1.5e+07"; "0e5"; "01"; "1.e3"; "12.50,"; "-"; "1e+"; "-0.0"; "3.25e"; "7.x"]
  = [Some ("1", "", "e5", ""); Some ("-1", "", "E-2", ""); Some ("1", ".5", "e+07", "");
     Some ("0", "", "e5", ""); Some ("0", "", "", "1"); Some ("1", "", "", ".e3");
     Some ("12", ".50", "", ","); None; Some ("1", "", "", "e+"); Some ("-0", ".0", "", "");
     Some ("3", ".25", "", "e"); Some ("7", "", "", ".x")].
Proof. reflexivity. Qed.

(** Numbers *)

Lemma take_while_app_stop p (x rest : string) :
  stops p rest = true -> take_while p (x ++ rest) = take_while p x.
Proof.
  intros Hstop. induction x as [| c x IH].
  - simpl. destruct rest as [| d rest]; [reflexivity |]. simpl in *.
    destruct (p d); [discriminate | reflexivity].
  - rewrite append_cons. simpl. destruct (p c); [rewrite IH |]; reflexivity.
Qed.

Lemma drop_while_app_stop p (x rest : string) :
  stops p rest = true -> drop_while p (x ++ rest) = (drop_while p x ++ rest)%string.
Proof.
  intros Hstop. induction x as [| c x IH].
  - simpl. destruct rest as [| d rest]; [reflexivity |]. simpl in *.
    destruct (p d); [discriminate | reflexivity].
  - rewrite append_cons. simpl. destruct (p c); [exact IH | reflexivity].
Qed.

Lemma ends_number_stops rest : Json.ends_number rest = true -> stops is_digit rest = true.
Proof.
  destruct rest as [| c rest]; [reflexivity |]. simpl.
  destruct (is_digit c); [discriminate | reflexivity].
Qed.

Lemma ends_number_first d rest :
  Json.ends_number (String d rest) = true ->
  is_digit d = false /\ Ascii.eqb d "." = false /\ Ascii.eqb d "+" = false
  /\ Ascii.eqb d "-" = false /\ Ascii.eqb d "e" = false /\ Ascii.eqb d "E" = false.
Proof.
  unfold Json.ends_number. intros H. apply negb_true_iff in H.
  destruct (is_digit d), (Ascii.eqb d "."), (Ascii.eqb d "+"), (Ascii.eqb d "-"),
    (Ascii.eqb d "e"), (Ascii.eqb d "E"); try discriminate H; auto 10.
Qed.

Lemma scan_unsigned_app x rest found after :
  Json.scan_unsigned x = Some (found, after) -> Json.ends_number rest = true ->
  Json.scan_unsigned (x ++ rest) = Some (found, (after ++ rest)%string).
Proof.
  intros Hx Hrest. apply ends_number_stops in Hrest.
  destruct x as [| c x]; [discriminate |].
  rewrite append_cons. unfold Json.scan_unsigned in *.
  destruct (Ascii.eqb c "0"); [injection Hx as <- <-; reflexivity |].
  destruct (is_digit c); [| discriminate].
  injection Hx as <- <-.
  rewrite <- append_cons, take_while_app_stop, drop_while_app_stop by exact Hrest.
  reflexivity.
Qed.

Lemma scan_integer_app x rest found after :
  Json.scan_integer x = Some (found, after) -> Json.ends_number rest = true ->
  Json.scan_integer (x ++ rest) = Some (found, (after ++ rest)%string).
Proof.
  intros Hx Hrest. destruct x as [| c x]; [discriminate |].
  unfold Json.scan_integer in *. rewrite append_cons.
  destruct (Ascii.eqb c "-").
  - destruct (Json.scan_unsigned x) as [[found' after'] |] eqn:Hu; [| discriminate].
    injection Hx as <- <-. rewrite (scan_unsigned_app _ _ _ _ Hu Hrest). reflexivity.
  - rewrite <- append_cons. exact (scan_unsigned_app _ _ _ _ Hx Hrest).
Qed.

Lemma scan_fraction_app x rest :
  Json.ends_number rest = true ->
  Json.scan_fraction (x ++ rest)
  = ((Json.scan_fraction x).1, ((Json.scan_fraction x).2 ++ rest)%string).
Proof.
  intros Hrest. destruct x as [| c x].
  - destruct rest as [| d rest]; [reflexivity |].
    destruct (ends_number_first d rest Hrest) as (_ & Hd & _).
    simpl. rewrite Hd. reflexivity.
  - apply ends_number_stops in Hrest. rewrite append_cons. unfold Json.scan_fraction.
    rewrite take_while_app_stop, drop_while_app_stop by exact Hrest.
    destruct (Ascii.eqb c "." && _); reflexivity.
Qed.

Lemma scan_sign_app x rest :
  Json.ends_number rest = true ->
  Json.scan_sign (x ++ rest)
  = ((Json.scan_sign x).1, ((Json.scan_sign x).2 ++ rest)%string).
Proof.
  intros Hrest. destruct x as [| c x].
  - destruct rest as [| d rest]; [reflexivity |].
    destruct (ends_number_first d rest Hrest) as (_ & _ & Hplus & Hminus & _).
    simpl. rewrite Hplus, Hminus. reflexivity.
  - rewrite append_cons. unfold Json.scan_sign.
    destruct (Ascii.eqb c "+" || Ascii.eqb c "-"); reflexivity.
Qed.

Lemma scan_exponent_app x rest :
  Json.ends_number rest = true ->
  Json.scan_exponent (x ++ rest)
  = ((Json.scan_exponent x).1, ((Json.scan_exponent x).2 ++ rest)%string).
Proof.
  intros Hrest. destruct x as [| c x].
  - destruct rest as [| d rest]; [reflexivity |].
    destruct (ends_number_first d rest Hrest) as (_ & _ & _ & _ & He & HE).
    simpl. destruct (Json.scan_sign rest) as [sign unsigned].
    rewrite He, HE. reflexivity.
  - rewrite append_cons. unfold Json.scan_exponent.
    rewrite (scan_sign_app x rest Hrest).
    destruct (Json.scan_sign x) as [sign unsigned]. cbn [fst snd].
    apply ends_number_stops in Hrest.
    rewrite take_while_app_stop, drop_while_app_stop by exact Hrest.
    destruct ((Ascii.eqb c "e" || Ascii.eqb c "E") && _); reflexivity.
Qed.

Lemma scan_number_app x rest integer frac exp :
  Json.scan_number x = Some (integer, frac, exp, EmptyString) ->
  Json.ends_number rest = true ->
  Json.scan_number (x ++ rest) = Some (integer, frac, exp, rest).
Proof.
  unfold Json.scan_number. intros Hx Hrest.
  destruct (Json.scan_integer x) as [[integer' after] |] eqn:Hi; [| discriminate].
  rewrite (scan_integer_app _ _ _ _ Hi Hrest), (scan_fraction_app after rest Hrest).
  destruct (Json.scan_fraction after) as [frac' after']. cbn [fst snd].
  rewrite (scan_exponent_app after' rest Hrest).
  destruct (Json.scan_exponent after') as [exp' after'']. cbn [fst snd].
  injection Hx as <- <- <- ->. reflexivity.
Qed.

(** Integers *)

Lemma take_while_all_chars p s : all_chars p s = true -> take_while p s = s.
Proof.
  induction s as [| c s IH]; [reflexivity |]. simpl.
  destruct (p c); [| discriminate]. simpl. intros H. rewrite (IH H). reflexivity.
Qed.

Lemma drop_while_all_chars p s : all_chars p s = true -> drop_while p s = EmptyString.
Proof.
  induction s as [| c s IH]; [reflexivity |]. simpl.
  destruct (p c); [| discriminate]. exact IH.
Qed.

Lemma uint_digits d : all_chars is_digit (NilEmpty.string_of_uint d) = true.
Proof. induction d; [reflexivity | exact IHd ..]. Qed.

Lemma to_uint_head p :
  exists c rest,
    NilEmpty.string_of_uint (Pos.to_uint p) = String c rest
    /\ Ascii.eqb c "0" = false /\ is_digit c = true.
Proof.
  assert (Hnorm : Decimal.unorm (Pos.to_uint p) = Pos.to_uint p).
  { rewrite <- DecimalPos.Unsigned.to_of, DecimalPos.Unsigned.of_to. reflexivity. }
  destruct (Pos.to_uint p) as [| d | d | d | d | d | d | d | d | d | d] eqn:Hp;
    [destruct (DecimalPos.Unsigned.to_uint_nonnil p Hp) | | simpl; eauto ..].
  exfalso. rewrite DecimalFacts.unorm_D0 in Hnorm.
  assert (Hd : d <> Decimal.Nil).
  { intros ->. exact (DecimalPos.Unsigned.to_uint_nonzero p Hp). }
  pose proof (DecimalFacts.nb_digits_unorm d Hd) as Hlen.
  rewrite Hnorm in Hlen. simpl in Hlen. lia.
Qed.

Lemma scan_unsigned_uint p :
  Json.scan_unsigned (NilEmpty.string_of_uint (Pos.to_uint p))
  = Some (NilEmpty.string_of_uint (Pos.to_uint p), EmptyString).
Proof.
  pose proof (uint_digits (Pos.to_uint p)) as Hdigits.
  destruct (to_uint_head p) as (c & rest & Hs & Hzero & Hdigit).
  rewrite Hs in Hdigits |- *. unfold Json.scan_unsigned. rewrite Hzero, Hdigit.
  rewrite (take_while_all_chars _ _ Hdigits), (drop_while_all_chars _ _ Hdigits).
  reflexivity.
Qed.

Lemma string_of_uint_pos p :
  NilZero.string_of_uint (Pos.to_uint p) = NilEmpty.string_of_uint (Pos.to_uint p).
Proof.
  unfold NilZero.string_of_uint.
  destruct (Pos.to_uint p) eqn:Hp; [destruct (DecimalPos.Unsigned.to_uint_nonnil p Hp) | reflexivity ..].
Qed.

Lemma scan_number_str_int z :
  Json.scan_number (str_int z) = Some (str_int z, EmptyString, EmptyString, EmptyString).
Proof.
  unfold str_int. destruct z as [| p | p]; [reflexivity | |]; simpl;
    rewrite string_of_uint_pos; unfold Json.scan_number, Json.scan_integer.
  - destruct (to_uint_head p) as (c & rest & Hs & Hzero & Hdigit).
    pose proof (scan_unsigned_uint p) as Hscan. rewrite Hs in Hscan |- *.
    assert (Hminus : Ascii.eqb c "-" = false).
    { destruct (Ascii.eqb_spec c "-") as [-> |]; [discriminate Hdigit | reflexivity]. }
    rewrite Hminus, Hscan. reflexivity.
  - rewrite Ascii.eqb_refl, scan_unsigned_uint. reflexivity.
Qed.

Lemma parse_int_str_int z : within_limit z = true -> Json.parse_int (str_int z) = Ok z.
Proof.
  intros Hlimit. unfold Json.parse_int, str_int.
  rewrite NilZero.isi.
  - rewrite DecimalZ.of_to, Hlimit. reflexivity.
  - destruct z as [| p | p]; simpl; [discriminate | | discriminate].
    intros [= H]. exact (DecimalPos.Unsigned.to_uint_nonnil p H).
  - destruct z as [| p | p]; simpl; [discriminate | discriminate |].
    intros [= H]. exact (DecimalPos.Unsigned.to_uint_nonnil p H).
Qed.

(** Floats *)

Lemma float_nan (f : float) : (f =? f)%float = false -> f = nan.
Proof.
  rewrite FloatAxioms.eqb_spec. intros H. apply Prim2SF_inj.
  change (Prim2SF nan) with S754_nan.
  destruct (Prim2SF f) as [s | s | | s m e]; [| | reflexivity |]; exfalso;
    unfold SFeqb, SFcompare in H.
  - discriminate H.
  - destruct s; discriminate H.
  - destruct s; rewrite Z.compare_refl, Pos.compare_cont_refl in H; discriminate H.
Qed.

Lemma float_infinity (f : float) : (f =? infinity)%float = true -> f = infinity.
Proof.
  rewrite FloatAxioms.eqb_spec. intros H. apply Prim2SF_inj.
  change (Prim2SF infinity) with (S754_infinity false) in *.
  destruct (Prim2SF f) as [s | s | | s m e]; unfold SFeqb, SFcompare in H;
    try discriminate H; destruct s; try discriminate H; reflexivity.
Qed.

Lemma float_neg_infinity (f : float) :
  (f =? neg_infinity)%float = true -> f = neg_infinity.
Proof.
  rewrite FloatAxioms.eqb_spec. intros H. apply Prim2SF_inj.
  change (Prim2SF neg_infinity) with (S754_infinity true) in *.
  destruct (Prim2SF f) as [s | s | | s m e]; unfold SFeqb, SFcompare in H;
    try discriminate H; destruct s; try discriminate H; reflexivity.
Qed.

(** Where a value starts *)

Lemma number_start c :
  Ascii.eqb c "-" || is_digit c = true ->
  Json.is_ws c = false /\ Ascii.eqb "]" c = false /\ Ascii.eqb "}" c = false
  /\ Ascii.eqb Json.quote c = false /\ Ascii.eqb "[" c = false
  /\ Ascii.eqb "{" c = false /\ Ascii.eqb "n" c = false /\ Ascii.eqb "t" c = false
  /\ Ascii.eqb "f" c = false.
Proof.
  destruct c as [[|] [|] [|] [|] [|] [|] [|] [|]]; try discriminate;
    intros _; repeat split; reflexivity.
Qed.

Lemma scan_number_first s found :
  Json.scan_number s = Some found ->
  exists c rest, s = String c rest /\ Ascii.eqb c "-" || is_digit c = true.
Proof.
  unfold Json.scan_number, Json.scan_integer. destruct s as [| c rest]; [discriminate |].
  intros H. exists c, rest. split; [reflexivity |].
  destruct (Ascii.eqb c "-"); [reflexivity |]. simpl.
  unfold Json.scan_unsigned in H.
  destruct (Ascii.eqb_spec c "0") as [-> |]; [reflexivity |].
  destruct (is_digit c); [reflexivity | discriminate H].
Qed.

Lemma length_append (a b : string) :
  String.length (a ++ b) = (String.length a + String.length b)%nat.
Proof. induction a as [| c a IH]; simpl; [reflexivity | rewrite IH; reflexivity]. Qed.

Lemma append_nil_r (s : string) : (s ++ "")%string = s.
Proof. induction s as [| c s IH]; [reflexivity |]. rewrite append_cons, IH. reflexivity. Qed.

Lemma result_bind_ok {A B} (a : A) (k : A -> result B) : (x ← Ok a; k x) = k a.
Proof. reflexivity. Qed.

Lemma skip_ws_start s : Json.starts_value s = true -> Json.skip_ws s = s.
Proof.
  destruct s as [| c s]; [discriminate |]. simpl. intros H.
  apply negb_true_iff in H. destruct (Json.is_ws c); [discriminate H | reflexivity].
Qed.

Lemma skip_ws_blanks n s : Json.skip_ws (repeat_char " " n ++ s) = Json.skip_ws s.
Proof. induction n as [| n IH]; [reflexivity | exact IH]. Qed.

Lemma skip_ws_newline_indent level s :
  Json.skip_ws (Json.newline_indent level ++ s) = Json.skip_ws s.
Proof. unfold Json.newline_indent. rewrite append_cons. apply skip_ws_blanks. Qed.

Lemma starts_value_closing s :
  Json.starts_value s = true ->
  after_label "]" s = None /\ after_label "}" s = None.
Proof.
  destruct s as [| c s]; [discriminate |]. unfold Json.starts_value. intros H.
  apply negb_true_iff in H. cbn [after_label].
  destruct (Json.is_ws c), (Ascii.eqb "]" c), (Ascii.eqb "}" c); try discriminate H; auto.
Qed.

Lemma starts_value_app (s rest : string) :
  Json.starts_value s = true -> Json.starts_value (s ++ rest) = true.
Proof. destruct s as [| c s]; [discriminate | exact (fun H => H)]. Qed.

Lemma starts_value_length s : Json.starts_value s = true -> (1 <= String.length s)%nat.
Proof. destruct s as [| c s]; [discriminate | simpl; lia]. Qed.

Lemma number_starts_value s found :
  Json.scan_number s = Some found -> Json.starts_value s = true /\ Json.starts_atom s = true.
Proof.
  intros H. destruct (scan_number_first s found H) as (c & rest & -> & Hc).
  destruct (number_start c Hc) as (Hws & Hb & Hc' & Hq & Hl & Hd & _).
  unfold Json.starts_value, Json.starts_atom. rewrite Hws, Hb, Hc', Hq, Hl, Hd. auto.
Qed.

(** [dict] on distinct keys *)

Lemma dict_set_fresh items k v :
  existsb (String.eqb k) (List.map fst items) = false ->
  Json.dict_set items k v = items ++ [(k, v)].
Proof.
  induction items as [| [k' v'] items IH]; [reflexivity |]. simpl.
  destruct (String.eqb k k'); [discriminate |]. simpl. intros H. rewrite (IH H). reflexivity.
Qed.

Lemma existsb_app_false {A} (p : A -> bool) xs ys :
  existsb p (xs ++ ys) = false <-> existsb p xs = false /\ existsb p ys = false.
Proof. rewrite existsb_app. apply orb_false_iff. Qed.

Lemma dict_fold acc items :
  distinct (List.map fst (acc ++ items)) = true ->
  fold_left (fun items pair => Json.dict_set items (fst pair) (snd pair)) items acc
  = acc ++ items.
Proof.
  revert acc. induction items as [| [k v] items IH]; intros acc Hd.
  - simpl. rewrite app_nil_r. reflexivity.
  - simpl. rewrite dict_set_fresh.
    + rewrite IH; rewrite <- app_assoc; [reflexivity | exact Hd].
    + clear IH. induction acc as [| [k' v'] acc IHacc]; [reflexivity |].
      simpl in Hd |- *. apply andb_prop in Hd as [Hk' Hd].
      rewrite (IHacc Hd), orb_false_r.
      apply negb_true_iff in Hk'. rewrite List.map_app, existsb_app in Hk'.
      apply orb_false_iff in Hk' as [_ Hk']. simpl in Hk'.
      apply orb_false_iff in Hk' as [Hk' _]. rewrite String.eqb_sym. exact Hk'.
Qed.

Lemma dict_distinct items :
  distinct (List.map fst items) = true -> Json.dict items = items.
Proof. intros H. unfold Json.dict. exact (dict_fold [] items H). Qed.

Section JsonRoundTrip.

Variable py_float : string -> option float.
Variable float_repr : float -> string.

#[local] Set Default Proof Using "Type".

Local Abbreviation encode := (Json.encode float_repr).
Local Abbreviation parse_value := (Json.parse_value py_float).
Local Abbreviation parse_elements := (Json.parse_elements py_float).
Local Abbreviation parse_members := (Json.parse_members py_float).
Local Abbreviation parse_atom := (Json.parse_atom py_float).
Local Abbreviation readable := (Json.numbers_readable py_float float_repr).
Local Abbreviation separator level := ("," ++ Json.newline_indent level)%string.

Lemma parse_value_string fuel s :
  parse_value (S fuel) (Json.open_quote ++ s)
  = ('(text, after) ← Json.scan_string s; mret (VStr text, after)).
Proof. reflexivity. Qed.

Lemma parse_value_list fuel s :
  parse_value (S fuel) ("[" ++ s)
  = match after_label "]" (Json.skip_ws s) with
    | Some after => Ok (VList [], after)
    | None =>
        '(items, after) ← parse_elements fuel (Json.skip_ws s);
        mret (VList items, after)
    end.
Proof. reflexivity. Qed.

Lemma parse_value_dict fuel s :
  parse_value (S fuel) ("{" ++ s)
  = match after_label "}" (Json.skip_ws s) with
    | Some after => Ok (VDict [], after)
    | None =>
        '(pairs, after) ← parse_members fuel (Json.skip_ws s);
        mret (VDict (Json.dict pairs), after)
    end.
Proof. reflexivity. Qed.

Lemma parse_value_atom fuel s :
  Json.starts_atom s = true -> parse_value (S fuel) s = parse_atom s.
Proof.
  destruct s as [| c s]; [reflexivity |]. unfold Json.starts_atom. intros H.
  apply negb_true_iff in H. cbn [Json.parse_value]. unfold Json.open_quote.
  cbn [after_label].
  destruct (Ascii.eqb Json.quote c), (Ascii.eqb "[" c), (Ascii.eqb "{" c);
    try discriminate H; reflexivity.
Qed.

Lemma parse_elements_step fuel s :
  parse_elements (S fuel) s
  = ('(v, after) ← parse_value fuel s;
     match after_label "]" (Json.skip_ws after) with
     | Some after => Ok ([v], after)
     | None =>
         match after_label "," (Json.skip_ws after) with
         | Some after =>
             '(others, after) ← parse_elements fuel (Json.skip_ws after);
             mret (v :: others, after)
         | None => Raise ValueError
         end
     end).
Proof. reflexivity. Qed.

Lemma parse_members_step fuel s :
  parse_members (S fuel) (Json.open_quote ++ s)
  = ('(k, after) ← Json.scan_string s;
     match after_label ":" (Json.skip_ws after) with
     | Some after =>
         '(v, after) ← parse_value fuel (Json.skip_ws after);
         match after_label "}" (Json.skip_ws after) with
         | Some after => Ok ([(k, v)], after)
         | None =>
             match after_label "," (Json.skip_ws after) with
             | Some after =>
                 '(others, after) ← parse_members fuel (Json.skip_ws after);
                 mret ((k, v) :: others, after)
             | None => Raise ValueError
             end
         end
     | None => Raise ValueError
     end).
Proof. reflexivity. Qed.

Lemma parse_atom_number s integer frac exp rest :
  Json.scan_number s = Some (integer, frac, exp, rest) ->
  parse_atom s
  = (if is_empty frac && is_empty exp
     then z ← Json.parse_int integer; mret (VInt z, rest)
     else f ← Json.parse_float py_float (integer ++ frac ++ exp); mret (VFloat f, rest)).
Proof.
  intros H. destruct (scan_number_first s _ H) as (c & s' & -> & Hc).
  destruct (number_start c Hc) as (_ & _ & _ & _ & _ & _ & Hn & Ht & Hf).
  unfold Json.parse_atom. cbn [after_label]. rewrite Hn, Ht, Hf, H. reflexivity.
Qed.

Lemma reads_back_spec f :
  Json.reads_back py_float float_repr f = true ->
  exists integer frac exp,
    Json.scan_number (float_repr f) = Some (integer, frac, exp, EmptyString)
    /\ is_empty frac && is_empty exp = false
    /\ py_float (integer ++ frac ++ exp) = Some f.
Proof.
  unfold Json.reads_back.
  destruct (Json.scan_number (float_repr f)) as [[[[integer frac] exp] after] |];
    [| discriminate].
  destruct after; [| discriminate]. intros H. apply andb_prop in H as [Hparts Hfloat].
  apply negb_true_iff in Hparts.
  destruct (py_float _) as [g |] eqn:Hg; [| discriminate].
  apply FloatAxioms.Leibniz.eqb_spec in Hfloat as ->. eauto 10.
Qed.

Lemma floatstr_cases f :
  readable (VFloat f) = true ->
  (f = nan /\ Json.floatstr float_repr f = "NaN")
  \/ (f = infinity /\ Json.floatstr float_repr f = "Infinity")
  \/ (f = neg_infinity /\ Json.floatstr float_repr f = "-Infinity")
  \/ (Json.floatstr float_repr f = float_repr f
      /\ Json.reads_back py_float float_repr f = true).
Proof.
  cbn [Json.numbers_readable]. unfold special, Json.floatstr.
  destruct (f =? f)%float eqn:Hnan; simpl.
  - destruct (f =? infinity)%float eqn:Hinf; simpl.
    + intros _. right. left. split; [exact (float_infinity f Hinf) | reflexivity].
    + destruct (f =? neg_infinity)%float eqn:Hneg; simpl.
      * intros _. right. right. left.
        split; [exact (float_neg_infinity f Hneg) | reflexivity].
      * intros H. right. right. right. auto.
  - intros _. left. split; [exact (float_nan f Hnan) | reflexivity].
Qed.

Lemma encode_starts level v :
  readable v = true -> Json.starts_value (encode level v) = true.
Proof.
  destruct v as [| [|] | z | f | s | [| x xs] | [| x xs]]; try reflexivity.
  - intros _. exact (proj1 (number_starts_value _ _ (scan_number_str_int z))).
  - intros H. cbn [Json.encode].
    destruct (floatstr_cases f H) as [[_ ->] | [[_ ->] | [[_ ->] | [-> Hback]]]];
      try reflexivity.
    destruct (reads_back_spec f Hback) as (integer & frac & exp & Hscan & _).
    exact (proj1 (number_starts_value _ _ Hscan)).
Qed.

Local Abbreviation reads := (Json.parses_back py_float float_repr).

Lemma concat_single sep (a : string) : String.concat sep [a] = a.
Proof. reflexivity. Qed.

Lemma concat_starts sep (first : string) others (tail : string) :
  Json.starts_value first = true ->
  Json.starts_value (String.concat sep (first :: others) ++ tail) = true.
Proof.
  intros H. destruct others as [| second others].
  - apply starts_value_app, H.
  - rewrite concat_cons, app_assoc_string. apply starts_value_app, H.
Qed.

Lemma next_comma (s : string) :
  after_label "]" (Json.skip_ws ("," ++ s)) = None
  /\ after_label "}" (Json.skip_ws ("," ++ s)) = None
  /\ after_label "," (Json.skip_ws ("," ++ s)) = Some s.
Proof. repeat split. Qed.

Lemma next_bracket (s : string) : after_label "]" (Json.skip_ws ("]" ++ s)) = Some s.
Proof. reflexivity. Qed.

Lemma next_brace (s : string) : after_label "}" (Json.skip_ws ("}" ++ s)) = Some s.
Proof. reflexivity. Qed.

Lemma next_colon (s : string) :
  after_label ":" (Json.skip_ws (": " ++ s)) = Some (" " ++ s)%string.
Proof. reflexivity. Qed.

Lemma skip_ws_blank (s : string) : Json.skip_ws (" " ++ s) = Json.skip_ws s.
Proof. reflexivity. Qed.

Lemma parse_elements_encode level rest items :
  items <> [] ->
  Forall (fun v => readable v = true /\ reads v) items ->
  forall fuel,
    (S (String.length (String.concat (separator (S level))
                         (List.map (encode (S level)) items))) <= fuel)%nat ->
    parse_elements fuel
      (String.concat (separator (S level)) (List.map (encode (S level)) items)
       ++ Json.newline_indent level ++ "]" ++ rest)
    = Ok (items, rest).
Proof.
  induction items as [| x xs IH]; [intros H; destruct (H eq_refl) |].
  intros _ Hall fuel Hfuel. inversion Hall as [| ? ? [Hx Hreads] Hxs]; subst.
  destruct fuel as [| fuel]; [lia |]. rewrite parse_elements_step.
  pose proof (starts_value_length _ (encode_starts (S level) x Hx)) as Hlen.
  destruct xs as [| y ys].
  - cbn [List.map] in Hfuel |- *. rewrite concat_single in Hfuel |- *.
    rewrite (Hreads fuel (S level)); [| lia | reflexivity].
    rewrite result_bind_ok, skip_ws_newline_indent, next_bracket. reflexivity.
  - cbn [List.map] in Hfuel |- *. rewrite concat_cons in Hfuel |- *.
    rewrite !length_append in Hfuel. rewrite !app_assoc_string.
    rewrite (Hreads fuel (S level)); [| lia | reflexivity].
    rewrite result_bind_ok.
    destruct (next_comma (Json.newline_indent (S level)
                          ++ String.concat (separator (S level))
                               (encode (S level) y :: List.map (encode (S level)) ys)
                          ++ Json.newline_indent level ++ "]" ++ rest))
      as (-> & _ & ->).
    inversion Hxs as [| ? ? [Hy _] _]; subst.
    rewrite skip_ws_newline_indent, skip_ws_start
      by (apply (concat_starts _ (encode (S level) y)), encode_starts, Hy).
    change (encode (S level) y :: List.map (encode (S level)) ys)
      with (List.map (encode (S level)) (y :: ys)).
    rewrite (IH ltac:(discriminate) Hxs fuel).
    + reflexivity.
    + cbn [List.map]. lia.
Qed.

Lemma scan_string_encode s rest :
  Json.scan_string (Json.escape s ++ Json.open_quote ++ rest) = Ok (s, rest).
Proof. exact (scan_string_escape s rest). Qed.

Local Abbreviation member level :=
  (fun item : string * value =>
     (Json.encode_string (fst item) ++ ": " ++ encode (S level) (snd item))%string).

Lemma member_starts level item (tail : string) :
  Json.starts_value (member level item ++ tail) = true.
Proof. reflexivity. Qed.

Lemma parse_members_encode level rest items :
  items <> [] ->
  Forall (fun item => readable (snd item) = true /\ reads (snd item)) items ->
  forall fuel,
    (S (String.length (String.concat (separator (S level))
                         (List.map (member level) items))) <= fuel)%nat ->
    parse_members fuel
      (String.concat (separator (S level)) (List.map (member level) items)
       ++ Json.newline_indent level ++ "}" ++ rest)
    = Ok (items, rest).
Proof.
  induction items as [| [k x] xs IH]; [intros H; destruct (H eq_refl) |].
  intros _ Hall fuel Hfuel. inversion Hall as [| ? ? [Hx Hreads] Hxs]; subst.
  cbn [fst snd] in Hx, Hreads.
  destruct fuel as [| fuel]; [lia |].
  pose proof (encode_starts (S level) x Hx) as Hstart.
  pose proof (starts_value_length _ Hstart) as Hlen.
  destruct xs as [| [k' y] ys].
  - cbn [List.map fst snd] in Hfuel |- *. rewrite concat_single in Hfuel |- *.
    unfold Json.encode_string in Hfuel |- *. rewrite !length_append in Hfuel.
    rewrite !app_assoc_string, parse_members_step, scan_string_encode, result_bind_ok.
    rewrite next_colon, skip_ws_blank, skip_ws_start by (apply starts_value_app, Hstart).
    rewrite (Hreads fuel (S level)); [| lia | reflexivity].
    rewrite result_bind_ok, skip_ws_newline_indent, next_brace. reflexivity.
  - cbn [List.map fst snd] in Hfuel |- *. rewrite concat_cons in Hfuel |- *.
    rewrite !length_append in Hfuel.
    rewrite !app_assoc_string. unfold Json.encode_string at 1.
    rewrite !app_assoc_string, parse_members_step, scan_string_encode, result_bind_ok.
    rewrite next_colon, skip_ws_blank, skip_ws_start by (apply starts_value_app, Hstart).
    rewrite (Hreads fuel (S level)); [| lia | reflexivity].
    rewrite result_bind_ok.
    match goal with
    | |- context [Json.skip_ws ("," ++ ?s)] =>
        destruct (next_comma s) as (_ & -> & ->)
    end.
    rewrite skip_ws_newline_indent, skip_ws_start
      by (apply (concat_starts _ (Json.encode_string k' ++ ": " ++ encode (S level) y));
          reflexivity).
    change ((Json.encode_string k' ++ ": " ++ encode (S level) y)%string
            :: List.map (member level) ys)
      with (List.map (member level) ((k', y) :: ys)).
    rewrite (IH ltac:(discriminate) Hxs fuel).
    + reflexivity.
    + cbn [List.map fst snd]. lia.
Qed.

Lemma encode_list_cons level x xs :
  encode level (VList (x :: xs))
  = ("[" ++ Json.newline_indent (S level)
     ++ String.concat (separator (S level)) (List.map (encode (S level)) (x :: xs))
     ++ Json.newline_indent level ++ "]")%string.
Proof. reflexivity. Qed.

Lemma encode_dict_cons level x xs :
  encode level (VDict (x :: xs))
  = ("{" ++ Json.newline_indent (S level)
     ++ String.concat (separator (S level)) (List.map (member level) (x :: xs))
     ++ Json.newline_indent level ++ "}")%string.
Proof. reflexivity. Qed.

Lemma newline_indent_length level : (1 <= String.length (Json.newline_indent level))%nat.
Proof. unfold Json.newline_indent. simpl. lia. Qed.

Lemma encode_parses_back v :
  readable v = true -> keys_distinct v = true -> reads v.
Proof.
  induction v as [| b | z | f | s | items IH | items IH] using value_ind_nested;
    intros Hreadable Hkeys fuel level rest Hfuel Hrest;
    pose proof (starts_value_length _ (encode_starts level _ Hreadable)) as Hlen;
    (destruct fuel as [| fuel]; [lia |]).
  - rewrite parse_value_atom by reflexivity. reflexivity.
  - destruct b; rewrite parse_value_atom by reflexivity; reflexivity.
  - cbn [Json.encode].
    pose proof (scan_number_app _ rest _ _ _ (scan_number_str_int z) Hrest) as Hscan.
    rewrite parse_value_atom by exact (proj2 (number_starts_value _ _ Hscan)).
    rewrite (parse_atom_number _ _ _ _ _ Hscan). cbn [is_empty andb].
    rewrite (parse_int_str_int z Hreadable). reflexivity.
  - cbn [Json.encode].
    destruct (floatstr_cases f Hreadable)
      as [[-> ->] | [[-> ->] | [[-> ->] | [-> Hback]]]];
      [rewrite parse_value_atom by reflexivity; reflexivity .. |].
    destruct (reads_back_spec f Hback) as (integer & frac & exp & Hscan & Hparts & Hfloat).
    pose proof (scan_number_app _ rest _ _ _ Hscan Hrest) as Hscan'.
    rewrite parse_value_atom by exact (proj2 (number_starts_value _ _ Hscan')).
    rewrite (parse_atom_number _ _ _ _ _ Hscan'), Hparts.
    unfold Json.parse_float. rewrite Hfloat. reflexivity.
  - cbn [Json.encode]. unfold Json.encode_string.
    rewrite !app_assoc_string, parse_value_string, scan_string_encode. reflexivity.
  - destruct items as [| x xs]; [reflexivity |].
    rewrite encode_list_cons in Hfuel |- *. rewrite !length_append in Hfuel.
    rewrite !app_assoc_string, parse_value_list, skip_ws_newline_indent.
    cbn [Json.numbers_readable keys_distinct] in Hreadable, Hkeys.
    assert (Hall : Forall (fun v => readable v = true /\ reads v) (x :: xs)).
    { clear - IH Hreadable Hkeys.
      induction IH as [| y ys Hy _ IHys]; constructor.
      - simpl in Hreadable, Hkeys. apply andb_prop in Hreadable as [Hr _].
        apply andb_prop in Hkeys as [Hk _]. auto.
      - simpl in Hreadable, Hkeys. apply andb_prop in Hreadable as [_ Hr].
        apply andb_prop in Hkeys as [_ Hk]. auto. }
    assert (Hstart : Json.starts_value
                       (String.concat (separator (S level))
                          (List.map (encode (S level)) (x :: xs))
                        ++ Json.newline_indent level ++ "]" ++ rest) = true).
    { apply (concat_starts _ (encode (S level) x)), encode_starts.
      exact (proj1 (Forall_inv Hall)). }
    rewrite (skip_ws_start _ Hstart), (proj1 (starts_value_closing _ Hstart)).
    pose proof (newline_indent_length (S level)) as Hindent.
    rewrite (parse_elements_encode level rest (x :: xs) ltac:(discriminate) Hall fuel);
      [reflexivity | simpl (String.length "[") in Hfuel; lia].
  - destruct items as [| [k x] xs]; [reflexivity |].
    rewrite encode_dict_cons in Hfuel |- *. rewrite !length_append in Hfuel.
    rewrite !app_assoc_string, parse_value_dict, skip_ws_newline_indent.
    cbn [Json.numbers_readable keys_distinct] in Hreadable, Hkeys.
    apply andb_prop in Hkeys as [Hdistinct Hkeys].
    assert (Hall : Forall (fun item => readable (snd item) = true /\ reads (snd item))
                     ((k, x) :: xs)).
    { clear - IH Hreadable Hkeys.
      induction IH as [| y ys Hy _ IHys]; constructor.
      - simpl in Hreadable, Hkeys. apply andb_prop in Hreadable as [Hr _].
        apply andb_prop in Hkeys as [Hk _]. auto.
      - simpl in Hreadable, Hkeys. apply andb_prop in Hreadable as [_ Hr].
        apply andb_prop in Hkeys as [_ Hk]. auto. }
    assert (Hstart : Json.starts_value
                       (String.concat (separator (S level))
                          (List.map (member level) ((k, x) :: xs))
                        ++ Json.newline_indent level ++ "}" ++ rest) = true).
    { apply (concat_starts _ (member level (k, x))). reflexivity. }
    rewrite (skip_ws_start _ Hstart), (proj2 (starts_value_closing _ Hstart)).
    pose proof (newline_indent_length (S level)) as Hindent.
    rewrite (parse_members_encode level rest ((k, x) :: xs) ltac:(discriminate) Hall fuel);
      [| simpl (String.length "{") in Hfuel; lia].
    rewrite result_bind_ok, (dict_distinct _ Hdistinct). reflexivity.
Qed.

Lemma loads_dumps v :
  readable v = true -> keys_distinct v = true ->
  Json.loads py_float (Json.dumps float_repr v) = Ok v.
Proof.
  intros Hreadable Hkeys. unfold Json.loads, Json.dumps.
  rewrite (skip_ws_start _ (encode_starts 0 v Hreadable)).
  rewrite <- (append_nil_r (encode 0 v)) at 2.
  rewrite (encode_parses_back v Hreadable Hkeys _ 0%nat EmptyString);
    [reflexivity | reflexivity | reflexivity].
Qed.

End JsonRoundTrip.

(** ** The JSON form of a report *)

Lemma keys_distinct_num n : keys_distinct (num_value n) = true.
Proof. destruct n; reflexivity. Qed.

Lemma keys_distinct_optional {A} (to_value : A -> value) x :
  (forall a, keys_distinct (to_value a) = true) ->
  keys_distinct (optional to_value x) = true.
Proof. intros H. destruct x; [apply H | reflexivity]. Qed.

Lemma result_keys_distinct r : keys_distinct (result_value r) = true.
Proof.
  unfold result_value. cbn [keys_distinct].
  destruct (Res.price_difference r), (Res.price_difference_pct r);
    cbn [when_set app List.map fst snd forallb keys_distinct];
    rewrite ?keys_distinct_num,
      ?(keys_distinct_optional num_value _ keys_distinct_num),
      ?(keys_distinct_optional VStr _ (fun _ => eq_refl));
    reflexivity.
Qed.

Lemma report_keys_distinct rep : keys_distinct (report_value rep) = true.
Proof.
  destruct rep as [error | meta options s]; [reflexivity |].
  unfold report_value.
  cbn [keys_distinct List.map fst snd forallb]. rewrite !keys_distinct_num.
  assert (Hoptions : forallb keys_distinct (List.map result_value options) = true).
  { induction options as [| r rest IH]; [reflexivity |].
    cbn [List.map forallb]. rewrite result_keys_distinct, IH. reflexivity. }
  rewrite Hoptions.
  destruct s as [error | pm ma rm]; [reflexivity |].
  cbn [summary_value keys_distinct List.map fst snd forallb].
  rewrite !keys_distinct_num. reflexivity.
Qed.

Lemma same_value_nan_free v : same_value v v = nan_free v.
Proof.
  induction v as [| b | z | f | s | items IH | items IH] using value_ind_nested;
    cbn [same_value nan_free]; try reflexivity.
  - destruct b; reflexivity.
  - apply Z.eqb_refl.
  - apply String.eqb_refl.
  - induction IH as [| x xs Hx _ IHxs]; [reflexivity |].
    cbn [forallb]. rewrite Hx, IHxs. reflexivity.
  - induction IH as [| [k x] xs Hx _ IHxs]; [reflexivity |].
    cbn [forallb snd] in Hx |- *. rewrite String.eqb_refl, Hx, IHxs. reflexivity.
Qed.

Lemma num_value_inj n m : num_value n = num_value m -> n = m.
Proof. destruct n, m; intros [= ->]; reflexivity. Qed.

Lemma optional_num_inj x y : optional num_value x = optional num_value y -> x = y.
Proof.
  destruct x as [n |], y as [m |]; simpl; intros H;
    [apply num_value_inj in H as ->; reflexivity | destruct n; discriminate H
    | destruct m; discriminate H | reflexivity].
Qed.

Lemma optional_str_inj x y : optional VStr x = optional VStr y -> x = y.
Proof. destruct x, y; simpl; intros [= <-] || intros [=]; reflexivity. Qed.

Lemma result_value_inj r r' : result_value r = result_value r' -> r = r'.
Proof.
  destruct r as [symbol option_type strike spot expiry iv market position price
                   delta gamma vega theta success difference pct].
  destruct r' as [symbol' option_type' strike' spot' expiry' iv' market' position' price'
                    delta' gamma' vega' theta' success' difference' pct'].
  unfold result_value. cbn [Res.symbol Res.option_type Res.strike Res.spot_price
    Res.expiry_days Res.implied_volatility Res.market_price Res.position
    Res.theoretical_price Res.delta Res.gamma Res.vega Res.theta
    Res.calculation_success Res.price_difference Res.price_difference_pct app].
  intros [= Hsymbol -> Hstrike Hspot Hexpiry Hiv Hmarket Hposition Hprice
            Hdelta Hgamma Hvega Htheta -> Htail].
  apply optional_str_inj in Hsymbol as ->.
  apply num_value_inj in Hstrike as ->, Hspot as ->, Hexpiry as ->, Hiv as ->,
    Hposition as ->, Hprice as ->, Hdelta as ->, Hgamma as ->, Hvega as ->, Htheta as ->.
  apply optional_num_inj in Hmarket as ->.
  destruct difference as [d |], difference' as [d' |], pct as [p |], pct' as [p' |];
    cbn [when_set app] in Htail; try discriminate Htail;
    try (injection Htail as Hd Hp; apply num_value_inj in Hd as ->;
         apply num_value_inj in Hp as ->);
    try (injection Htail as Hd; apply num_value_inj in Hd as ->);
    reflexivity.
Qed.

Section ReportRoundTrip.

Variable py_float : string -> option float.
Variable float_repr : float -> string.
Variable str_float : float -> string.
Variable format : num -> string -> string.

#[local] Set Default Proof Using "Type".

Local Abbreviation loads := (Json.loads py_float).
Local Abbreviation readable := (Json.numbers_readable py_float float_repr).
Local Abbreviation render := (Format.render str_float format (json_dumps float_repr)).


End ReportRoundTrip.

(** * The further properties at sample inputs *)

Local Abbreviation parse_portfolio := (parse_portfolio_csv decimal_float).
Local Abbreviation analyze_fixed :=
  (analyze_csv decimal_float august_14 july_31 "2025-07-31T09:30:00" fixed_price).

(** X1 at two results priced by the market above and below the theoretical
    price of 4, and one without a market price. *)
Lemma market_analysis_counts_bounded_witness :
  exists pm ma rm,
    _generate_summary
      [priced_result (Some "AAPL") (Some (Float 5));
       priced_result (Some "AAPL") (Some (Float 3)); good_result] (Float 100)
    = Ok (Summary pm ma rm)
    /\ options_with_market_prices ma = 2
    /\ overpriced_count ma + underpriced_count ma <= options_with_market_prices ma.
Proof.
  destruct (_generate_summary
              [priced_result (Some "AAPL") (Some (Float 5));
               priced_result (Some "AAPL") (Some (Float 3)); good_result] (Float 100))
    as [[error | pm ma rm] | e] eqn:Hrun;
    [vm_compute in Hrun; discriminate Hrun | | vm_compute in Hrun; discriminate Hrun].
  destruct (market_analysis_counts_bounded _ _ pm ma rm Hrun)
    as (_ & _ & Hsum & Hcount & _).
  exists pm, ma, rm. split; [reflexivity |]. split; [| exact Hsum].
  rewrite Hcount. reflexivity.
Defined.

(** X2 at a successful result with market price 5 and no difference keys. *)
Lemma summary_raises_on_missing_difference_witness :
  Res.calculation_success without_differences = true
  /\ has_market_price without_differences = true
  /\ Res.price_difference without_differences = None
  /\ _generate_summary [good_result; without_differences] (Float 100) = Raise KeyError.
Proof.
  split; [reflexivity |]. split; [reflexivity |]. split; [reflexivity |].
  apply (summary_raises_on_missing_difference _ (Float 100) without_differences).
  - right. left. reflexivity.
  - reflexivity.
  - reflexivity.
  - left. reflexivity.
Defined.

(** X3 at the three sample rows of an option chain. *)
Lemma chain_options_invariant_witness :
  exists options,
    parse_chain [chain_header; untraded; call_only; both_traded] = Ok options
    /\ length options = 3%nat
    /\ forall o, In o options ->
         Opt.symbol o = Some "NIFTY" /\ Opt.expiry_days o = Int 14
         /\ Opt.position o = None /\ Opt.spot_price o = None.
Proof.
  destruct (parse_chain [chain_header; untraded; call_only; both_traded])
    as [options | e] eqn:Hparse; [| vm_compute in Hparse; discriminate Hparse].
  destruct (chain_options_invariant decimal_float august_14 july_31 _ _ _ _ Hparse)
    as (_ & _ & Hall).
  exists options. split; [reflexivity |]. split.
  - vm_compute in Hparse. inversion Hparse. reflexivity.
  - intros o Hin. destruct (Hall o Hin) as (Hsymbol & _ & _ & Hexpiry & Hposition & Hspot).
    split; [exact Hsymbol |]. split; [| split; assumption].
    rewrite Hexpiry. vm_compute. reflexivity.
Defined.

(** X5 with the decimal reading of [float], which rejects [-]. *)
Lemma price_cells_ignore_separators_witness :
  decimal_float "-" = None
  /\ _parse_price decimal_float "23,000.00" = Some (Float 23000)
  /\ _parse_price decimal_float (remove_char "," "23,000.00")
     = _parse_price decimal_float "23,000.00"
  /\ _parse_percentage decimal_float "12.5%" = Some (Float 0.125).
Proof.
  assert (Hdash : decimal_float "-" = None) by reflexivity.
  destruct (price_cells_ignore_separators decimal_float Hdash) as [Hprice Hpct].
  split; [exact Hdash |]. split; [vm_compute; reflexivity |].
  split; [exact (Hprice "23,000.00") |].
  rewrite (Hpct "12.5%"). vm_compute. reflexivity.
Defined.

(** X7 at a row cut after its symbol, between two full rows. *)
Lemma portfolio_short_row_aborts_witness :
  (exists o, parse_portfolio [portfolio_row "100"] = Ok [o])
  /\ short_portfolio_row !! "position" = Some None
  /\ parse_portfolio [portfolio_row "100"; short_portfolio_row; portfolio_row "110"]
     = Raise TypeError.
Proof.
  destruct (parse_portfolio [portfolio_row "100"]) as [earlier | e] eqn:Hparse;
    [| vm_compute in Hparse; discriminate Hparse].
  split; [vm_compute in Hparse; inversion Hparse; eauto |].
  split; [reflexivity |].
  exact (proj2 (portfolio_short_row_aborts decimal_float [portfolio_row "100"]
                  short_portfolio_row [portfolio_row "110"] earlier Hparse)
           (Some "AAPL") eq_refl eq_refl).
Defined.

(** X8 at a row whose option type reads [CALL] and whose expiry is a quarter
    of a year. *)
Lemma portfolio_option_of_row_witness :
  exists o,
    portfolio_option decimal_float (portfolio_line "CALL") = Ok o
    /\ Opt.symbol o = Some "AAPL"
    /\ Opt.option_type o = "call"
    /\ Opt.expiry_days o = Float 91.25
    /\ Opt.market_price o = None.
Proof.
  destruct (portfolio_option decimal_float (portfolio_line "CALL")) as [o | e] eqn:Hrow;
    [| vm_compute in Hrow; discriminate Hrow].
  destruct (portfolio_option_of_row decimal_float _ o Hrow)
    as (position & spot & strike & expiry & volatility & option_type & p & s & k & e & v
        & _ & _ & _ & _ & _ & _ & Hexpiry & He & _ & _ & Htype & Hsymbol
        & _ & _ & _ & Hdays & _ & Hlower & Hmarket).
  assert (Hcells : portfolio_line "CALL" !! "symbol" = Some (Some "AAPL")
                   /\ portfolio_line "CALL" !! "option_type" = Some (Some "CALL")
                   /\ portfolio_line "CALL" !! "expiry" = Some (Some "0.25"))
    by (repeat split; vm_compute; reflexivity).
  destruct Hcells as (Hcell & Hcell' & Hcell'').
  assert (option_type = "CALL") by congruence.
  assert (expiry = "0.25") by congruence. subst option_type expiry.
  exists o. split; [reflexivity |]. split; [congruence |].
  split; [rewrite Hlower; reflexivity |]. split; [| exact Hmarket].
  rewrite Hdays. vm_compute in He. injection He as <-. vm_compute. reflexivity.
Defined.

(** X10 at the sample portfolio file of one row. *)
Lemma report_lists_parsed_options_witness :
  exists meta r s o,
    analyze_fixed portfolio_file "table" None (Float 0.05) = Ok (Report meta [r] s)
    /\ detect_and_parse decimal_float august_14 july_31 portfolio_file
       = Ok ([o], "portfolio")
    /\ Res.symbol r = Opt.symbol o
    /\ Res.strike r = Opt.strike o
    /\ Meta.total_options meta = 1
    /\ Meta.filename meta = "sample_portfolio.csv".
Proof.
  destruct (analyze_fixed portfolio_file "table" None (Float 0.05)) as [rep | e] eqn:Hrun;
    [| vm_compute in Hrun; discriminate Hrun].
  destruct (report_lists_parsed_options decimal_float august_14 july_31 _ fixed_price
              portfolio_file "table" None (Float 0.05) rep Hrun)
    as (options & format_type & Hparse & Hrep).
  assert (Hshape : exists meta r s, rep = Report meta [r] s).
  { vm_compute in Hrun. inversion Hrun. eauto. }
  destruct Hshape as (meta & r & s & ->).
  assert (Hoptions : exists o, options = [o] /\ format_type = "portfolio").
  { pose proof Hparse as H. vm_compute in H. inversion H. eauto. }
  destruct Hoptions as (o & -> & ->).
  destruct Hrep as (_ & Hcopy & Htotal & _ & Hname & _).
  inversion Hcopy as [| ? ? ? ? Hr _].
  destruct Hr as (Hsymbol & _ & Hstrike & _).
  exists meta, r, s, o. split; [reflexivity |]. split; [exact Hparse |].
  split; [exact Hsymbol |]. split; [exact Hstrike |].
  split; [exact Htotal | exact Hname].
Defined.

(** X11 at the sample portfolio file: with the spot 250 given, and with no
    spot given, where the first row's spot of 100 is taken. *)
Lemma report_spot_price_witness :
  (exists meta r s,
     analyze_fixed portfolio_file "table" (Some (Float 250)) (Float 0.05)
     = Ok (Report meta [r] s)
     /\ Meta.spot_price meta = Float 250 /\ Res.spot_price r = Float 250)
  /\ (exists meta r s,
        analyze_fixed portfolio_file "table" None (Float 0.05) = Ok (Report meta [r] s)
        /\ Meta.spot_price meta = Float 100 /\ Res.spot_price r = Float 100).
Proof.
  split.
  - destruct (analyze_fixed portfolio_file "table" (Some (Float 250)) (Float 0.05))
      as [rep | e] eqn:Hrun; [| vm_compute in Hrun; discriminate Hrun].
    assert (Hshape : exists meta r s, rep = Report meta [r] s).
    { vm_compute in Hrun. inversion Hrun. eauto. }
    destruct Hshape as (meta & r & s & ->).
    destruct (proj1 (report_spot_price decimal_float august_14 july_31 _ fixed_price
                       portfolio_file "table" (Some (Float 250)) (Float 0.05)
                       meta [r] s Hrun) (Float 250) eq_refl) as [Hmeta Hresults].
    exists meta, r, s. split; [reflexivity |]. split; [exact Hmeta |].
    exact (Forall_inv Hresults).
  - destruct (analyze_fixed portfolio_file "table" None (Float 0.05))
      as [rep | e] eqn:Hrun; [| vm_compute in Hrun; discriminate Hrun].
    assert (Hshape : exists meta r s, rep = Report meta [r] s).
    { vm_compute in Hrun. inversion Hrun. eauto. }
    destruct Hshape as (meta & r & s & ->).
    destruct (proj2 (report_spot_price decimal_float august_14 july_31 _ fixed_price
                       portfolio_file "table" None (Float 0.05)
                       meta [r] s Hrun) eq_refl)
      as (first & rest & format_type & Hparse & Hportfolio & _).
    assert (Hfirst : format_type = "portfolio" /\ Opt.spot_price first = Some (Float 100)).
    { vm_compute in Hparse. inversion Hparse. split; reflexivity. }
    destruct Hfirst as [-> Hfirst].
    destruct (Hportfolio eq_refl) as [Hmeta Hresults].
    rewrite Hfirst in Hmeta, Hresults.
    exists meta, r, s. split; [reflexivity |]. split; [exact Hmeta |].
    exact (Forall_inv Hresults).
Defined.

(** X16 at a portfolio file of two rows and an executable that exits with
    status 1. *)
Lemma analysis_survives_failed_pricing_witness :
  exists meta first second,
    analyze_csv decimal_float august_14 july_31 "2025-07-31T09:30:00"
      (Client.calculate_option_price decimal_float exact_str_float exits_with_error "bsm")
      two_strikes "table" None (Float 0.0625)
    = Ok (Report meta [first; second] (SummaryError "No successful calculations"))
    /\ Res.calculation_success first = false
    /\ Res.theoretical_price first = Float 0
    /\ Res.calculation_success second = false
    /\ Res.theoretical_price second = Float 0.
Proof.
  destruct (detect_and_parse decimal_float august_14 july_31 two_strikes)
    as [[options format_type] | e] eqn:Hparse;
    [| vm_compute in Hparse; discriminate Hparse].
  assert (Hoptions : exists o o', options = [o; o']).
  { vm_compute in Hparse. inversion Hparse. eauto. }
  destruct Hoptions as (o & o' & ->).
  destruct (proj2 (analysis_survives_failed_pricing decimal_float august_14 july_31
                     "2025-07-31T09:30:00" exact_str_float exits_with_error "bsm"
                     two_strikes "table" None (Float 0.0625) [o; o'] format_type Hparse))
    as (meta & results & Hrun & Hlength & Hfailed).
  - intros cmd. reflexivity.
  - discriminate.
  - destruct results as [| first [| second [| third rest]]]; try discriminate Hlength.
    exists meta, first, second. split; [exact Hrun |].
    destruct (Forall_inv Hfailed) as (Hsuccess & Hprice & _).
    destruct (Forall_inv (Forall_inv_tail Hfailed)) as (Hsuccess' & Hprice' & _).
    auto.
Defined.

(** X17 at a portfolio file of two rows and an executable that answers for
    the first and cannot be started for the second. *)
Lemma analysis_stops_when_executable_cannot_start_witness :
  (exists first second,
     detect_and_parse decimal_float august_14 july_31 two_strikes
     = Ok ([first; second], "portfolio")
     /\ raises (Client.calculate_option_price decimal_float exact_str_float runs_at_100
                  "bsm" first (Float 100) (Float 0.0625)) = false)
  /\ analyze_csv decimal_float august_14 july_31 "2025-07-31T09:30:00"
       (Client.calculate_option_price decimal_float exact_str_float runs_at_100 "bsm")
       two_strikes "table" None (Float 0.0625)
     = Raise OSError.
Proof.
  destruct (detect_and_parse decimal_float august_14 july_31 two_strikes)
    as [[options format_type] | e] eqn:Hparse;
    [| vm_compute in Hparse; discriminate Hparse].
  assert (Hoptions : exists first second,
            options = [first; second] /\ format_type = "portfolio"
            /\ Opt.spot_price first = Some (Float 100)
            /\ Opt.strike first = Float 100 /\ Opt.strike second = Float 110
            /\ raises (Client.calculate_option_price decimal_float exact_str_float
                         runs_at_100 "bsm" first (Float 100) (Float 0.0625)) = false).
  { vm_compute in Hparse. inversion Hparse. do 2 eexists.
    split; [reflexivity |]. repeat split; vm_compute; reflexivity. }
  destruct Hoptions as (first & second & -> & -> & Hspot & Hfirst & Hsecond & Hpriced).
  split; [exists first, second; split; [reflexivity | exact Hpriced] |].
  apply (analysis_stops_when_executable_cannot_start decimal_float august_14 july_31
           "2025-07-31T09:30:00" exact_str_float runs_at_100 "bsm"
           two_strikes "table" None (Float 0.0625) [first] second [] "portfolio"
           (Float 100) OSError).
  - exact Hparse.
  - simpl. rewrite Hspot. reflexivity.
  - intros o' [<- | []]. unfold Client.command. rewrite Hfirst. reflexivity.
  - unfold Client.command. rewrite Hsecond. reflexivity.
  - reflexivity.
Defined.

(** X21 at a result without market price and one without symbol: the text
    reads back as the column names and the values of both. *)
Lemma csv_report_reads_back_witness :
  List.map (split_on ",")
    (split_on "010"
       (Format._format_as_csv exact_str_float
          (Report (sample_meta 2)
             [priced_result (Some "AAPL") None; priced_result None (Some (Float 5))]
             (SummaryError "No successful calculations"))))
  = [split_on "," Format.csv_header;
     ["AAPL"; "call"; "100.0"; "91.25"; "0.25"; "None"; "4.0"; ""; ""; "0.5";
      "0.03125"; "12.0"; "-5.0"; "1"];
     ["None"; "call"; "100.0"; "91.25"; "0.25"; "5.0"; "4.0"; "1.0"; "25.0"; "0.5";
      "0.03125"; "12.0"; "-5.0"; "1"]].
Proof.
  rewrite (csv_report_reads_back exact_str_float); [| vm_compute; reflexivity].
  vm_compute. reflexivity.
Defined.

(** X22 at the option-chain file of three rows, printed as a table. *)
Lemma chain_report_prints_witness :
  contains "symbol,position,spot,strike" (lower (first_line chain_file)) = false
  /\ exists rep text,
       analyze_fixed chain_file "table" None (Float 0.05) = Ok rep
       /\ Format.render exact_str_float plain_format braces rep "table" = Ok text.
Proof.
  assert (Hformat : contains "symbol,position,spot,strike"
                      (lower (first_line chain_file)) = false) by reflexivity.
  split; [exact Hformat |].
  destruct (analyze_fixed chain_file "table" None (Float 0.05)) as [rep | e] eqn:Hrun;
    [| vm_compute in Hrun; discriminate Hrun].
  destruct (chain_report_prints decimal_float august_14 july_31 _ fixed_price
              exact_str_float plain_format braces chain_file "table" None (Float 0.05)
              rep "table" Hformat Hrun) as (text & Htext).
  exists rep, text. split; [reflexivity | exact Htext].
Defined.

(** X23 at a portfolio file of two rows, priced by an executable that prints
    price 4.0 and delta 0.5. *)
Lemma portfolio_csv_market_columns_witness :
  exists meta first second s,
    analyze_csv decimal_float august_14 july_31 "2025-07-31T09:30:00"
      (Client.calculate_option_price decimal_float exact_str_float answers_priced "bsm")
      two_strikes "csv" None (Float 0.0625)
    = Ok (Report meta [first; second] s)
    /\ Format.csv_row exact_str_float first
       = "AAPL,call,100.0,91.25,0.25,None,4.0,,,0.5,0.03125,12.0,-5.0,1.0"
    /\ Format.csv_row exact_str_float second
       = "AAPL,call,110.0,91.25,0.25,None,4.0,,,0.5,0.03125,12.0,-5.0,1.0".
Proof.
  destruct (analyze_csv decimal_float august_14 july_31 "2025-07-31T09:30:00"
              (Client.calculate_option_price decimal_float exact_str_float
                 answers_priced "bsm")
              two_strikes "csv" None (Float 0.0625)) as [rep | e] eqn:Hrun;
    [| vm_compute in Hrun; discriminate Hrun].
  pose (row := fun r : Res.t =>
          String.concat ","
            [default "None" (Res.symbol r); Res.option_type r;
             Format.str exact_str_float (Res.strike r);
             Format.str exact_str_float (Res.expiry_days r);
             Format.str exact_str_float (Res.implied_volatility r);
             "None";
             Format.str exact_str_float (Res.theoretical_price r);
             ""; "";
             Format.str exact_str_float (Res.delta r);
             Format.str exact_str_float (Res.gamma r);
             Format.str exact_str_float (Res.vega r);
             Format.str exact_str_float (Res.theta r);
             Format.str exact_str_float (Res.position r)]).
  assert (Hshape : exists meta first second s,
            rep = Report meta [first; second] s
            /\ row first = "AAPL,call,100.0,91.25,0.25,None,4.0,,,0.5,0.03125,12.0,-5.0,1.0"
            /\ row second
               = "AAPL,call,110.0,91.25,0.25,None,4.0,,,0.5,0.03125,12.0,-5.0,1.0").
  { vm_compute in Hrun. inversion Hrun. do 4 eexists.
    split; [reflexivity |]. split; vm_compute; reflexivity. }
  destruct Hshape as (meta & first & second & s & -> & Hfirst & Hsecond).
  pose proof (portfolio_csv_market_columns decimal_float august_14 july_31 _ _
                exact_str_float two_strikes "csv" None (Float 0.0625)
                meta [first; second] s eq_refl Hrun) as Hrows.
  exists meta, first, second, s. split; [reflexivity |].
  split; [rewrite (Forall_inv Hrows); exact Hfirst |].
  rewrite (Forall_inv (Forall_inv_tail Hrows)). exact Hsecond.
Defined.

(** ** The JSON form at sample reports *)

(** The analysis of a portfolio file of two rows, priced by an executable
    that prints price 4.0, delta 0.5 and vega 50.0, at the spot given on the
    command line. *)
Local Abbreviation analyze_round :=
  (analyze_csv decimal_float august_14 july_31 "2025-07-31T09:30:00"
     (Client.calculate_option_price decimal_float exact_str_float answers_round "bsm")
     two_strikes "json").


